(** * XDPoS v1 consensus engine: header signing, leader rotation, seal
      verification and sealing

    A shallow embedding of [consensus/XDPoS/engines/engine_v1/engine.go].
    Go values are modelled as follows.

    - [uint64], [int] and [big.Int] values are integers in [Z]; wrap-around
      of [uint64] arithmetic is written out with [u64]; Go's [/] and [%] on
      [int] are [Z.quot] and [Z.rem].
    - [[]byte], [common.Address] and [common.Hash] are lists of bytes.
    - Go maps are [gmap]s, map-backed sets are [gset]s.
    - A function returning [(T, error)] returns [Error + T]; a function
      returning only [error] returns [option Error] ([None] is [nil]).
    - The engine [c *XDPoS_v1] is threaded as explicit state; a run that
      panics (nil dereference, slice out of range, division by zero)
      yields [None]. *)

From Stdlib Require Import ZArith Lia.
From Stdlib.Strings Require Import Byte String.
From stdpp Require Import base decidable option countable list gmap.

Open Scope Z_scope.

(** ** Bytes *)

Abbreviation byte := Byte.byte.

#[global] Instance byte_eq_dec : EqDecision byte := Byte.byte_eq_dec.

Definition byte_of_N (n : N) : byte := default x00 (Byte.of_N n).

Lemma byte_of_to_N (b : byte) : byte_of_N (Byte.to_N b) = b.
Proof. unfold byte_of_N. now rewrite Byte.of_to_N. Qed.

#[global] Instance byte_countable : Countable byte :=
  inj_countable' Byte.to_N byte_of_N byte_of_to_N.

(** [len(b)] as a Go [int]. *)
Definition len {A} (l : list A) : Z := Z.of_nat (length l).

(** [b[i:]] and [b[i:j]] for in-range bounds. *)
Definition slice_from {A} (l : list A) (i : Z) : list A := drop (Z.to_nat i) l.

Definition slice {A} (l : list A) (i j : Z) : list A :=
  take (Z.to_nat (j - i)) (drop (Z.to_nat i) l).

(** Wrap-around of [uint64] and of [int64] arithmetic. *)
Definition u64 (x : Z) : Z := x mod 2 ^ 64.

Definition i64 (x : Z) : Z := (x + 2 ^ 63) mod 2 ^ 64 - 2 ^ 63.

(** [x.Uint64()] on a [big.Int]: the low 64 bits of the magnitude. *)
Definition Uint64 (x : Z) : Z := Z.abs x mod 2 ^ 64.

(** [x.Int64()] on a [big.Int]: the low 64 bits of the magnitude as an
    [int64], negated when [x] is negative. *)
Definition Int64 (x : Z) : Z :=
  let v := i64 (Z.abs x mod 2 ^ 64) in
  if x <? 0 then i64 (- v) else v.

(** ** Package [common] *)

Module common.

(** [common.Address] is a [[20]byte], [common.Hash] a [[32]byte]. *)
Definition Address := list byte.
Definition Hash := list byte.

(** Modelled from the spec: [common.AddressLength] is declared outside src/;
    the spec gives an address 20 bytes. *)
Definition AddressLength : Z := 20.

(** [common.Address{}] and [common.Hash{}]. *)
Definition zeroAddress : Address := replicate 20 x00.
Definition zeroHash : Hash := replicate 32 x00.

(** Modelled from the spec: [common.LimitPenaltyEpoch] is declared outside
    src/; the spec gives LIMIT_PENALTY_EPOCH as 4. *)
Definition LimitPenaltyEpoch : Z := 4.

(** [copy(a[:], src)] into a zeroed [[20]byte]. *)
Definition copyAddress (src : list byte) : Address :=
  take 20 (src ++ replicate 20 x00).

End common.

(** ** Package [utils]: constants and [Hop] *)

Module utils.

(** Modelled from the spec: [utils.ExtraVanity] is declared outside src/; the
    spec lays the extra-data out as vanity (32), signer list, seal (65). *)
Definition ExtraVanity : Z := 32.

(** Modelled from the spec: [utils.ExtraSeal] is declared outside src/; the
    spec gives the seal 65 bytes. *)
Definition ExtraSeal : Z := 65.

(** Modelled from the spec: [utils.NonceAuthVote] is declared outside src/;
    the spec gives the authorize-vote nonce as 0xff..ff. *)
Definition NonceAuthVote : list byte := replicate 8 xff.

(** Modelled from the spec: [utils.NonceDropVote] is declared outside src/;
    the spec gives the drop-vote nonce as 0x00..00. *)
Definition NonceDropVote : list byte := replicate 8 x00.

(** Modelled from the spec: [utils.Hop] is defined outside src/. The spec
    describes it as the forward distance modulo the set size, which scores
    the signer on turn highest: the number of forward steps around the ring
    of masternodes from the slot after [pre], the slot on turn, to [cur]. *)
Definition Hop (len pre cur : Z) : Z := (cur - (pre + 1)) mod len.

End utils.

(** ** Errors *)

Inductive Error : Type :=
  | ErrUnknownBlock
  | ErrNoValidatorSignature
  | ErrFutureBlock
  | ErrInvalidCheckpointBeneficiary
  | ErrInvalidVote
  | ErrInvalidCheckpointVote
  | ErrMissingVanity
  | ErrMissingSignature
  | ErrExtraSigners
  | ErrInvalidCheckpointSigners
  | ErrInvalidCheckpointPenalties
  | ErrInvalidMixDigest
  | ErrInvalidUncleHash
  | ErrUnknownAncestor
  | ErrInvalidTimestamp
  | ErrInvalidDifficulty
  | ErrUnauthorized
  | ErrFailedDoubleValidation
  | ErrFailValidatorSignature
  | ErrWaitTransactions
  | ErrOther (msg : string).

#[global] Instance Error_eq_dec : EqDecision Error.
Proof. solve_decision. Defined.

(** ** Package [types]: headers and blocks *)

Module types.

(** The fields of [types.Header] the engine reads. [Number] is tested for
    nil by the engine; [Difficulty] and [Time] are dereferenced unguarded and
    are taken to be set. *)
Record Header : Type := mkHeader {
  ParentHash : common.Hash;
  UncleHash : common.Hash;
  Coinbase : common.Address;
  Root : common.Hash;
  TxHash : common.Hash;
  ReceiptHash : common.Hash;
  Bloom : list byte;
  Difficulty : Z;
  Number : option Z;            (* [*big.Int], [None] is nil *)
  GasLimit : Z;
  GasUsed : Z;
  Time : Z;
  Extra : list byte;
  MixDigest : common.Hash;
  Nonce : list byte;            (* [BlockNonce], [8]byte *)
  Validators : list byte;
  Validator : list byte;
  Penalties : list byte
}.

Record Block : Type := mkBlock {
  header : Header;
  transactions : list (list byte);
  penalties : option (list byte)   (* [block.Penalties()], [None] is nil *)
}.

(** [block.WithSeal(header)]. *)
Definition WithSeal (b : Block) (h : Header) : Block :=
  {| header := h; transactions := transactions b; penalties := penalties b |}.

(** The assignments [header.Extra = e] and [header.Validator = v]. *)
Definition setExtra (h : Header) (e : list byte) : Header :=
  mkHeader (ParentHash h) (UncleHash h) (Coinbase h) (Root h) (TxHash h)
    (ReceiptHash h) (Bloom h) (Difficulty h) (Number h) (GasLimit h)
    (GasUsed h) (Time h) e (MixDigest h) (Nonce h) (Validators h)
    (Validator h) (Penalties h).

Definition setValidator (h : Header) (v : list byte) : Header :=
  mkHeader (ParentHash h) (UncleHash h) (Coinbase h) (Root h) (TxHash h)
    (ReceiptHash h) (Bloom h) (Difficulty h) (Number h) (GasLimit h)
    (GasUsed h) (Time h) (Extra h) (MixDigest h) (Nonce h) (Validators h)
    v (Penalties h).

End types.

Import types.

(** ** Configuration, chain reader, snapshots and the engine *)

(** [params.XDPoSConfig] and [params.ChainConfig], as far as the engine
    reads them. *)
Record XDPoSConfig : Type := {
  Epoch : Z;
  Period : Z;
  Gap : Z
}.

Record ChainConfig : Type := {
  XDPoS : XDPoSConfig;
  IsTIPSigning : option Z -> bool
}.

(** [consensus.ChainReader]: pure reads of the chain; a missing header or
    block is nil. *)
Record ChainReader : Type := {
  Config : ChainConfig;
  GetHeader : common.Hash -> Z -> option Header;
  GetHeaderByNumber : Z -> option Header;
  GetBlock : common.Hash -> Z -> option Block
}.

Module SnapshotV1.

(** The fields of [SnapshotV1] the engine reads; [Recents] maps a block
    number to the signer of that block. *)
Record t : Type := {
  Number : Z;
  Hash : common.Hash;
  Signers : gset common.Address;
  Recents : gmap Z common.Address
}.

End SnapshotV1.

(** The engine [XDPoS_v1]. The ARC caches are maps from a header hash to
    what was stored under it; eviction is not modelled, every property below
    holds for whatever the caches contain. A hook that is not installed is
    nil. *)
Record XDPoS_v1 : Type := {
  config : XDPoSConfig;
  db : gmap common.Hash SnapshotV1.t;
  recents : gmap common.Hash SnapshotV1.t;
  signatures : gmap common.Hash common.Address;
  validatorSignatures : gmap common.Hash common.Address;
  signer : common.Address;
  signFn : option (common.Address -> list byte -> Error + list byte);
  HookPenalty : option (ChainReader -> Z -> Error + list common.Address);
  HookPenaltyTIPSigning :
    option (ChainReader -> Header -> list common.Address ->
            Error + list common.Address);
  HookVerifyMNs : option (Header -> list common.Address -> option Error);
  HookGetSignersFromContract :
    option (common.Hash -> Error + list common.Address)
}.

(** [c.signatures.Add] and [c.validatorSignatures.Add] replace one field. *)
Definition set_signatures (c : XDPoS_v1) (s : gmap common.Hash common.Address)
  : XDPoS_v1 :=
  {| config := config c; db := db c; recents := recents c; signatures := s;
     validatorSignatures := validatorSignatures c; signer := signer c;
     signFn := signFn c; HookPenalty := HookPenalty c;
     HookPenaltyTIPSigning := HookPenaltyTIPSigning c;
     HookVerifyMNs := HookVerifyMNs c;
     HookGetSignersFromContract := HookGetSignersFromContract c |}.

Definition set_validatorSignatures (c : XDPoS_v1)
  (s : gmap common.Hash common.Address) : XDPoS_v1 :=
  {| config := config c; db := db c; recents := recents c;
     signatures := signatures c; validatorSignatures := s; signer := signer c;
     signFn := signFn c; HookPenalty := HookPenalty c;
     HookPenaltyTIPSigning := HookPenaltyTIPSigning c;
     HookVerifyMNs := HookVerifyMNs c;
     HookGetSignersFromContract := HookGetSignersFromContract c |}.

(** ** The engine monad: state passing with panics *)

Definition Go (A : Type) : Type := XDPoS_v1 -> option (A * XDPoS_v1).

#[global] Instance Go_ret : MRet Go := fun A a c => Some (a, c).

#[global] Instance Go_bind : MBind Go := fun A B f m c =>
  match m c with
  | Some (a, c') => f a c'
  | None => None
  end.

Definition panic {A} : Go A := fun _ => None.

Definition engine : Go XDPoS_v1 := fun c => Some (c, c).

Definition update (f : XDPoS_v1 -> XDPoS_v1) : Go unit :=
  fun c => Some (tt, f c).

(** A pure computation that may panic, run inside the engine monad. *)
Definition run {A} (o : option A) : Go A := fun c =>
  match o with
  | Some a => Some (a, c)
  | None => None
  end.

(** The value a run returns, forgetting the final engine state. *)
Definition result {A} (r : option (A * XDPoS_v1)) : option A := fst <$> r.

(** ** Collaborators outside the engine

    Hashing, RLP, signature recovery and the helpers of [common], [utils],
    [misc] and the snapshot store are not part of [engine.go]; the engine is
    verified for every implementation of this interface. *)

Inductive rlp_item : Type :=
  | RlpBytes (b : list byte)
  | RlpBigInt (n : option Z)
  | RlpUint (n : Z).

Class External : Type := {
  (** [sha3.NewKeccak256] over a byte string, also [crypto.Keccak256] *)
  Keccak256 : list byte -> list byte;
  (** [rlp.Encode] of a list of values *)
  rlp_Encode : list rlp_item -> list byte;
  (** [crypto.Ecrecover(hash, sig)], returning the public key *)
  crypto_Ecrecover : list byte -> list byte -> Error + list byte;
  (** [header.Hash()] *)
  HeaderHash : Header -> common.Hash;
  (** [utils.UncleHash] *)
  utils_UncleHash : common.Hash;
  (** [common.IsTestnet] *)
  IsTestnet : bool;
  (** [common.IgnoreSignerCheckBlock] *)
  IgnoreSignerCheckBlock : Z;
  (** [common.EpocBlockRandomize] *)
  EpocBlockRandomize : Z;
  (** [misc.VerifyForkHashes(config, header, false)] *)
  VerifyForkHashes : ChainConfig -> Header -> option Error;
  (** [utils.CompareSignersLists] *)
  CompareSignersLists : list common.Address -> list common.Address -> bool;
  (** [common.RemoveItemFromArray] *)
  RemoveItemFromArray :
    list common.Address -> list common.Address -> list common.Address;
  (** [common.ExtractAddressFromBytes] and [common.ExtractAddressToBytes] *)
  ExtractAddressFromBytes : list byte -> list common.Address;
  ExtractAddressToBytes : list common.Address -> list byte;
  (** [utils.ExtractValidatorsFromBytes] *)
  ExtractValidatorsFromBytes : list byte -> list Z;
  (** [utils.GetM1M2], its map and error results *)
  GetM1M2 : list common.Address -> list Z -> Header -> ChainConfig ->
            Error + gmap common.Address common.Address;
  (** [snap.GetSigners()] *)
  GetSigners : SnapshotV1.t -> list common.Address;
  (** [c.snapshot(chain, number, hash, parents)] (engine.go:483): it resolves
      through [loadSnapshot], [newSnapshot], [SnapshotV1.apply] and
      [SnapshotV1.store], which are outside src/; its outcome is taken as
      given. It may update the engine's caches and database. *)
  snapshot : ChainReader -> Z -> common.Hash -> list Header ->
             Go (Error + SnapshotV1.t)
}.

Section Engine.

Context `{External}.

(** ** Signing hash and signer recovery *)

(** [sigHash] (engine.go:43). The slice [Extra[:len-65]] panics when the
    extra-data is shorter than 65 bytes. *)
Definition sigHash (header : Header) : option common.Hash :=
  if len (Extra header) <? 65 then None
  else Some (Keccak256 (rlp_Encode [
    RlpBytes (ParentHash header);
    RlpBytes (UncleHash header);
    RlpBytes (Coinbase header);
    RlpBytes (Root header);
    RlpBytes (TxHash header);
    RlpBytes (ReceiptHash header);
    RlpBytes (Bloom header);
    RlpBigInt (Some (Difficulty header));
    RlpBigInt (Number header);
    RlpUint (GasLimit header);
    RlpUint (GasUsed header);
    RlpBigInt (Some (Time header));
    RlpBytes (slice (Extra header) 0 (len (Extra header) - 65));
    RlpBytes (MixDigest header);
    RlpBytes (Nonce header)
  ])).

Definition SigHash (header : Header) : option common.Hash := sigHash header.

(** The address of a recovered public key:
    [copy(signer[:], crypto.Keccak256(pubkey[1:])[12:])]. *)
Definition pubkeyAddress (pubkey : list byte) : common.Address :=
  common.copyAddress (slice_from (Keccak256 (slice_from pubkey 1)) 12).

(** [ecrecover] (engine.go:75) on a cache miss. *)
Definition ecrecoverMiss (header : Header) : option (Error + common.Address) :=
  if len (Extra header) <? utils.ExtraSeal then Some (inl ErrMissingSignature)
  else
    let signature :=
      slice_from (Extra header) (len (Extra header) - utils.ExtraSeal) in
    hash ← sigHash header;
    match crypto_Ecrecover hash signature with
    | inl err => Some (inl err)
    | inr pubkey => Some (inr (pubkeyAddress pubkey))
    end.

(** [ecrecover(header, sigcache)] (engine.go:75). Every call site passes the
    engine's [signatures] cache: directly, or as [snap.sigcache], which the
    snapshot constructors alias to it. *)
Definition ecrecover (header : Header) : Go (Error + common.Address) :=
  c ← engine;
  let hash := HeaderHash header in
  match signatures c !! hash with
  | Some address => mret (inr address)
  | None =>
    r ← run (ecrecoverMiss header);
    match r with
    | inl err => mret (inl err)
    | inr signer =>
      _ ← update (fun c => set_signatures c (<[hash := signer]> (signatures c)));
      mret (inr signer)
    end
  end.

(** [RecoverValidator] (engine.go:955) on a cache miss. *)
Definition RecoverValidatorMiss (header : Header)
  : option (Error + common.Address) :=
  if negb (len (Validator header) =? utils.ExtraSeal)
  then Some (inl ErrFailValidatorSignature)
  else
    hash ← sigHash header;
    match crypto_Ecrecover hash (Validator header) with
    | inl err => Some (inl err)
    | inr pubkey => Some (inr (pubkeyAddress pubkey))
    end.

(** [RecoverValidator] (engine.go:955). *)
Definition RecoverValidator (header : Header) : Go (Error + common.Address) :=
  c ← engine;
  let hash := HeaderHash header in
  match validatorSignatures c !! hash with
  | Some address => mret (inr address)
  | None =>
    r ← run (RecoverValidatorMiss header);
    match r with
    | inl err => mret (inl err)
    | inr signer =>
      _ ← update (fun c =>
             set_validatorSignatures c (<[hash := signer]> (validatorSignatures c)));
      mret (inr signer)
    end
  end.

(** ** Masternodes and leader rotation *)

(** [position] (engine.go:403): the first index of [x], or -1. *)
Fixpoint positionFrom (i : Z) (list : list common.Address) (x : common.Address)
  : Z :=
  match list with
  | [] => -1
  | item :: rest => if decide (item = x) then i else positionFrom (i + 1) rest x
  end.

Definition position (list : list common.Address) (x : common.Address) : Z :=
  positionFrom 0 list x.

(** [GetMasternodesFromCheckpointHeader] (engine.go:1054): the addresses
    between vanity and seal. [make] panics on a negative length. *)
Definition GetMasternodesFromCheckpointHeader (checkpointHeader : Header)
  : option (list common.Address) :=
  let n := Z.quot (len (Extra checkpointHeader) - utils.ExtraVanity - utils.ExtraSeal)
                  common.AddressLength in
  if n <? 0 then None
  else Some (map (fun i : nat =>
                    common.copyAddress
                      (slice_from (Extra checkpointHeader)
                         (utils.ExtraVanity + Z.of_nat i * common.AddressLength)))
                 (seq 0 (Z.to_nat n))).

(** The method of the same name (engine.go:979), which accepts a nil header. *)
Definition XDPoS_v1_GetMasternodesFromCheckpointHeader
  (preCheckpointHeader : option Header) (n e : Z) : option (list common.Address) :=
  match preCheckpointHeader with
  | None => Some []
  | Some h => GetMasternodesFromCheckpointHeader h
  end.

(** [GetMasternodes] (engine.go:412). *)
Definition GetMasternodes (c : XDPoS_v1) (chain : ChainReader) (header : Header)
  : option (list common.Address) :=
  num ← Number header;
  let n := Uint64 num in
  let e := Epoch (config c) in
  if e =? 0 then None
  else if n mod e =? 0
       then XDPoS_v1_GetMasternodesFromCheckpointHeader (Some header) n e
       else XDPoS_v1_GetMasternodesFromCheckpointHeader
              (GetHeaderByNumber chain (n - n mod e)) n e.

(** [GetSnapshot] (engine.go:381). *)
Definition GetSnapshot (chain : ChainReader) (header : Header)
  : Go (Error + SnapshotV1.t) :=
  num ← run (Number header);
  snapshot chain (Uint64 num) (HeaderHash header) [].

(** [whoIsCreator] (engine.go:428). *)
Definition whoIsCreator (snap : SnapshotV1.t) (header : Header)
  : Go (Error + common.Address) :=
  num ← run (Number header);
  if Uint64 num =? 0 then mret (inl (ErrOther "Don't take block 0"))
  else ecrecover header.

(** [YourTurn] (engine.go:439). *)
Definition YourTurn (chain : ChainReader) (parent : Header)
  (signer : common.Address) : Go (Z * Z * Z * bool * option Error) :=
  c ← engine;
  masternodes ← run (GetMasternodes c chain parent);
  r ← GetSnapshot chain parent;
  match r with
  | inl err => mret (0, -1, -1, false, Some err)
  | inr snap =>
    if len masternodes =? 0
    then mret (0, -1, -1, false, Some (ErrOther "Masternodes not found"))
    else
      num ← run (Number parent);
      r ← (if negb (Uint64 num =? 0)
           then r ← whoIsCreator snap parent;
                match r with
                | inl err => mret (inl err)
                | inr pre => mret (inr (position masternodes pre))
                end
           else mret (inr (-1)));
      match r with
      | inl err => mret (0, 0, 0, false, Some err)
      | inr preIndex =>
        let curIndex := position masternodes signer in
        if Z.rem (preIndex + 1) (len masternodes) =? curIndex
        then mret (len masternodes, preIndex, curIndex, true, None)
        else mret (len masternodes, preIndex, curIndex, false, None)
      end
  end.

(** [calcDifficulty] (engine.go:943). *)
Definition calcDifficulty (chain : ChainReader) (parent : Header)
  (signer : common.Address) : Go Z :=
  '(len, preIndex, curIndex, _, err) ← YourTurn chain parent signer;
  match err with
  | Some _ => mret (len + curIndex - preIndex)
  | None => mret (len - utils.Hop len preIndex curIndex)
  end.



(** ** Double validation *)

(** [GetM1M2FromCheckpointHeader] (engine.go:1063). *)
Definition GetM1M2FromCheckpointHeader (checkpointHeader currentHeader : Header)
  (config : ChainConfig) : option (Error + gmap common.Address common.Address) :=
  num ← Number checkpointHeader;
  if EpocBlockRandomize =? 0 then None
  else if negb (Uint64 num mod EpocBlockRandomize =? 0)
  then Some (inl (ErrOther "This block is not checkpoint block epoc."))
  else
    masternodes ← GetMasternodesFromCheckpointHeader checkpointHeader;
    let validators := ExtractValidatorsFromBytes (Validators checkpointHeader) in
    Some (GetM1M2 masternodes validators currentHeader config).

(** [GetValidator] (engine.go:670); [m[creator]] is the zero address for a
    creator the map does not hold. *)
Definition GetValidator (c : XDPoS_v1) (creator : common.Address)
  (chain : ChainReader) (header : Header) : option (Error + common.Address) :=
  num ← Number header;
  let epoch := Epoch (config c) in
  let no := Uint64 num in
  if epoch =? 0 then None
  else
    let cpNo := if negb (no mod epoch =? 0) then no - no mod epoch else no in
    if cpNo =? 0 then Some (inr common.zeroAddress)
    else
      let cpHeader :=
        match GetHeaderByNumber chain cpNo with
        | Some h => inr h
        | None => if no mod epoch =? 0 then inr header
                  else inl (ErrOther "couldn't find checkpoint header")
        end in
      match cpHeader with
      | inl err => Some (inl err)
      | inr cpHeader =>
        r ← GetM1M2FromCheckpointHeader cpHeader header (Config chain);
        match r with
        | inl err => Some (inl err)
        | inr m => Some (inr (default common.zeroAddress (m !! creator)))
        end
      end.

(** ** Seal verification *)

(** The loop over [snap.Recents] in [verifySeal] (engine.go:635): whether it
    returns [ErrUnauthorized]. *)
Fixpoint signedRecently (recents : list (Z * common.Address))
  (creator : common.Address) (number epoch : Z) : bool :=
  match recents with
  | [] => false
  | (seen, recent) :: rest =>
    if bool_decide (recent = creator)
       && (u64 (number - 2) <? seen)
       && negb (number mod epoch =? 0)
    then true
    else signedRecently rest creator number epoch
  end.

(** The last element of [parents], or the header the chain holds. *)
Definition parentOf (chain : ChainReader) (header : Header)
  (parents : list Header) (number : Z) : option Header :=
  if 0 <? len parents then last parents
  else GetHeader chain (ParentHash header) (u64 (number - 1)).

(** [verifySeal] (engine.go:581). *)
Definition verifySeal (chain : ChainReader) (header : Header)
  (parents : list Header) (fullVerify : bool) : Go (option Error) :=
  num ← run (Number header);
  let number := Uint64 num in
  if number =? 0 then mret (Some ErrUnknownBlock)
  else
    r ← snapshot chain (u64 (number - 1)) (ParentHash header) parents;
    match r with
    | inl err => mret (Some err)
    | inr snap =>
      r ← ecrecover header;
      match r with
      | inl err => mret (Some err)
      | inr creator =>
        parent ← run (parentOf chain header parents number);
        difficulty ← calcDifficulty chain parent creator;
        if (0 <? number)
           && negb (Int64 (Difficulty header) =? Int64 difficulty)
        then mret (Some ErrInvalidDifficulty)
        else
          c ← engine;
          masternodes ← run (GetMasternodes c chain header);
          if negb (bool_decide (creator ∈ SnapshotV1.Signers snap))
             && negb (bool_decide (creator ∈ masternodes))
          then mret (Some ErrUnauthorized)
          else if (1 <? len masternodes)
                  && signedRecently (map_to_list (SnapshotV1.Recents snap))
                       creator number (Epoch (config c))
          then mret (Some ErrUnauthorized)
          else if (Epoch (config c) <? Uint64 num) && fullVerify
          then
            r ← RecoverValidator header;
            match r with
            | inl err => mret (Some err)
            | inr validator =>
              c ← engine;
              r ← run (GetValidator c creator chain header);
              match r with
              | inl err => mret (Some err)
              | inr assignedValidator =>
                if negb (bool_decide (validator = assignedValidator))
                then mret (Some ErrFailedDoubleValidation)
                else mret None
              end
            end
          else mret None
      end
    end.

(** ** Checkpoint signers *)

(** [removePenaltiesFromBlock] (engine.go:1039). *)
Definition removePenaltiesFromBlock (chain : ChainReader)
  (masternodes : list common.Address) (epochNumber : Z)
  : option (list common.Address) :=
  if epochNumber <=? 0 then Some masternodes
  else
    header ← GetHeaderByNumber chain epochNumber;
    block ← GetBlock chain (HeaderHash header) epochNumber;
    match penalties block with
    | Some penalties =>
      Some (RemoveItemFromArray masternodes (ExtractAddressFromBytes penalties))
    | None => Some masternodes
    end.

(** The loop [for i := 1; i <= common.LimitPenaltyEpoch; i++] shared by
    [checkSignersOnCheckpoint] and [Prepare]. *)
Fixpoint removeRecentPenalties (chain : ChainReader) (number epoch : Z)
  (signers : list common.Address) (i : Z) (steps : nat)
  : option (list common.Address) :=
  match steps with
  | O => Some signers
  | S steps' =>
    signers ← (if u64 (i * epoch) <? number
               then removePenaltiesFromBlock chain signers
                      (u64 (number - u64 (i * epoch)))
               else Some signers);
    removeRecentPenalties chain number epoch signers (i + 1) steps'
  end.

(** [checkSignersOnCheckpoint] (engine.go:320). *)
Definition checkSignersOnCheckpoint (c : XDPoS_v1) (chain : ChainReader)
  (header : Header) (signers : list common.Address) : option (option Error) :=
  num ← Number header;
  let number := Uint64 num in
  if number =? IgnoreSignerCheckBlock then Some None
  else
    r ← (if bool_decide (is_Some (HookPenalty c))
            || bool_decide (is_Some (HookPenaltyTIPSigning c))
         then
           r ← (if IsTIPSigning (Config chain) (Number header)
                then hook ← HookPenaltyTIPSigning c; Some (hook chain header signers)
                else hook ← HookPenalty c; Some (hook chain number));
           match r with
           | inl err => Some (inl err)
           | inr penPenalties =>
             let bytePenalties := ExtractAddressToBytes penPenalties in
             if negb (bool_decide (Penalties header = bytePenalties))
             then Some (inl ErrInvalidCheckpointPenalties)
             else Some (inr penPenalties)
           end
         else Some (inr []));
    match r with
    | inl err => Some (Some err)
    | inr penPenalties =>
      let signers := RemoveItemFromArray signers penPenalties in
      signers ← removeRecentPenalties chain number (Epoch (config c)) signers 1
                  (Z.to_nat common.LimitPenaltyEpoch);
      let extraSuffix := len (Extra header) - utils.ExtraSeal in
      if extraSuffix <? utils.ExtraVanity then None
      else
        let masternodesFromCheckpointHeader :=
          ExtractAddressFromBytes
            (slice (Extra header) utils.ExtraVanity extraSuffix) in
        let validSigners :=
          CompareSignersLists masternodesFromCheckpointHeader signers in
        if negb validSigners then Some (Some ErrInvalidCheckpointSigners)
        else
          match HookVerifyMNs c with
          | Some hook => Some (hook header signers)
          | None => Some None
          end
    end.

(** The loop of [getSignersFromContract]: [steps] parents down from [start]. *)
Fixpoint startGapBlock (chain : ChainReader) (number : Z) (start : Header)
  (step : Z) (steps : nat) : option Header :=
  match steps with
  | O => Some start
  | S steps' =>
    h ← GetHeader chain (ParentHash start) (u64 (number - step));
    startGapBlock chain number h (step + 1) steps'
  end.

(** [getSignersFromContract] (engine.go:1110). *)
Definition getSignersFromContract (c : XDPoS_v1) (chain : ChainReader)
  (checkpointHeader : Header) : option (Error + list common.Address) :=
  num ← Number checkpointHeader;
  let number := Uint64 num in
  startGapBlockHeader ←
    startGapBlock chain number checkpointHeader 1
      (Z.to_nat (Gap (XDPoS (Config chain))));
  hook ← HookGetSignersFromContract c;
  match hook (HeaderHash startGapBlockHeader) with
  | inl err => Some (inl (ErrOther "Can't get signers from Smart Contract"))
  | inr signers => Some (inr signers)
  end.

(** ** Header verification *)

(** [verifyCascadingFields] (engine.go:268). *)
Definition verifyCascadingFields (chain : ChainReader) (header : Header)
  (parents : list Header) (fullVerify : bool) : Go (option Error) :=
  num ← run (Number header);
  let number := Uint64 num in
  if number =? 0 then mret None
  else
    match parentOf chain header parents number with
    | None => mret (Some ErrUnknownAncestor)
    | Some parent =>
      pnum ← run (Number parent);
      if negb (Uint64 pnum =? u64 (number - 1))
         || negb (bool_decide (HeaderHash parent = ParentHash header))
      then mret (Some ErrUnknownAncestor)
      else
        c ← engine;
        if Uint64 (Time header)
           <? u64 (Uint64 (Time parent) + Period (config c))
        then mret (Some ErrInvalidTimestamp)
        else if Epoch (config c) =? 0 then panic
        else if negb (number mod Epoch (config c) =? 0)
        then verifySeal chain header parents fullVerify
        else
          r ← snapshot chain (u64 (number - 1)) (ParentHash header) parents;
          match r with
          | inl err => mret (Some err)
          | inr snap =>
            let signers := GetSigners snap in
            c ← engine;
            err ← run (checkSignersOnCheckpoint c chain header signers);
            match err with
            | None => verifySeal chain header parents fullVerify
            | Some _ =>
              c ← engine;
              r ← run (getSignersFromContract c chain header);
              match r with
              | inl err => mret (Some err)
              | inr signers =>
                err ← run (checkSignersOnCheckpoint c chain header signers);
                match err with
                | None => verifySeal chain header parents fullVerify
                | Some err => mret (Some err)
                end
              end
            end
          end
    end.

(** [verifyHeader] (engine.go:203); [now] is [time.Now().Unix()]. *)
Definition verifyHeader (now : Z) (chain : ChainReader) (header : Header)
  (parents : list Header) (fullVerify : bool) : Go (option Error) :=
  let fullVerify := if IsTestnet then false else fullVerify in
  match Number header with
  | None => mret (Some ErrUnknownBlock)
  | Some num =>
    let number := Uint64 num in
    c ← engine;
    if fullVerify && (Epoch (config c) <? Uint64 num)
       && (len (Validator header) =? 0)
    then mret (Some ErrNoValidatorSignature)
    else if fullVerify && (now <? Time header)
    then mret (Some ErrFutureBlock)
    else if Epoch (config c) =? 0 then panic
    else
      let checkpoint := number mod Epoch (config c) =? 0 in
      if checkpoint
         && negb (bool_decide (Coinbase header = common.zeroAddress))
      then mret (Some ErrInvalidCheckpointBeneficiary)
      else if negb (bool_decide (Nonce header = utils.NonceAuthVote))
              && negb (bool_decide (Nonce header = utils.NonceDropVote))
      then mret (Some ErrInvalidVote)
      else if checkpoint
              && negb (bool_decide (Nonce header = utils.NonceDropVote))
      then mret (Some ErrInvalidCheckpointVote)
      else if len (Extra header) <? utils.ExtraVanity
      then mret (Some ErrMissingVanity)
      else if len (Extra header) <? utils.ExtraVanity + utils.ExtraSeal
      then mret (Some ErrMissingSignature)
      else
        let signersBytes :=
          len (Extra header) - utils.ExtraVanity - utils.ExtraSeal in
        if negb checkpoint && negb (signersBytes =? 0)
        then mret (Some ErrExtraSigners)
        else if checkpoint
                && negb (Z.rem signersBytes common.AddressLength =? 0)
        then mret (Some ErrInvalidCheckpointSigners)
        else if negb (bool_decide (MixDigest header = common.zeroHash))
        then mret (Some ErrInvalidMixDigest)
        else if negb (bool_decide (UncleHash header = utils_UncleHash))
        then mret (Some ErrInvalidUncleHash)
        else
          match VerifyForkHashes (Config chain) header with
          | Some err => mret (Some err)
          | None => verifyCascadingFields chain header parents fullVerify
          end
  end.

(** ** Sealing *)

(** What a call of [Seal] does: it returns [(block, err)], or it is parked
    on [<-stop] until the channel is signalled. *)
Inductive SealResult : Type :=
  | Returned (block : option Block) (err : option Error)
  | WaitsOnStop.

(** The loop over [snap.Recents] in [Seal] (engine.go:900): whether the
    signer has to wait for the next block. *)
Fixpoint mustWait (recents : list (Z * common.Address))
  (signer : common.Address) (number epoch : Z) : bool :=
  match recents with
  | [] => false
  | (seen, recent) :: rest =>
    if bool_decide (recent = signer)
       && ((number <? 2) || (u64 (number - 2) <? seen))
       && negb (number mod epoch =? 0)
    then true
    else mustWait rest signer number epoch
  end.

(** [copy(dst, src)]: the first [min(len(dst), len(src))] bytes are replaced. *)
Definition copyBytes (dst src : list byte) : list byte :=
  take (length dst) src ++ drop (length src) dst.

(** [Seal] (engine.go:861). [stop] tells whether the stop channel is
    signalled by the time [Seal] receives from it or polls it. *)
Definition Seal (chain : ChainReader) (block : Block) (stop : bool)
  : Go SealResult :=
  let header := header block in
  num ← run (Number header);
  let number := Uint64 num in
  if number =? 0 then mret (Returned None (Some ErrUnknownBlock))
  else
    c ← engine;
    if (Period (config c) =? 0) && (len (transactions block) =? 0)
       && (Epoch (config c) =? 0)
    then panic
    else if (Period (config c) =? 0) && (len (transactions block) =? 0)
            && negb (number mod Epoch (config c) =? 0)
    then mret (Returned None (Some ErrWaitTransactions))
    else
      let signer := signer c in
      let signFn := signFn c in
      r ← snapshot chain (u64 (number - 1)) (ParentHash header) [];
      match r with
      | inl err => mret (Returned None (Some err))
      | inr snap =>
        c ← engine;
        masternodes ← run (GetMasternodes c chain header);
        if negb (bool_decide (signer ∈ SnapshotV1.Signers snap))
           && negb (bool_decide (signer ∈ masternodes))
        then mret (Returned None (Some ErrUnauthorized))
        else if (1 <? len masternodes)
                && mustWait (map_to_list (SnapshotV1.Recents snap))
                     signer number (Epoch (config c))
        then (if stop then mret (Returned None None) else mret WaitsOnStop)
        else if stop then mret (Returned None None)
        else
          hash ← run (sigHash header);
          signFn ← run signFn;
          match signFn signer hash with
          | inl err => mret (Returned None (Some err))
          | inr sighash =>
            let n := len (Extra header) - utils.ExtraSeal in
            let header :=
              setExtra header
                (slice (Extra header) 0 n
                 ++ copyBytes (slice_from (Extra header) n) sighash) in
            c ← engine;
            r ← run (GetValidator c signer chain header);
            match r with
            | inl err => mret (Returned None (Some (ErrOther "can't get block validator")))
            | inr m2 =>
              let header :=
                if bool_decide (m2 = signer) then setValidator header sighash
                else header in
              mret (Returned (Some (WithSeal block header)) None)
            end
          end
      end.

End Engine.

(** * Vocabulary of the properties *)

Section Vocabulary.

Context `{External}.

(** The verdict of [YourTurn]: its fourth result. *)
Definition onTurn (c : XDPoS_v1) (chain : ChainReader) (parent : Header)
  (signer : common.Address) : bool :=
  match YourTurn chain parent signer c with
  | Some ((_, _, _, turn, _), _) => turn
  | None => false
  end.


(** The parent's rotation data resolve: its checkpoint header lists the
    masternodes [M], which are not empty, its snapshot is found, and [pre] is
    the position in [M] of the creator recovered from its seal, or -1 when
    the parent is the genesis block. The engine is then in state [c']. *)
Definition ParentResolvesTo (c : XDPoS_v1) (chain : ChainReader)
  (parent : Header) (M : list common.Address) (pre : Z) (c' : XDPoS_v1) : Prop :=
  GetMasternodes c chain parent = Some M /\ M <> [] /\
  exists num snap c1,
    Number parent = Some num /\
    GetSnapshot chain parent c = Some (inr snap, c1) /\
    ((Uint64 num = 0 /\ pre = -1 /\ c' = c1) \/
     (Uint64 num <> 0 /\
      exists creator,
        whoIsCreator snap parent c1 = Some (inr creator, c') /\
        pre = position M creator)).

Definition ParentResolves (c : XDPoS_v1) (chain : ChainReader) (parent : Header)
  (M : list common.Address) (pre : Z) : Prop :=
  exists c', ParentResolvesTo c chain parent M pre c'.

End Vocabulary.

Section VerificationVocabulary.

Context `{External}.

(** Two headers that agree on every field except, possibly, the final 65
    bytes of the extra-data. *)
Definition sameExceptSeal (h h' : Header) : Prop :=
  ParentHash h = ParentHash h' /\ UncleHash h = UncleHash h' /\
  Coinbase h = Coinbase h' /\ Root h = Root h' /\ TxHash h = TxHash h' /\
  ReceiptHash h = ReceiptHash h' /\ Bloom h = Bloom h' /\
  Difficulty h = Difficulty h' /\ Number h = Number h' /\
  GasLimit h = GasLimit h' /\ GasUsed h = GasUsed h' /\ Time h = Time h' /\
  MixDigest h = MixDigest h' /\ Nonce h = Nonce h' /\
  Validators h = Validators h' /\ Validator h = Validator h' /\
  Penalties h = Penalties h' /\
  len (Extra h) = len (Extra h') /\
  slice (Extra h) 0 (len (Extra h) - 65)
  = slice (Extra h') 0 (len (Extra h') - 65).

(** Two headers that agree on what [sigHash] reads (engine.go:46-62): the
    fields from the parent hash to the nonce, and the extra-data without its
    final 65 bytes. Nothing is asked of the seal, nor of the fields
    [Validators], [Validator] and [Penalties]. *)
Definition sameSigned (h h' : Header) : Prop :=
  ParentHash h = ParentHash h' /\ UncleHash h = UncleHash h' /\
  Coinbase h = Coinbase h' /\ Root h = Root h' /\ TxHash h = TxHash h' /\
  ReceiptHash h = ReceiptHash h' /\ Bloom h = Bloom h' /\
  Difficulty h = Difficulty h' /\ Number h = Number h' /\
  GasLimit h = GasLimit h' /\ GasUsed h = GasUsed h' /\ Time h = Time h' /\
  MixDigest h = MixDigest h' /\ Nonce h = Nonce h' /\
  slice (Extra h) 0 (len (Extra h) - 65)
  = slice (Extra h') 0 (len (Extra h') - 65).

(** The values [sigHash] hands to the RLP encoder: every field from the
    parent hash to the nonce, the extra-data cut 65 bytes short; the fields
    [Validators], [Validator] and [Penalties] are not among them. *)
Definition signedFields (h : Header) : list rlp_item := [
  RlpBytes (ParentHash h);
  RlpBytes (UncleHash h);
  RlpBytes (Coinbase h);
  RlpBytes (Root h);
  RlpBytes (TxHash h);
  RlpBytes (ReceiptHash h);
  RlpBytes (Bloom h);
  RlpBigInt (Some (Difficulty h));
  RlpBigInt (Number h);
  RlpUint (GasLimit h);
  RlpUint (GasUsed h);
  RlpBigInt (Some (Time h));
  RlpBytes (take (length (Extra h) - 65) (Extra h));
  RlpBytes (MixDigest h);
  RlpBytes (Nonce h)
].

(** The checks of [verifySeal] ahead of the recency rule pass: the header
    is not the genesis block, the parent's snapshot [snap] is found, the
    seal recovers to [creator], the difficulty is the calculated one, and
    [creator] is a signer of the snapshot or one of [masternodes]. The
    engine is then in state [c3]. *)
Definition SealAuthorized (c : XDPoS_v1) (chain : ChainReader) (header : Header)
  (parents : list Header) (num : Z) (snap : SnapshotV1.t)
  (creator : common.Address) (masternodes : list common.Address)
  (c3 : XDPoS_v1) : Prop :=
  Number header = Some num /\ Uint64 num <> 0 /\
  exists c1 c2 parent difficulty,
    snapshot chain (u64 (Uint64 num - 1)) (ParentHash header) parents c
    = Some (inr snap, c1) /\
    ecrecover header c1 = Some (inr creator, c2) /\
    parentOf chain header parents (Uint64 num) = Some parent /\
    calcDifficulty chain parent creator c2 = Some (difficulty, c3) /\
    Int64 (Difficulty header) = Int64 difficulty /\
    GetMasternodes c3 chain header = Some masternodes /\
    (creator ∈ SnapshotV1.Signers snap \/ creator ∈ masternodes).

(** The recency rule of [verifySeal] lets the creator through. *)
Definition NotRecent (snap : SnapshotV1.t) (creator : common.Address)
  (masternodes : list common.Address) (number epoch : Z) : Prop :=
  ((1 <? len masternodes)
   && signedRecently (map_to_list (SnapshotV1.Recents snap)) creator number epoch)
  = false.

(** The double validation at the end of [verifySeal]. *)
Definition doubleValidation (chain : ChainReader) (header : Header)
  (creator : common.Address) : Go (option Error) :=
  r ← RecoverValidator header;
  match r with
  | inl err => mret (Some err)
  | inr validator =>
    c ← engine;
    r ← run (GetValidator c creator chain header);
    match r with
    | inl err => mret (Some err)
    | inr assignedValidator =>
      if negb (bool_decide (validator = assignedValidator))
      then mret (Some ErrFailedDoubleValidation)
      else mret None
    end
  end.


(** A checkpoint header reaches the comparison of its signer list: it is not
    the genesis block, its parent is known, its timestamp respects the
    period, and the parent's snapshot [snap] is found, leaving the engine in
    state [c1]. *)
Definition ReachesSignerCheck (c : XDPoS_v1) (chain : ChainReader)
  (header : Header) (parents : list Header) (num : Z) (snap : SnapshotV1.t)
  (c1 : XDPoS_v1) : Prop :=
  Number header = Some num /\ Uint64 num <> 0 /\
  Epoch (config c) <> 0 /\ Uint64 num mod Epoch (config c) = 0 /\
  (exists parent pnum,
     parentOf chain header parents (Uint64 num) = Some parent /\
     Number parent = Some pnum /\
     Uint64 pnum = u64 (Uint64 num - 1) /\
     HeaderHash parent = ParentHash header /\
     u64 (Uint64 (Time parent) + Period (config c)) <= Uint64 (Time header)) /\
  snapshot chain (u64 (Uint64 num - 1)) (ParentHash header) parents c
  = Some (inr snap, c1).

(** The checks of [Seal] ahead of the stop channel pass: the block is not
    the genesis block, it is not an empty block of a 0-period chain, the
    parent's snapshot [snap] is found, and the local signer is a signer of
    the snapshot or a masternode. *)
Definition MaySeal (c : XDPoS_v1) (chain : ChainReader) (block : Block) : Prop :=
  exists num snap c1 masternodes,
    Number (header block) = Some num /\ Uint64 num <> 0 /\
    Epoch (config c) <> 0 /\
    ((Period (config c) =? 0) && (len (transactions block) =? 0)
     && negb (Uint64 num mod Epoch (config c) =? 0)) = false /\
    snapshot chain (u64 (Uint64 num - 1)) (ParentHash (header block)) [] c
    = Some (inr snap, c1) /\
    GetMasternodes c1 chain (header block) = Some masternodes /\
    (signer c ∈ SnapshotV1.Signers snap \/ signer c ∈ masternodes).

End VerificationVocabulary.
(** * The rest of the engine's interface

    The functions of [engine.go] that the properties of rotation, seal
    verification and sealing above do not go through: the memoised header
    verification, the queries on the signer set, [UpdateMasternodes] and
    [Prepare]. *)

(** The assignments to the other header fields that [Prepare] writes. *)
Definition setCoinbase (h : Header) (a : common.Address) : Header :=
  mkHeader (ParentHash h) (UncleHash h) a (Root h) (TxHash h)
    (ReceiptHash h) (Bloom h) (Difficulty h) (Number h) (GasLimit h)
    (GasUsed h) (Time h) (Extra h) (MixDigest h) (Nonce h) (Validators h)
    (Validator h) (Penalties h).

Definition setNonce (h : Header) (nonce : list byte) : Header :=
  mkHeader (ParentHash h) (UncleHash h) (Coinbase h) (Root h) (TxHash h)
    (ReceiptHash h) (Bloom h) (Difficulty h) (Number h) (GasLimit h)
    (GasUsed h) (Time h) (Extra h) (MixDigest h) nonce (Validators h)
    (Validator h) (Penalties h).

Definition setDifficulty (h : Header) (d : Z) : Header :=
  mkHeader (ParentHash h) (UncleHash h) (Coinbase h) (Root h) (TxHash h)
    (ReceiptHash h) (Bloom h) d (Number h) (GasLimit h)
    (GasUsed h) (Time h) (Extra h) (MixDigest h) (Nonce h) (Validators h)
    (Validator h) (Penalties h).

Definition setTime (h : Header) (t : Z) : Header :=
  mkHeader (ParentHash h) (UncleHash h) (Coinbase h) (Root h) (TxHash h)
    (ReceiptHash h) (Bloom h) (Difficulty h) (Number h) (GasLimit h)
    (GasUsed h) t (Extra h) (MixDigest h) (Nonce h) (Validators h)
    (Validator h) (Penalties h).

Definition setMixDigest (h : Header) (d : common.Hash) : Header :=
  mkHeader (ParentHash h) (UncleHash h) (Coinbase h) (Root h) (TxHash h)
    (ReceiptHash h) (Bloom h) (Difficulty h) (Number h) (GasLimit h)
    (GasUsed h) (Time h) (Extra h) d (Nonce h) (Validators h)
    (Validator h) (Penalties h).

Definition setValidators (h : Header) (v : list byte) : Header :=
  mkHeader (ParentHash h) (UncleHash h) (Coinbase h) (Root h) (TxHash h)
    (ReceiptHash h) (Bloom h) (Difficulty h) (Number h) (GasLimit h)
    (GasUsed h) (Time h) (Extra h) (MixDigest h) (Nonce h) v
    (Validator h) (Penalties h).

Definition setPenalties (h : Header) (p : list byte) : Header :=
  mkHeader (ParentHash h) (UncleHash h) (Coinbase h) (Root h) (TxHash h)
    (ReceiptHash h) (Bloom h) (Difficulty h) (Number h) (GasLimit h)
    (GasUsed h) (Time h) (Extra h) (MixDigest h) (Nonce h) (Validators h)
    (Validator h) p.

(** [c.recents.Add] replaces one field of the engine; [Authorize] replaces
    the signer and its signing function. *)
Definition set_recents (c : XDPoS_v1) (r : gmap common.Hash SnapshotV1.t)
  : XDPoS_v1 :=
  {| config := config c; db := db c; recents := r;
     signatures := signatures c;
     validatorSignatures := validatorSignatures c; signer := signer c;
     signFn := signFn c; HookPenalty := HookPenalty c;
     HookPenaltyTIPSigning := HookPenaltyTIPSigning c;
     HookVerifyMNs := HookVerifyMNs c;
     HookGetSignersFromContract := HookGetSignersFromContract c |}.

Definition set_signer (c : XDPoS_v1) (a : common.Address)
  (f : option (common.Address -> list byte -> Error + list byte)) : XDPoS_v1 :=
  {| config := config c; db := db c; recents := recents c;
     signatures := signatures c;
     validatorSignatures := validatorSignatures c; signer := a;
     signFn := f; HookPenalty := HookPenalty c;
     HookPenaltyTIPSigning := HookPenaltyTIPSigning c;
     HookVerifyMNs := HookVerifyMNs c;
     HookGetSignersFromContract := HookGetSignersFromContract c |}.

(** The assignment [snap.Signers = newMasternodes]. *)
Definition setSigners (s : SnapshotV1.t) (signers : gset common.Address)
  : SnapshotV1.t :=
  {| SnapshotV1.Number := SnapshotV1.Number s;
     SnapshotV1.Hash := SnapshotV1.Hash s;
     SnapshotV1.Signers := signers;
     SnapshotV1.Recents := SnapshotV1.Recents s |}.

Module Masternode.

(** [utils.Masternode], as far as the engine reads it. *)
Record t : Type := {
  Address : common.Address
}.

End Masternode.

(** The two fields of [XDPoS_v1] that [Prepare] alone reads; they are kept
    beside the engine record. *)
Record Proposer : Type := {
  proposals : gmap common.Address bool;
  HookValidator : option (Header -> list common.Address -> Error + list byte)
}.

Section Interface.

Context `{External}.

(** [Author] (engine.go:154) and [RecoverSigner] (engine.go:951). *)
Definition Author (header : Header) : Go (Error + common.Address) :=
  ecrecover header.

Definition RecoverSigner (header : Header) : Go (Error + common.Address) :=
  ecrecover header.

(** [Signer] (engine.go:159) and [GetPeriod] (engine.go:426). *)
Definition Signer : Go common.Address := c ← engine; mret (signer c).

Definition GetPeriod : Go Z := c ← engine; mret (Period (config c)).

(** [Authorize] (engine.go:851). *)
Definition Authorize (signer : common.Address)
  (signFn : option (common.Address -> list byte -> Error + list byte))
  : Go unit :=
  update (fun c => set_signer c signer signFn).

(** [CalcDifficulty] (engine.go:939). *)
Definition CalcDifficulty (chain : ChainReader) (time : Z) (parent : Header)
  : Go Z :=
  c ← engine;
  calcDifficulty chain parent (signer c).

(** [VerifySeal] (engine.go:571). *)
Definition VerifySeal (chain : ChainReader) (header : Header)
  : Go (option Error) :=
  verifySeal chain header [] true.

(** [verifyHeaderWithCache] (engine.go:187). The [verifiedHeaders] cache
    holds the hashes of the headers found valid; it is threaded beside the
    engine record. [nested] holds what the run of [snapshot] inside
    [verifyHeader] stored in the cache meanwhile: [snapshot] verifies the
    genesis header through [VerifyHeader] (engine.go:507) before it builds
    the first snapshot, and its outcome is taken as given. As for the caches
    of the engine record, eviction is not modelled. *)
Definition verifyHeaderWithCache (now : Z) (chain : ChainReader)
  (header : Header) (parents : list Header) (fullVerify : bool)
  (verifiedHeaders nested : gset common.Hash)
  : Go (option Error * gset common.Hash) :=
  if bool_decide (HeaderHash header ∈ verifiedHeaders)
  then mret (None, verifiedHeaders)
  else
    err ← verifyHeader now chain header parents fullVerify;
    match err with
    | None => mret (None, {[HeaderHash header]} ∪ (nested ∪ verifiedHeaders))
    | Some err => mret (Some err, nested ∪ verifiedHeaders)
    end.

(** [VerifyHeader] (engine.go:162). *)
Definition VerifyHeader (now : Z) (chain : ChainReader) (header : Header)
  (fullVerify : bool) (verifiedHeaders nested : gset common.Hash)
  : Go (option Error * gset common.Hash) :=
  verifyHeaderWithCache now chain header [] fullVerify verifiedHeaders nested.

(** [IsAuthorisedAddress] (engine.go:369). *)
Definition IsAuthorisedAddress (header : Header) (chain : ChainReader)
  (address : common.Address) : Go bool :=
  r ← GetSnapshot chain header;
  match r with
  | inl err => mret false
  | inr snap => mret (bool_decide (address ∈ SnapshotV1.Signers snap))
  end.

(** [GetAuthorisedSignersFromSnapshot] (engine.go:391). *)
Definition GetAuthorisedSignersFromSnapshot (chain : ChainReader)
  (header : Header) : Go (Error + list common.Address) :=
  r ← GetSnapshot chain header;
  match r with
  | inl err => mret (inl err)
  | inr snap => mret (inr (GetSigners snap))
  end.

(** [UpdateMasternodes] (engine.go:794). The snapshot is changed in place
    and stored again under its own hash, the key under which [snapshot]
    caches it. *)
Definition UpdateMasternodes (chain : ChainReader) (header : Header)
  (ms : list Masternode.t) : Go (option Error) :=
  num ← run (Number header);
  r ← snapshot chain (Uint64 num) (HeaderHash header) [];
  match r with
  | inl err => mret (Some err)
  | inr snap =>
    let newMasternodes : gset common.Address :=
      list_to_set (Masternode.Address <$> ms) in
    let snap := setSigners snap newMasternodes in
    _ ← update (fun c =>
           set_recents c (<[SnapshotV1.Hash snap := snap]> (recents c)));
    mret None
  end.

(** ** Preparing a header *)

(** The vote [Prepare] casts on a block that is no checkpoint
    (engine.go:711). Go visits the map of proposals in an unspecified order
    and [rand.Intn] draws the index [Intn n] below [n]; [validVote] is
    [snap.validVote]. *)
Definition castVote (validVote : SnapshotV1.t -> common.Address -> bool -> bool)
  (Intn : Z -> Z) (p : Proposer) (snap : SnapshotV1.t) (header : Header)
  : option Header :=
  let addresses :=
    (map_to_list (proposals p))
      ≫= (fun '(address, authorize) =>
            if validVote snap address authorize then [address] else []) in
  if 0 <? len addresses
  then
    let i := Intn (len addresses) in
    if i <? 0 then None
    else
      coinbase ← addresses !! Z.to_nat i;
      let header := setCoinbase header coinbase in
      if default false (proposals p !! coinbase)
      then Some (setNonce header (copyBytes (Nonce header) utils.NonceAuthVote))
      else Some (setNonce header (copyBytes (Nonce header) utils.NonceDropVote))
  else Some header.

(** The penalties of a checkpoint (engine.go:743): the masternodes left and
    the header with its [Penalties] field. *)
Definition penalize (c : XDPoS_v1) (chain : ChainReader) (header : Header)
  (number : Z) (masternodes : list common.Address)
  : option (Error + Header * list common.Address) :=
  if bool_decide (is_Some (HookPenalty c))
     || bool_decide (is_Some (HookPenaltyTIPSigning c))
  then
    r ← (if IsTIPSigning (Config chain) (Number header)
         then hook ← HookPenaltyTIPSigning c; Some (hook chain header masternodes)
         else hook ← HookPenalty c; Some (hook chain number));
    match r with
    | inl err => Some (inl err)
    | inr penMasternodes =>
      if 0 <? len penMasternodes
      then Some (inr (setPenalties header (ExtractAddressToBytes penMasternodes),
                      RemoveItemFromArray masternodes penMasternodes))
      else Some (inr (header, masternodes))
    end
  else Some (inr (header, masternodes)).

(** The end of [Prepare] (engine.go:780): the room for the seal, the mix
    digest and the timestamp; [now] and [now'] are the two readings of
    [time.Now().Unix()]. *)
Definition finishPrepare (c : XDPoS_v1) (now now' : Z) (parent header : Header)
  : Header :=
  let header := setExtra header (Extra header ++ replicate 65 x00) in
  let header := setMixDigest header common.zeroHash in
  let header := setTime header (Time parent + Period (config c)) in
  if Int64 (Time header) <? now then setTime header now' else header.

(** [Prepare] (engine.go:697). The header is changed in place: it is
    returned as it stands when [Prepare] returns, with the error. *)
Definition Prepare (validVote : SnapshotV1.t -> common.Address -> bool -> bool)
  (Intn : Z -> Z) (now now' : Z) (p : Proposer) (chain : ChainReader)
  (header : Header) : Go (Header * option Error) :=
  let header := setCoinbase header common.zeroAddress in
  let header := setNonce header (replicate 8 x00) in
  num ← run (Number header);
  let number := Uint64 num in
  r ← snapshot chain (u64 (number - 1)) (ParentHash header) [];
  match r with
  | inl err => mret (header, Some err)
  | inr snap =>
    c ← engine;
    if Epoch (config c) =? 0 then panic
    else
      header ← run (if negb (number mod Epoch (config c) =? 0)
                    then castVote validVote Intn p snap header
                    else Some header);
      match GetHeader chain (ParentHash header) (u64 (number - 1)) with
      | None => mret (header, Some ErrUnknownAncestor)
      | Some parent =>
        difficulty ← calcDifficulty chain parent (signer c);
        let header := setDifficulty header difficulty in
        let header :=
          setExtra header
            (take 32 (Extra header
                      ++ replicate (32 - length (Extra header)) x00)) in
        let masternodes := GetSigners snap in
        c ← engine;
        if (Epoch (config c) <=? number) && (number mod Epoch (config c) =? 0)
        then
          r ← run (penalize c chain header number masternodes);
          match r with
          | inl err => mret (header, Some err)
          | inr (header, masternodes) =>
            masternodes ← run (removeRecentPenalties chain number
                                 (Epoch (config c)) masternodes 1
                                 (Z.to_nat common.LimitPenaltyEpoch));
            let header := setExtra header (Extra header ++ concat masternodes) in
            match HookValidator p with
            | Some hook =>
              match hook header masternodes with
              | inl err => mret (header, Some err)
              | inr validators =>
                mret (finishPrepare c now now' parent
                        (setValidators header validators), None)
              end
            | None => mret (finishPrepare c now now' parent header, None)
            end
          end
        else mret (finishPrepare c now now' parent header, None)
      end
  end.

End Interface.

(** * Vocabulary of the further properties *)

Section FurtherVocabulary.

Context `{External}.

(** The checks of [verifyHeader] ahead of [verifyCascadingFields], on the
    header alone: with full verification on, the header is not from the
    future and carries a validator signature past the first epoch; the nonce
    is a vote; a checkpoint has the zero beneficiary, the drop-vote nonce and
    a whole number of addresses between vanity and seal; any other header has
    vanity and seal only; the mix digest is zero, the uncle hash is the empty
    one, and the fork hashes match. *)
Definition Standalone (c : XDPoS_v1) (now : Z) (chain : ChainReader)
  (header : Header) (num : Z) (full : bool) : Prop :=
  Number header = Some num /\
  Epoch (config c) <> 0 /\
  (full = true ->
   Time header <= now /\
   (Epoch (config c) < Uint64 num -> len (Validator header) <> 0)) /\
  (Nonce header = utils.NonceAuthVote \/ Nonce header = utils.NonceDropVote) /\
  (Uint64 num mod Epoch (config c) = 0 ->
   Coinbase header = common.zeroAddress /\
   Nonce header = utils.NonceDropVote /\
   97 <= len (Extra header) /\
   Z.rem (len (Extra header) - 97) 20 = 0) /\
  (Uint64 num mod Epoch (config c) <> 0 -> len (Extra header) = 97) /\
  MixDigest header = common.zeroHash /\
  UncleHash header = utils_UncleHash /\
  VerifyForkHashes (Config chain) header = None.

(** The header [Prepare] starts from: beneficiary and nonce are reset. *)
Definition unvoted (header : Header) : Header :=
  setNonce (setCoinbase header common.zeroAddress) (replicate 8 x00).

(** The header of [Prepare] once the difficulty is set and the vanity is in
    place. *)
Definition withVanity (voted : Header) (difficulty : Z) : Header :=
  setExtra (setDifficulty voted difficulty)
    (take 32 (Extra voted ++ replicate (32 - length (Extra voted)) x00)).

(** The header [Seal] signs with [sig]: the signature is copied over the
    last 65 bytes of the extra-data (engine.go:925). *)
Definition sealedWith (header : Header) (sig : list byte) : Header :=
  setExtra header
    (slice (Extra header) 0 (len (Extra header) - 65)
     ++ copyBytes (slice_from (Extra header) (len (Extra header) - 65)) sig).

(** Every address of a list has the 20 bytes of a [common.Address]. *)
Definition addresses20 (l : list common.Address) : Prop :=
  Forall (fun a => length a = 20%nat) l.

End FurtherVocabulary.


(** * A small chain for the examples

    Concrete collaborators on which the engine can be run: hashing is the
    identity, a seal names its signer in its first 20 bytes, a seal that
    starts with 0xff does not recover, a header's hash is its number, signer
    lists are compared as sets, every masternode is validated by the next one
    in the checkpoint list, and the snapshots are the ones the engine holds
    in [recents]. Epochs have 900 blocks and the signer check is skipped at
    block 14458500. *)

Module Example.

Definition addr (b : byte) : common.Address := replicate 20 b.

Definition A : common.Address := addr x0a.
Definition B : common.Address := addr x0b.
Definition C : common.Address := addr x0c.
Definition X : common.Address := addr x0d.

Definition sealOf (signer : common.Address) : list byte :=
  signer ++ replicate 45 x00.

Definition vanity : list byte := replicate 32 x00.

Definition numberHash (n : Z) : common.Hash :=
  map (fun k => byte_of_N (Z.to_N ((n / 256 ^ k) mod 256))) [0; 1; 2; 3].

Definition recover (hash sig : list byte) : Error + list byte :=
  match sig with
  | xff :: _ => inl (ErrOther "invalid signature")
  | _ => inr (x04 :: replicate 12 x00 ++ take 20 sig)
  end.

Definition itemBytes (i : rlp_item) : list byte :=
  match i with
  | RlpBytes b => b
  | RlpBigInt (Some n) => numberHash n
  | RlpBigInt None => []
  | RlpUint n => numberHash n
  end.

Fixpoint chunks (n : nat) (b : list byte) (fuel : nat) : list (list byte) :=
  match fuel with
  | O => []
  | S fuel' =>
    match b with
    | [] => []
    | _ => take n b :: chunks n (drop n b) fuel'
    end
  end.

Definition pairing (ms : list common.Address)
  : gmap common.Address common.Address :=
  list_to_map (zip ms (drop 1 ms ++ take 1 ms)).

Definition external : External := {|
  Keccak256 := fun b => b;
  rlp_Encode := fun items => concat (map itemBytes items);
  crypto_Ecrecover := recover;
  HeaderHash := fun h => match Number h with
                         | Some n => numberHash n
                         | None => []
                         end;
  utils_UncleHash := [];
  IsTestnet := false;
  IgnoreSignerCheckBlock := 14458500;
  EpocBlockRandomize := 900;
  VerifyForkHashes := fun _ _ => None;
  CompareSignersLists := fun l1 l2 =>
    bool_decide ((list_to_set l1 : gset common.Address) = list_to_set l2);
  RemoveItemFromArray := fun l1 l2 =>
    filter (fun a => a ∉ l2) l1;
  ExtractAddressFromBytes := fun b => chunks 20 b (length b);
  ExtractAddressToBytes := fun l => concat l;
  ExtractValidatorsFromBytes := fun _ => [];
  GetM1M2 := fun ms _ _ _ => inr (pairing ms);
  GetSigners := fun s => elements (SnapshotV1.Signers s);
  snapshot := fun _ _ hash _ c =>
    match recents c !! hash with
    | Some snap => Some (inr snap, c)
    | None => Some (inl ErrUnknownAncestor, c)
    end
|}.

(** A header at height [number] whose extra-data lists [signers] and ends in
    [seal]; blocks are ten seconds apart. *)
Definition header (number : Z) (signers : list common.Address)
  (seal : list byte) (difficulty : Z) : Header := {|
  ParentHash := numberHash (number - 1);
  UncleHash := [];
  Coinbase := common.zeroAddress;
  Root := common.zeroHash;
  TxHash := common.zeroHash;
  ReceiptHash := common.zeroHash;
  Bloom := [];
  Difficulty := difficulty;
  Number := Some number;
  GasLimit := 0;
  GasUsed := 0;
  Time := 10 * number + 10;
  Extra := vanity ++ concat signers ++ seal;
  MixDigest := common.zeroHash;
  Nonce := utils.NonceDropVote;
  Validators := [];
  Validator := [];
  Penalties := []
|}.


(** The chain that holds the headers [hs], with [gap] blocks between the
    contract anchor and the checkpoint. *)
Definition chainOf (gap : Z) (hs : list Header) : ChainReader := {|
  Config := {| XDPoS := {| Epoch := 900; Period := 2; Gap := gap |};
               IsTIPSigning := fun _ => false |};
  GetHeader := fun hash n =>
    h ← snd <$> list_find (fun h => Number h = Some n) hs;
    if bool_decide (numberHash n = hash) then Some h else None;
  GetHeaderByNumber := fun n =>
    snd <$> list_find (fun h => Number h = Some n) hs;
  GetBlock := fun _ n =>
    h ← snd <$> list_find (fun h => Number h = Some n) hs;
    Some {| types.header := h; transactions := []; penalties := None |}
|}.

(** An engine that signs as [self], asks a contract that answers [contract],
    and holds the snapshots [snaps], each under the number of its block. *)
Definition engineOf (self : common.Address)
  (contract : option (list common.Address))
  (snaps : list (Z * SnapshotV1.t)) : XDPoS_v1 := {|
  config := {| Epoch := 900; Period := 2; Gap := 450 |};
  db := ∅;
  recents := list_to_map (map (fun p => (numberHash p.1, p.2)) snaps);
  signatures := ∅;
  validatorSignatures := ∅;
  signer := self;
  signFn := Some (fun a _ => inr (sealOf a));
  HookPenalty := None;
  HookPenaltyTIPSigning := None;
  HookVerifyMNs := None;
  HookGetSignersFromContract :=
    match contract with
    | Some l => Some (fun _ => inr l)
    | None => None
    end
|}.

Definition snapshotOf (signers : list common.Address)
  (recents : list (Z * common.Address)) : SnapshotV1.t := {|
  SnapshotV1.Number := 0;
  SnapshotV1.Hash := [];
  SnapshotV1.Signers := list_to_set signers;
  SnapshotV1.Recents := list_to_map recents
|}.

(** *** Three masternodes *)

Definition genesis : Header := header 0 [A; B; C] (replicate 65 x00) 0.
Definition block1 : Header := header 1 [] (sealOf A) 3.
Definition block2 : Header := header 2 [] (sealOf B) 3.
(** Block 2 sealed by A, who sealed block 1. *)
Definition block2again : Header := header 2 [] (sealOf A) 1.
Definition block898 : Header := header 898 [] (sealOf A) 3.
Definition block899 : Header := header 899 [] (sealOf B) 3.
Definition block900 : Header := header 900 [A; B; C] (sealOf C) 3.
(** Block 901 sealed by A, whose validator is B; the field names C. *)
Definition block901 : Header :=
  setValidator (header 901 [] (sealOf A) 3) (sealOf C).

Definition chain : ChainReader :=
  chainOf 2 [genesis; block1; block2; block898; block899; block900; block901].

Definition engine1 : XDPoS_v1 :=
  engineOf A (Some [A; B; C])
    [(0, snapshotOf [A; B; C] []); (1, snapshotOf [A; B; C] [(1, A)]);
     (899, snapshotOf [A; B] []); (900, snapshotOf [A; B; C] [])].

(** The checkpoint 900 with a difficulty that is not the calculated one. *)
Definition block900wrong : Header := header 900 [A; B; C] (sealOf C) 7.
Definition chainW : ChainReader :=
  chainOf 2 [genesis; block898; block899; block900wrong].

(** *** Two masternodes, and a list that names A twice *)

Definition genesis2 : Header := header 0 [A; B] (replicate 65 x00) 0.
Definition chain2 : ChainReader := chainOf 2 [genesis2; block1].

Definition genesisAA : Header := header 0 [A; A] (replicate 65 x00) 0.
Definition chainAA : ChainReader := chainOf 2 [genesisAA; block1].

(** *** A single masternode, sealing block after block *)

Definition genesisA : Header := header 0 [A] (replicate 65 x00) 0.
Definition blockA1 : Header := header 1 [] (sealOf A) 1.
Definition blockA2 : Header := header 2 [] (sealOf A) 1.
Definition chainA : ChainReader := chainOf 2 [genesisA; blockA1; blockA2].
Definition engineA : XDPoS_v1 :=
  engineOf A None
    [(0, snapshotOf [A] []); (1, snapshotOf [A] [(1, A)])].

(** *** The checkpoint at which the signer check is skipped *)

Definition block14457600 : Header :=
  header 14457600 [A; B; C] (sealOf A) 3.
Definition block14458498 : Header := header 14458498 [] (sealOf A) 3.
Definition block14458499 : Header := header 14458499 [] (sealOf B) 3.
Definition block14458500 : Header :=
  header 14458500 [A; B; C] (sealOf C) 3.
Definition chainI : ChainReader :=
  chainOf 2
    [genesis; block14457600; block14458498; block14458499; block14458500].
Definition engineI : XDPoS_v1 :=
  engineOf A (Some [A]) [(14458499, snapshotOf [A; B] [])].

(** *** Blocks to seal *)

Definition toSeal (h : Header) : Block :=
  {| types.header := h; transactions := []; penalties := None |}.

End Example.
(** * Preparing and sealing on the example chain

    A miner on the chain of [Example]: proposals and a way to pick among
    them, block templates to prepare and to seal, and a snapshot that is
    cached under the hash of its block. *)

Module Mining.

Import Example.

(** [snap.validVote]: authorizing an address that is no signer yet, or
    dropping one that is. *)
Definition validVote (snap : SnapshotV1.t) (address : common.Address)
  (authorize : bool) : bool :=
  let signer := bool_decide (address ∈ SnapshotV1.Signers snap) in
  (signer && negb authorize) || (negb signer && authorize).

(** A draw of [rand.Intn] that always comes out 0. *)
Definition Intn (n : Z) : Z := 0.

(** The miner proposes to authorize X. *)
Definition proposer : Proposer := {|
  proposals := {[ X := true ]};
  HookValidator := None
|}.

(** A block template at height [number]: the extra-data holds the vanity
    only, no difficulty and no timestamp are set. *)
Definition template (number : Z) : Header := {|
  ParentHash := numberHash (number - 1);
  UncleHash := [];
  Coinbase := common.zeroAddress;
  Root := common.zeroHash;
  TxHash := common.zeroHash;
  ReceiptHash := common.zeroHash;
  Bloom := [];
  Difficulty := 0;
  Number := Some number;
  GasLimit := 0;
  GasUsed := 0;
  Time := 0;
  Extra := vanity;
  MixDigest := common.zeroHash;
  Nonce := utils.NonceDropVote;
  Validators := [];
  Validator := [];
  Penalties := []
|}.

(** What [Prepare] makes of the template at height 2, with the vote for X,
    and of the template of the checkpoint 900, with the signers of the
    snapshot of block 899 in the order in which [GetSigners] lists them. *)
Definition prepared2 : Header := {|
  ParentHash := numberHash 1;
  UncleHash := [];
  Coinbase := X;
  Root := common.zeroHash;
  TxHash := common.zeroHash;
  ReceiptHash := common.zeroHash;
  Bloom := [];
  Difficulty := 1;
  Number := Some 2;
  GasLimit := 0;
  GasUsed := 0;
  Time := 1000;
  Extra := vanity ++ replicate 65 x00;
  MixDigest := common.zeroHash;
  Nonce := utils.NonceAuthVote;
  Validators := [];
  Validator := [];
  Penalties := []
|}.

Definition prepared900 : Header := {|
  ParentHash := numberHash 899;
  UncleHash := [];
  Coinbase := common.zeroAddress;
  Root := common.zeroHash;
  TxHash := common.zeroHash;
  ReceiptHash := common.zeroHash;
  Bloom := [];
  Difficulty := 2;
  Number := Some 900;
  GasLimit := 0;
  GasUsed := 0;
  Time := 9002;
  Extra := vanity ++ concat [B; A] ++ replicate 65 x00;
  MixDigest := common.zeroHash;
  Nonce := utils.NonceDropVote;
  Validators := [];
  Validator := [];
  Penalties := []
|}.

(** The engine of [Example.engine1] once it has recovered the creator of a
    block. *)
Definition engine1After (number : Z) (creator : common.Address) : XDPoS_v1 :=
  set_signatures engine1 (<[numberHash number := creator]> (signatures engine1)).

(** An engine that signs as B and holds the snapshot of block 1, and the
    block template it seals at height 2. *)
Definition engineB : XDPoS_v1 :=
  engineOf B None [(1, snapshotOf [A; B; C] [(1, A)])].

Definition toSign : Block := toSeal (header 2 [] (replicate 65 x00) 3).

Definition signed : Block := toSeal (header 2 [] (sealOf B) 3).

(** The snapshot of block 1 under the hash of block 1, an engine that holds
    it, and a new set of masternodes. *)
Definition snapshot1 : SnapshotV1.t := {|
  SnapshotV1.Number := 1;
  SnapshotV1.Hash := numberHash 1;
  SnapshotV1.Signers := list_to_set [A; B; C];
  SnapshotV1.Recents := {[ 1 := A ]}
|}.

Definition engineU : XDPoS_v1 := engineOf A None [(1, snapshot1)].

Definition newMasternodes : list Masternode.t :=
  [ {| Masternode.Address := A |}; {| Masternode.Address := X |} ].

End Mining.

(** * Properties *)

(** ** Running the engine monad *)

Lemma bind_run {A B} (m : Go A) (f : A -> Go B) (c c' : XDPoS_v1) (a : A) :
  m c = Some (a, c') -> (m ≫= f) c = f a c'.
Proof. intros Hm. unfold mbind, Go_bind. now rewrite Hm. Qed.

Lemma bind_panics {A B} (m : Go A) (f : A -> Go B) (c : XDPoS_v1) :
  m c = None -> (m ≫= f) c = None.
Proof. intros Hm. unfold mbind, Go_bind. now rewrite Hm. Qed.

Lemma run_Some {A} (o : option A) (a : A) (c : XDPoS_v1) :
  o = Some a -> run o c = Some (a, c).
Proof. now intros ->. Qed.

Lemma engine_run (c : XDPoS_v1) : engine c = Some (c, c).
Proof. reflexivity. Qed.

Lemma ret_run {A} (a : A) (c : XDPoS_v1) : (mret a : Go A) c = Some (a, c).
Proof. reflexivity. Qed.

(** ** [position] *)

Lemma positionFrom_shift (l : list common.Address) (x : common.Address) (i : Z) :
  positionFrom i l x = -1 \/
  exists n : nat, positionFrom i l x = i + Z.of_nat n /\ l !! n = Some x
    /\ forall k : nat, (k < n)%nat -> l !! k <> Some x.
Proof.
  revert i. induction l as [|item rest IH]; intros i; simpl.
  - now left.
  - destruct (decide (item = x)) as [->|Hne].
    + right. exists 0%nat. repeat split; [lia | intros k Hk; lia].
    + destruct (IH (i + 1)) as [Hm | (n & Hn & Hl & Hfirst)].
      * now left.
      * right. exists (S n). repeat split; [lia | exact Hl |].
        intros [|k] Hk; simpl; [congruence | apply Hfirst; lia].
Qed.

Lemma positionFrom_absent (l : list common.Address) (x : common.Address) (i : Z) :
  x ∉ l -> positionFrom i l x = -1.
Proof.
  revert i. induction l as [|item rest IH]; intros i Hx; simpl; [done|].
  apply not_elem_of_cons in Hx as [Hne Hx].
  destruct (decide (item = x)); [congruence | now apply IH].
Qed.

Lemma positionFrom_present (l : list common.Address) (x : common.Address) (i : Z) :
  x ∈ l -> positionFrom i l x <> -1 \/ i < 0.
Proof.
  revert i. induction l as [|item rest IH]; intros i Hx; simpl.
  - now apply elem_of_nil in Hx.
  - destruct (decide (item = x)) as [->|Hne].
    + destruct (decide (i = -1)); [right; lia | now left].
    + apply elem_of_cons in Hx as [->|Hx]; [congruence|].
      destruct (IH (i + 1) Hx) as [Hp|Hi]; [now left|].
      destruct (positionFrom_shift rest x (i + 1)) as [Hm | (n & Hn & _)].
      * right. lia.
      * destruct (decide (i < 0)); [now right | left; lia].
Qed.

(** [position] is -1 exactly for the addresses the list does not hold. *)
Lemma position_absent (l : list common.Address) (x : common.Address) :
  position l x = -1 <-> x ∉ l.
Proof.
  split.
  - intros Hp Hx. destruct (positionFrom_present l x 0 Hx); [done | lia].
  - apply positionFrom_absent.
Qed.

(** Otherwise it is the first index holding the address. *)
Lemma position_present (l : list common.Address) (x : common.Address) :
  x ∈ l ->
  exists n : nat, position l x = Z.of_nat n /\ l !! n = Some x
    /\ forall k : nat, (k < n)%nat -> l !! k <> Some x.
Proof.
  intros Hx. destruct (positionFrom_shift l x 0) as [Hm | (n & Hn & Hl & Hf)].
  - now apply position_absent in Hm.
  - exists n. unfold position. now rewrite Hn.
Qed.

Lemma position_range (l : list common.Address) (x : common.Address) :
  -1 <= position l x < len l.
Proof.
  destruct (decide (x ∈ l)) as [Hx|Hx].
  - destruct (position_present l x Hx) as (n & -> & Hl & _).
    apply lookup_lt_Some in Hl. unfold len. lia.
  - apply position_absent in Hx. rewrite Hx. unfold len. lia.
Qed.

Lemma position_nonneg (l : list common.Address) (x : common.Address) :
  x ∈ l -> 0 <= position l x < len l.
Proof.
  intros Hx. pose proof (position_range l x).
  assert (position l x <> -1) by (intros Hp; now apply position_absent in Hp).
  lia.
Qed.

(** Two addresses at the same non-negative position are the same address. *)
Lemma position_inj (l : list common.Address) (x y : common.Address) :
  x ∈ l -> position l x = position l y -> x = y.
Proof.
  intros Hx Heq.
  destruct (position_present l x Hx) as (n & Hn & Hl & _).
  destruct (decide (y ∈ l)) as [Hy|Hy].
  - destruct (position_present l y Hy) as (k & Hk & Hl' & _).
    assert (n = k) by lia. subst k. congruence.
  - apply position_absent in Hy. lia.
Qed.

(** In a list without repetition every index is the position of its entry. *)
Lemma position_lookup (l : list common.Address) (x : common.Address) (n : nat) :
  NoDup l -> l !! n = Some x -> position l x = Z.of_nat n.
Proof.
  intros Hnd Hl.
  destruct (position_present l x) as (k & Hk & Hl' & _).
  - eapply list_elem_of_lookup_2; eauto.
  - rewrite Hk. f_equal. eapply NoDup_lookup; eauto.
Qed.

(** ** Leader rotation *)

Section LeaderRotation.

Context `{External}.

Lemma len_nonempty {A} (l : list A) : l <> [] -> (len l =? 0) = false.
Proof. destruct l; [done|]. intros _. unfold len. simpl. lia. Qed.

(** A cache miss of [ecrecover] stores the recovered signer. *)
Lemma ecrecover_miss (c : XDPoS_v1) (header : Header) (a : common.Address) :
  signatures c !! HeaderHash header = None ->
  ecrecoverMiss header = Some (inr a) ->
  ecrecover header c
  = Some (inr a, set_signatures c (<[HeaderHash header := a]> (signatures c))).
Proof.
  intros Hmiss Hrec. unfold ecrecover.
  erewrite bind_run by apply engine_run. cbv beta zeta. rewrite Hmiss.
  erewrite bind_run by (apply run_Some, Hrec). reflexivity.
Qed.

Lemma whoIsCreator_miss (c : XDPoS_v1) (snap : SnapshotV1.t) (header : Header)
  (num : Z) (a : common.Address) :
  Number header = Some num -> Uint64 num <> 0 ->
  signatures c !! HeaderHash header = None ->
  ecrecoverMiss header = Some (inr a) ->
  whoIsCreator snap header c
  = Some (inr a, set_signatures c (<[HeaderHash header := a]> (signatures c))).
Proof.
  intros Hnum Hnz Hmiss Hrec. unfold whoIsCreator.
  erewrite bind_run by (apply run_Some, Hnum).
  apply Z.eqb_neq in Hnz. rewrite Hnz. now apply ecrecover_miss.
Qed.

(** Everything [YourTurn] returns once the parent's data resolve. *)
Lemma YourTurn_resolved_state (c c' : XDPoS_v1) (chain : ChainReader)
  (parent : Header) (M : list common.Address) (pre : Z) (signer : common.Address) :
  ParentResolvesTo c chain parent M pre c' ->
  YourTurn chain parent signer c
  = Some (len M, pre, position M signer,
          Z.rem (pre + 1) (len M) =? position M signer, None, c').
Proof.
  intros (HM & Hne & num & snap & c1 & Hnum & Hsnap & Hpre).
  unfold YourTurn.
  erewrite bind_run by apply engine_run.
  erewrite bind_run by (apply run_Some, HM).
  erewrite bind_run by apply Hsnap.
  rewrite (len_nonempty M Hne).
  erewrite bind_run by (apply run_Some, Hnum).
  destruct Hpre as [(Hz & -> & ->) | (Hnz & creator & Hwho & ->)].
  - apply Z.eqb_eq in Hz. rewrite Hz. simpl negb. cbv iota.
    erewrite bind_run by apply ret_run. cbv beta iota.
    now destruct (Z.rem (-1 + 1) (len M) =? position M signer).
  - apply Z.eqb_neq in Hnz. rewrite Hnz. simpl negb. cbv iota.
    erewrite bind_run; [| erewrite bind_run by apply Hwho; apply ret_run].
    cbv beta iota.
    now destruct (Z.rem (position M creator + 1) (len M) =? position M signer).
Qed.

(** Conversely, a run of [YourTurn] that returns no error has resolved the
    parent's data. *)
Lemma YourTurn_succeeds (c c' : XDPoS_v1) (chain : ChainReader)
  (parent : Header) (signer : common.Address) (n pre cur : Z) (turn : bool) :
  YourTurn chain parent signer c = Some (n, pre, cur, turn, None, c') ->
  exists M, ParentResolvesTo c chain parent M pre c' /\ n = len M.
Proof.
  unfold YourTurn. intros Hrun.
  rewrite (bind_run _ _ _ _ _ (engine_run c)) in Hrun.
  destruct (GetMasternodes c chain parent) as [M|] eqn:HM;
    [|rewrite bind_panics in Hrun by reflexivity; discriminate].
  rewrite (bind_run _ _ c c M) in Hrun by reflexivity.
  destruct (GetSnapshot chain parent c) as [[[err|snap] c1]|] eqn:Hsnap;
    [rewrite (bind_run _ _ _ _ _ Hsnap) in Hrun; discriminate | |
     rewrite bind_panics in Hrun by exact Hsnap; discriminate].
  rewrite (bind_run _ _ _ _ _ Hsnap) in Hrun. cbv beta iota in Hrun.
  destruct (len M =? 0) eqn:Hlen; [discriminate|].
  assert (Hne : M <> []) by (intros ->; discriminate).
  destruct (Number parent) as [num|] eqn:Hnum;
    [|rewrite bind_panics in Hrun by reflexivity; discriminate].
  rewrite (bind_run _ _ c1 c1 num) in Hrun by reflexivity.
  exists M. split; [|].
  - split; [exact HM|]. split; [exact Hne|].
    exists num, snap, c1. split; [exact Hnum|]. split; [exact Hsnap|].
    destruct (Uint64 num =? 0) eqn:Hz; simpl negb in Hrun; cbv iota in Hrun.
    + left. apply Z.eqb_eq in Hz.
      rewrite (bind_run _ _ c1 c1 (inr (-1))) in Hrun by reflexivity.
      cbv beta iota in Hrun.
      destruct (Z.rem (-1 + 1) (len M) =? position M signer);
        injection Hrun as _ <- _ _ <-; auto.
    + right. apply Z.eqb_neq in Hz. split; [exact Hz|].
      destruct (whoIsCreator snap parent c1) as [[[err|creator] c2]|] eqn:Hwho.
      * rewrite (bind_run _ _ c1 c2 (inl err)) in Hrun
          by (rewrite (bind_run _ _ _ _ _ Hwho); reflexivity).
        discriminate.
      * rewrite (bind_run _ _ c1 c2 (inr (position M creator))) in Hrun
          by (rewrite (bind_run _ _ _ _ _ Hwho); reflexivity).
        cbv beta iota in Hrun. exists creator.
        destruct (Z.rem (position M creator + 1) (len M) =? position M signer);
          injection Hrun as _ <- _ _ <-; auto.
      * rewrite bind_panics in Hrun
          by (rewrite bind_panics by exact Hwho; reflexivity).
        discriminate.
  - destruct (Uint64 num =? 0); simpl negb in Hrun; cbv iota in Hrun.
    + rewrite (bind_run _ _ c1 c1 (inr (-1))) in Hrun by reflexivity.
      cbv beta iota in Hrun.
      destruct (Z.rem (-1 + 1) (len M) =? position M signer);
        now injection Hrun as <- _ _ _ _.
    + destruct (whoIsCreator snap parent c1) as [[[err|creator] c2]|] eqn:Hwho.
      * rewrite (bind_run _ _ c1 c2 (inl err)) in Hrun
          by (rewrite (bind_run _ _ _ _ _ Hwho); reflexivity).
        discriminate.
      * rewrite (bind_run _ _ c1 c2 (inr (position M creator))) in Hrun
          by (rewrite (bind_run _ _ _ _ _ Hwho); reflexivity).
        cbv beta iota in Hrun.
        destruct (Z.rem (position M creator + 1) (len M) =? position M signer);
          now injection Hrun as <- _ _ _ _.
      * rewrite bind_panics in Hrun
          by (rewrite bind_panics by exact Hwho; reflexivity).
        discriminate.
Qed.

Lemma YourTurn_resolved (c : XDPoS_v1) (chain : ChainReader) (parent : Header)
  (M : list common.Address) (pre : Z) (signer : common.Address) :
  ParentResolves c chain parent M pre ->
  result (YourTurn chain parent signer c)
  = Some (len M, pre, position M signer,
          Z.rem (pre + 1) (len M) =? position M signer, None).
Proof.
  intros [c' Hres]. unfold result.
  now rewrite (YourTurn_resolved_state _ _ _ _ _ _ signer Hres).
Qed.

Lemma onTurn_resolved (c : XDPoS_v1) (chain : ChainReader) (parent : Header)
  (M : list common.Address) (pre : Z) (signer : common.Address) :
  ParentResolves c chain parent M pre ->
  onTurn c chain parent signer = (Z.rem (pre + 1) (len M) =? position M signer).
Proof.
  intros [c' Hres]. unfold onTurn.
  now rewrite (YourTurn_resolved_state _ _ _ _ _ _ signer Hres).
Qed.

(** The index [pre] of a resolved parent lies in [-1, |M|). *)
Lemma ParentResolves_range (c : XDPoS_v1) (chain : ChainReader) (parent : Header)
  (M : list common.Address) (pre : Z) :
  ParentResolves c chain parent M pre -> -1 <= pre < len M /\ 0 < len M.
Proof.
  intros (c' & _ & Hne & num & snap & c1 & _ & _ & Hpre).
  assert (0 < len M) by (destruct M; [done | unfold len; simpl; lia]).
  split; [|done].
  destruct Hpre as [(_ & -> & _) | (_ & creator & _ & ->)]; [lia|].
  apply position_range.
Qed.

Lemma rem_turn_slot (n pre : Z) :
  0 < n -> -1 <= pre < n -> Z.rem (pre + 1) n = (pre + 1) mod n.
Proof. intros Hn Hpre. apply Z.rem_mod_nonneg; lia. Qed.

(** [YourTurn] selects the slot after the parent's creator. *)
Lemma onTurn_slot (c : XDPoS_v1) (chain : ChainReader) (parent : Header)
  (M : list common.Address) (pre : Z) (signer : common.Address) :
  ParentResolves c chain parent M pre ->
  onTurn c chain parent signer = true
  <-> (pre + 1) mod len M = position M signer.
Proof.
  intros Hres. destruct (ParentResolves_range _ _ _ _ _ Hres) as [Hpre Hlen].
  rewrite (onTurn_resolved _ _ _ _ _ signer Hres).
  rewrite rem_turn_slot by lia. apply Z.eqb_eq.
Qed.

(** C1, amended: when the parent's rotation data resolve, [YourTurn] reports
    a signer on turn if and only if (pre_index + 1) mod |M| = cur_index; and
    when in addition no address occurs twice in M, exactly one m in M is on
    turn. *)
Theorem YourTurn_rotation (c : XDPoS_v1) (chain : ChainReader) (parent : Header)
  (M : list common.Address) (pre : Z) :
  ParentResolves c chain parent M pre ->
  (forall signer,
     onTurn c chain parent signer = true
     <-> (pre + 1) mod len M = position M signer) /\
  (NoDup M ->
   exists m, m ∈ M /\ onTurn c chain parent m = true /\
     forall m', m' ∈ M -> onTurn c chain parent m' = true -> m' = m).
Proof.
  intros Hres. destruct (ParentResolves_range _ _ _ _ _ Hres) as [Hpre Hlen].
  pose proof (fun signer => onTurn_slot c chain parent M pre signer Hres) as Hiff.
  split; [exact Hiff|]. intros Hnd.
  pose proof (Z.mod_pos_bound (pre + 1) (len M) Hlen) as Hslot.
  destruct (lookup_lt_is_Some_2 M (Z.to_nat ((pre + 1) mod len M))) as [m Hm].
  { unfold len in *. lia. }
  pose proof (position_lookup M m _ Hnd Hm) as Hpos.
  rewrite Z2Nat.id in Hpos by lia.
  assert (Hin : m ∈ M) by (eapply list_elem_of_lookup_2; eauto).
  exists m. split; [exact Hin|]. split; [now apply Hiff|].
  intros m' Hin' Hturn'. apply Hiff in Hturn'.
  apply (position_inj M m' m Hin'). congruence.
Qed.

(** What [calcDifficulty] returns once the parent's data resolve. *)
Lemma calcDifficulty_resolved_state (c c' : XDPoS_v1) (chain : ChainReader)
  (parent : Header) (M : list common.Address) (pre : Z) (signer : common.Address) :
  ParentResolvesTo c chain parent M pre c' ->
  calcDifficulty chain parent signer c
  = Some (len M - utils.Hop (len M) pre (position M signer), c').
Proof.
  intros Hres. unfold calcDifficulty.
  erewrite bind_run by apply (YourTurn_resolved_state _ _ _ _ _ _ signer Hres).
  reflexivity.
Qed.

Lemma calcDifficulty_resolved (c : XDPoS_v1) (chain : ChainReader)
  (parent : Header) (M : list common.Address) (pre : Z) (signer : common.Address) :
  ParentResolves c chain parent M pre ->
  result (calcDifficulty chain parent signer c)
  = Some (len M - utils.Hop (len M) pre (position M signer)).
Proof.
  intros [c' Hres]. unfold result.
  now rewrite (calcDifficulty_resolved_state _ _ _ _ _ _ signer Hres).
Qed.

(** The forward distance case by case, for indices [position] can return
    with a creator that is a masternode or the genesis parent. *)
Lemma Hop_by_cases (n pre cur : Z) :
  -1 <= pre < n -> 0 <= cur < n ->
  utils.Hop n pre cur
  = if pre <? cur then cur - (pre + 1)
    else if cur <? pre then (n - pre) + (cur - 1)
    else n - 1.
Proof.
  intros Hpre Hcur. unfold utils.Hop.
  destruct (pre <? cur) eqn:E1; [apply Z.ltb_lt in E1 | apply Z.ltb_ge in E1].
  - apply Z.mod_small. lia.
  - destruct (cur <? pre) eqn:E2; [apply Z.ltb_lt in E2 | apply Z.ltb_ge in E2].
    + replace (cur - (pre + 1)) with (n - pre + (cur - 1) + (-1) * n) by lia.
      rewrite Z.mod_add by lia. apply Z.mod_small. lia.
    + replace (cur - (pre + 1)) with (n - 1 + (-1) * n) by lia.
      rewrite Z.mod_add by lia. apply Z.mod_small. lia.
Qed.

(** The signer on turn has no hop to make; a masternode off turn has at
    least one. *)
Lemma Hop_on_turn (n pre cur : Z) :
  0 < n -> (pre + 1) mod n = cur -> utils.Hop n pre cur = 0.
Proof.
  intros Hn <-. unfold utils.Hop.
  rewrite Zminus_mod_idemp_l, Z.sub_diag. now apply Z.mod_0_l, Z.neq_sym, Z.lt_neq.
Qed.

Lemma Hop_off_turn (n pre cur : Z) :
  0 < n -> 0 <= cur < n -> (pre + 1) mod n <> cur -> 0 < utils.Hop n pre cur.
Proof.
  intros Hn Hcur Hoff. unfold utils.Hop.
  pose proof (Z.mod_pos_bound (cur - (pre + 1)) n Hn) as Hb.
  destruct (decide ((cur - (pre + 1)) mod n = 0)) as [Hz|]; [|lia].
  exfalso. apply Hoff.
  replace (pre + 1) with (cur - (cur - (pre + 1))) by lia.
  rewrite <- Zminus_mod_idemp_r, Hz, Z.sub_0_r. apply Z.mod_small. lia.
Qed.

(** C3, amended: when the parent's rotation data resolve, [calcDifficulty]
    returns |M| - hop(|M|, pre_index, cur_index); and for a fixed parent the
    difficulty of the signer on turn strictly exceeds the difficulty of every
    masternode of M that is off turn. *)
Theorem calcDifficulty_ordering (c : XDPoS_v1) (chain : ChainReader)
  (parent : Header) (M : list common.Address) (pre : Z) :
  ParentResolves c chain parent M pre ->
  (forall signer,
     result (calcDifficulty chain parent signer c)
     = Some (len M - utils.Hop (len M) pre (position M signer))) /\
  (forall s t,
     onTurn c chain parent s = true ->
     t ∈ M -> onTurn c chain parent t = false ->
     exists ds dt,
       result (calcDifficulty chain parent s c) = Some ds /\
       result (calcDifficulty chain parent t c) = Some dt /\
       dt < ds).
Proof.
  intros Hres. destruct (ParentResolves_range _ _ _ _ _ Hres) as [Hpre Hlen].
  pose proof (fun signer => onTurn_slot c chain parent M pre signer Hres) as Hiff.
  split; [intros signer; apply (calcDifficulty_resolved _ _ _ _ _ _ Hres)|].
  intros s t Hs Ht Hoff.
  eexists _, _. split; [apply (calcDifficulty_resolved _ _ _ _ _ s Hres)|].
  split; [apply (calcDifficulty_resolved _ _ _ _ _ t Hres)|].
  apply Hiff in Hs. rewrite (Hop_on_turn _ _ _ Hlen Hs).
  assert ((pre + 1) mod len M <> position M t) as Hne.
  { intros Heq. apply Hiff in Heq. congruence. }
  pose proof (Hop_off_turn _ _ _ Hlen (position_nonneg M t Ht) Hne). lia.
Qed.



End LeaderRotation.

(** ** The signing hash *)

Section SigningHash.

Context `{External}.

(** With 65 bytes or more of extra-data the signing hash is the Keccak-256
    of the RLP encoding of the signed fields. *)
Lemma sigHash_signedFields (h : Header) :
  65 <= len (Extra h) ->
  sigHash h = Some (Keccak256 (rlp_Encode (signedFields h))).
Proof.
  intros Hlen. unfold sigHash, signedFields, slice.
  destruct (len (Extra h) <? 65) eqn:E; [apply Z.ltb_lt in E; lia|].
  change (Z.to_nat 0) with 0%nat. rewrite drop_0.
  replace (Z.to_nat (len (Extra h) - 65 - 0)) with (length (Extra h) - 65)%nat
    by (unfold len; lia).
  reflexivity.
Qed.

(** Headers that differ only in the final 65 bytes of the extra-data agree
    on what [sigHash] reads. *)
Lemma sameExceptSeal_sameSigned (h h' : Header) :
  sameExceptSeal h h' -> sameSigned h h'.
Proof. unfold sameExceptSeal, sameSigned. intuition. Qed.


(** The signing hash does not read the fields [Validators], [Validator] and
    [Penalties] either. *)
Lemma sigHash_setValidator (h : Header) (v : list byte) :
  sigHash (setValidator h v) = sigHash h.
Proof. reflexivity. Qed.

(** Writing a seal into the final 65 bytes keeps the signing hash. *)
Lemma sigHash_setExtra_seal (h : Header) (body seal seal' : list byte) :
  Extra h = body ++ seal -> length seal = 65%nat -> length seal' = 65%nat ->
  sigHash (setExtra h (body ++ seal')) = sigHash h.
Proof.
  intros HE Hs Hs'. unfold sigHash, slice. simpl. rewrite HE.
  unfold len. rewrite !length_app, Hs, Hs'.
  destruct (Z.of_nat (length body + 65) <? 65); [reflexivity|].
  replace (Z.to_nat (Z.of_nat (length body + 65) - 65 - 0)) with (length body)
    by lia.
  change (Z.to_nat 0) with 0%nat. rewrite !drop_0.
  now rewrite !take_app_length.
Qed.

End SigningHash.

(** ** Seal verification *)

Section SealVerification.

Context `{External}.

Lemma Uint64_range (x : Z) : 0 <= Uint64 x < 2 ^ 64.
Proof. unfold Uint64. apply Z.mod_pos_bound. lia. Qed.

(** The loop over the recent signers rejects exactly when some entry names
    the creator at a height above [number - 2], off the epoch boundary. *)
Lemma signedRecently_true (recents : list (Z * common.Address))
  (creator : common.Address) (number epoch : Z) :
  signedRecently recents creator number epoch = true
  <-> (exists seen, (seen, creator) ∈ recents /\ u64 (number - 2) < seen)
      /\ number mod epoch <> 0.
Proof.
  induction recents as [|[seen recent] rest IH]; simpl.
  - split; [discriminate|]. intros [(seen & Hin & _) _].
    now apply elem_of_nil in Hin.
  - destruct (bool_decide (recent = creator) && (u64 (number - 2) <? seen)
              && negb (number mod epoch =? 0)) eqn:E.
    + split; [|done]. intros _.
      apply andb_prop in E as [E E3]. apply andb_prop in E as [E1 E2].
      apply bool_decide_eq_true in E1 as ->.
      apply Z.ltb_lt in E2. apply negb_true_iff, Z.eqb_neq in E3.
      split; [|done]. exists seen. split; [apply elem_of_cons; now left | done].
    + rewrite IH. split.
      * intros [(s & Hin & Hlt) Hne]. split; [|done].
        exists s. split; [apply elem_of_cons; now right | done].
      * intros [(s & Hin & Hlt) Hne]. split; [|done].
        apply elem_of_cons in Hin as [Heq|Hin]; [|eauto].
        injection Heq as -> ->. exfalso.
        rewrite bool_decide_eq_true_2 in E by done.
        apply Z.ltb_lt in Hlt. rewrite Hlt in E.
        apply Z.eqb_neq in Hne. rewrite Hne in E. discriminate.
Qed.

(** On an epoch boundary the loop rejects nobody. *)
Lemma signedRecently_boundary (recents : list (Z * common.Address))
  (creator : common.Address) (number epoch : Z) :
  number mod epoch = 0 -> signedRecently recents creator number epoch = false.
Proof.
  intros Hb. destruct (signedRecently recents creator number epoch) eqn:E;
    [|done].
  apply signedRecently_true in E as [_ Hne]. contradiction.
Qed.

(** Once its first checks pass, [verifySeal] is left with the recency rule
    and the double validation. *)
Lemma verifySeal_authorized (c : XDPoS_v1) (chain : ChainReader) (header : Header)
  (parents : list Header) (fullVerify : bool) (num : Z) (snap : SnapshotV1.t)
  (creator : common.Address) (masternodes : list common.Address)
  (c3 : XDPoS_v1) :
  SealAuthorized c chain header parents num snap creator masternodes c3 ->
  verifySeal chain header parents fullVerify c
  = (if (1 <? len masternodes)
        && signedRecently (map_to_list (SnapshotV1.Recents snap)) creator
             (Uint64 num) (Epoch (config c3))
     then mret (Some ErrUnauthorized)
     else if (Epoch (config c3) <? Uint64 num) && fullVerify
     then doubleValidation chain header creator
     else mret None) c3.
Proof.
  intros (Hnum & Hnz & c1 & c2 & parent & difficulty & Hsnap & Hrec & Hpar
          & Hdiff & Heq & HM & Hauth).
  unfold verifySeal.
  erewrite bind_run by (apply run_Some, Hnum).
  apply Z.eqb_neq in Hnz. rewrite Hnz.
  erewrite bind_run by exact Hsnap. cbv beta iota.
  erewrite bind_run by exact Hrec. cbv beta iota.
  erewrite bind_run by (apply run_Some, Hpar).
  erewrite bind_run by exact Hdiff.
  rewrite Heq, Z.eqb_refl, andb_false_r.
  erewrite bind_run by apply engine_run.
  erewrite bind_run by (apply run_Some, HM).
  assert (negb (bool_decide (creator ∈ SnapshotV1.Signers snap))
          && negb (bool_decide (creator ∈ masternodes)) = false) as ->.
  { destruct Hauth as [Hs|Hm];
      [rewrite (bool_decide_eq_true_2 _ Hs) | rewrite (bool_decide_eq_true_2 _ Hm)];
      simpl; [reflexivity | apply andb_false_r]. }
  reflexivity.
Qed.

(** C5, amended: for a header at height 2 or above that passes the first
    checks of [verifySeal], when there is more than one masternode and the
    recovered creator appears in the snapshot's recents at a key seen with
    seen > number - 2, [verifySeal] returns [ErrUnauthorized] unless the
    header is on an epoch boundary; on an epoch boundary the recency rule
    rejects nothing and verification goes on to the double validation. *)
Theorem verifySeal_recency (c : XDPoS_v1) (chain : ChainReader) (header : Header)
  (parents : list Header) (fullVerify : bool) (num : Z) (snap : SnapshotV1.t)
  (creator : common.Address) (masternodes : list common.Address)
  (c3 : XDPoS_v1) (seen : Z) :
  SealAuthorized c chain header parents num snap creator masternodes c3 ->
  1 < len masternodes ->
  2 <= Uint64 num ->
  SnapshotV1.Recents snap !! seen = Some creator ->
  seen > Uint64 num - 2 ->
  (Uint64 num mod Epoch (config c3) <> 0 ->
   result (verifySeal chain header parents fullVerify c)
   = Some (Some ErrUnauthorized)) /\
  (Uint64 num mod Epoch (config c3) = 0 ->
   verifySeal chain header parents fullVerify c
   = (if (Epoch (config c3) <? Uint64 num) && fullVerify
      then doubleValidation chain header creator
      else mret None) c3).
Proof.
  intros Hauth Hmany Htwo Hseen Hgt.
  rewrite (verifySeal_authorized _ _ _ _ fullVerify _ _ _ _ _ Hauth).
  apply Z.ltb_lt in Hmany. rewrite Hmany. unfold andb at 1. split.
  - intros Hne.
    assert (signedRecently (map_to_list (SnapshotV1.Recents snap)) creator
              (Uint64 num) (Epoch (config c3)) = true) as ->.
    { apply signedRecently_true. split; [|done].
      exists seen. split; [now apply elem_of_map_to_list|].
      pose proof (Uint64_range num). unfold u64.
      rewrite Z.mod_small by lia. lia. }
    reflexivity.
  - intros Hb. now rewrite (signedRecently_boundary _ _ _ _ Hb).
Qed.







End SealVerification.

(** ** Header verification *)

Section HeaderVerification.

Context `{External}.



(** C7, amended: under full verification outside the testnet, a header with
    a number, which carries a validator signature when its number is above
    Epoch, and whose timestamp is in the future is rejected by
    [verifyHeader] with [ErrFutureBlock]. *)
Theorem verifyHeader_future_block (c : XDPoS_v1) (now : Z) (chain : ChainReader)
  (header : Header) (parents : list Header) (num : Z) :
  IsTestnet = false ->
  Number header = Some num ->
  ~ (Epoch (config c) < Uint64 num /\ len (Validator header) = 0) ->
  Time header > now ->
  result (verifyHeader now chain header parents true c)
  = Some (Some ErrFutureBlock).
Proof.
  intros Htest Hnum Hval Hfuture.
  unfold verifyHeader. rewrite Htest, Hnum.
  erewrite bind_run by apply engine_run. cbv beta.
  assert ((true && (Epoch (config c) <? Uint64 num)
           && (len (Validator header) =? 0)) = false) as ->.
  { simpl. destruct (Epoch (config c) <? Uint64 num) eqn:E1; [|done].
    destruct (len (Validator header) =? 0) eqn:E2; [|done].
    apply Z.ltb_lt in E1. apply Z.eqb_eq in E2. exfalso. now apply Hval. }
  assert ((now <? Time header) = true) as -> by (apply Z.ltb_lt; lia).
  reflexivity.
Qed.

End HeaderVerification.

(** ** Checkpoint signers and the contract fallback *)

Section CheckpointSigners.

Context `{External}.

(** At the height [IgnoreSignerCheckBlock] the signer list is not compared. *)
Lemma checkSignersOnCheckpoint_ignored (c : XDPoS_v1) (chain : ChainReader)
  (header : Header) (signers : list common.Address) (num : Z) :
  Number header = Some num ->
  Uint64 num = IgnoreSignerCheckBlock ->
  checkSignersOnCheckpoint c chain header signers = Some None.
Proof.
  intros Hnum Hign. unfold checkSignersOnCheckpoint. rewrite Hnum. simpl.
  apply Z.eqb_eq in Hign. now rewrite Hign.
Qed.

(** The header [steps] parents down is the one the chain returned last, at
    the height [steps] blocks below. *)
Lemma startGapBlock_height (chain : ChainReader) (number : Z) (steps : nat)
  (start g : Header) (step : Z) :
  startGapBlock chain number start step (S steps) = Some g ->
  exists p,
    GetHeader chain (ParentHash p) (u64 (number - (step + Z.of_nat steps)))
    = Some g.
Proof.
  revert start step. induction steps as [|steps IH]; intros start step Hwalk.
  - simpl in Hwalk.
    destruct (GetHeader chain (ParentHash start) (u64 (number - step)))
      as [h|] eqn:Hh; simpl in Hwalk; [|discriminate].
    injection Hwalk as ->. exists start.
    now replace (step + Z.of_nat 0) with step by lia.
  - change (startGapBlock chain number start step (S (S steps)))
      with (GetHeader chain (ParentHash start) (u64 (number - step))
            ≫= fun h => startGapBlock chain number h (step + 1) (S steps))
      in Hwalk.
    destruct (GetHeader chain (ParentHash start) (u64 (number - step)))
      as [h|]; simpl in Hwalk; [|discriminate].
    destruct (IH h (step + 1) Hwalk) as [p Hp]. exists p.
    now replace (step + Z.of_nat (S steps)) with (step + 1 + Z.of_nat steps)
      by lia.
Qed.

(** [getSignersFromContract] asks the contract at the hash of that header. *)
Lemma getSignersFromContract_anchor (c : XDPoS_v1) (chain : ChainReader)
  (header g : Header) (num : Z)
  (hook : common.Hash -> Error + list common.Address) :
  Number header = Some num ->
  HookGetSignersFromContract c = Some hook ->
  startGapBlock chain (Uint64 num) header 1
    (Z.to_nat (Gap (XDPoS (Config chain)))) = Some g ->
  getSignersFromContract c chain header
  = Some (match hook (HeaderHash g) with
          | inl _ => inl (ErrOther "Can't get signers from Smart Contract")
          | inr signers => inr signers
          end).
Proof.
  intros Hnum Hhook Hwalk. unfold getSignersFromContract.
  rewrite Hnum. simpl. rewrite Hwalk. simpl. rewrite Hhook. simpl.
  now destruct (hook (HeaderHash g)).
Qed.

(** A checkpoint header that reaches the comparison of its signer list is
    first compared with the signers of the snapshot. *)
Lemma verifyCascadingFields_reaches (c : XDPoS_v1) (chain : ChainReader)
  (header : Header) (parents : list Header) (fullVerify : bool) (num : Z)
  (snap : SnapshotV1.t) (c1 : XDPoS_v1) :
  ReachesSignerCheck c chain header parents num snap c1 ->
  verifyCascadingFields chain header parents fullVerify c
  = (err ← run (checkSignersOnCheckpoint c1 chain header (GetSigners snap));
     match err with
     | None => verifySeal chain header parents fullVerify
     | Some _ =>
       r ← run (getSignersFromContract c1 chain header);
       match r with
       | inl err => mret (Some err)
       | inr signers =>
         err ← run (checkSignersOnCheckpoint c1 chain header signers);
         match err with
         | None => verifySeal chain header parents fullVerify
         | Some err => mret (Some err)
         end
       end
     end) c1.
Proof.
  intros (Hnum & Hnz & Hepoch & Hcp & (parent & pnum & Hpar & Hpnum & Hpn & Hph
          & Htime) & Hsnap).
  unfold verifyCascadingFields.
  erewrite bind_run by (apply run_Some, Hnum).
  apply Z.eqb_neq in Hnz. rewrite Hnz. rewrite Hpar.
  erewrite bind_run by (apply run_Some, Hpnum).
  apply Z.eqb_eq in Hpn. rewrite Hpn.
  rewrite (bool_decide_eq_true_2 _ Hph). cbn [negb orb].
  erewrite bind_run by apply engine_run. cbv beta.
  assert ((Uint64 (Time header)
           <? u64 (Uint64 (Time parent) + Period (config c))) = false) as ->
    by (apply Z.ltb_ge; lia).
  apply Z.eqb_neq in Hepoch. rewrite Hepoch.
  apply Z.eqb_eq in Hcp. rewrite Hcp. cbn [negb].
  erewrite bind_run by exact Hsnap. cbv beta iota.
  erewrite bind_run by apply engine_run. cbv beta.
  destruct (checkSignersOnCheckpoint c1 chain header (GetSigners snap))
    as [[e|]|].
  - erewrite !bind_run by reflexivity. reflexivity.
  - erewrite !bind_run by reflexivity. reflexivity.
  - reflexivity.
Qed.

(** C8, amended: for a checkpoint header that reaches the comparison of its
    signer list and whose list fails the comparison with the signers of the
    snapshot (which presupposes a height other than
    [IgnoreSignerCheckBlock]), verification falls back to the list
    [HookGetSignersFromContract] returns at the hash of the block Gap blocks
    below. If the hook fails the header is rejected; if the contract list
    fails the comparison the header is rejected with that error; if it
    passes, the header is handed to [verifySeal], whose verdict is the
    verdict. *)
Theorem verifyCascadingFields_contract_fallback (c : XDPoS_v1)
  (chain : ChainReader) (header : Header) (parents : list Header)
  (fullVerify : bool) (num : Z) (snap : SnapshotV1.t) (c1 : XDPoS_v1)
  (err0 : Error) :
  ReachesSignerCheck c chain header parents num snap c1 ->
  checkSignersOnCheckpoint c1 chain header (GetSigners snap) = Some (Some err0) ->
  Uint64 num <> IgnoreSignerCheckBlock /\
  (forall hook g,
     HookGetSignersFromContract c1 = Some hook ->
     startGapBlock chain (Uint64 num) header 1
       (Z.to_nat (Gap (XDPoS (Config chain)))) = Some g ->
     getSignersFromContract c1 chain header
     = Some (match hook (HeaderHash g) with
             | inl _ => inl (ErrOther "Can't get signers from Smart Contract")
             | inr signers => inr signers
             end) /\
     (0 < Gap (XDPoS (Config chain)) ->
      exists p,
        GetHeader chain (ParentHash p)
          (u64 (Uint64 num - Gap (XDPoS (Config chain)))) = Some g)) /\
  (forall err,
     getSignersFromContract c1 chain header = Some (inl err) ->
     result (verifyCascadingFields chain header parents fullVerify c)
     = Some (Some err)) /\
  (forall signers,
     getSignersFromContract c1 chain header = Some (inr signers) ->
     (checkSignersOnCheckpoint c1 chain header signers = Some None ->
      verifyCascadingFields chain header parents fullVerify c
      = verifySeal chain header parents fullVerify c1) /\
     (forall err,
        checkSignersOnCheckpoint c1 chain header signers = Some (Some err) ->
        result (verifyCascadingFields chain header parents fullVerify c)
        = Some (Some err))).
Proof.
  intros Hreach Hfirst.
  pose proof Hreach as (Hnum & _).
  rewrite (verifyCascadingFields_reaches _ _ _ _ fullVerify _ _ _ Hreach).
  erewrite bind_run by (apply run_Some, Hfirst). cbv beta iota.
  split; [|split; [|split]].
  - intros Hign.
    rewrite (checkSignersOnCheckpoint_ignored _ _ _ _ _ Hnum Hign) in Hfirst.
    discriminate.
  - intros hook g Hhook Hwalk.
    split; [now apply (getSignersFromContract_anchor _ _ _ _ num)|].
    intros Hgap.
    destruct (Z.to_nat (Gap (XDPoS (Config chain)))) as [|steps] eqn:Hsteps;
      [lia|].
    destruct (startGapBlock_height _ _ _ _ _ _ Hwalk) as [p Hp].
    exists p. now replace (Gap (XDPoS (Config chain)))
                with (1 + Z.of_nat steps) by lia.
  - intros err Hhook.
    erewrite bind_run by (apply run_Some, Hhook). reflexivity.
  - intros signers Hhook.
    erewrite bind_run by (apply run_Some, Hhook). cbv beta iota. split.
    + intros Hok. erewrite bind_run by (apply run_Some, Hok). reflexivity.
    + intros err Hbad. erewrite bind_run by (apply run_Some, Hbad). reflexivity.
Qed.

End CheckpointSigners.

(** ** Sealing and the stop channel *)

Section Sealing.

Context `{External}.

(** With the stop channel signalled, whatever [Seal] returns carries no
    block, and [Seal] is never left waiting. *)
Lemma Seal_cancelled_no_block (c c' : XDPoS_v1) (chain : ChainReader)
  (block : Block) (res : SealResult) :
  Seal chain block true c = Some (res, c') ->
  exists err, res = Returned None err.
Proof.
  unfold Seal, mbind, Go_bind, mret, Go_ret, run, engine.
  intros Hseal.
  repeat (case_match; simplify_eq/=; eauto).
Qed.

(** C9, amended: when the stop channel is signalled by the time [Seal]
    reads it, [Seal] returns no block; and for a block that passes the checks
    ahead of the stop channel it returns no error either, that is
    (nil, nil), on the path that waits for the recent signer as on the poll
    before signing. *)
Theorem Seal_cancelled (c : XDPoS_v1) (chain : ChainReader) (block : Block) :
  (forall res c',
     Seal chain block true c = Some (res, c') ->
     exists err, res = Returned None err) /\
  (MaySeal c chain block ->
   result (Seal chain block true c) = Some (Returned None None)).
Proof.
  split; [intros res c'; apply Seal_cancelled_no_block|].
  intros (num & snap & c1 & masternodes & Hnum & Hnz & Hepoch & Hwait & Hsnap
          & HM & Hauth).
  unfold Seal.
  erewrite bind_run by (apply run_Some, Hnum).
  apply Z.eqb_neq in Hnz. rewrite Hnz.
  erewrite bind_run by apply engine_run. cbv beta.
  apply Z.eqb_neq in Hepoch. rewrite Hepoch, andb_false_r.
  rewrite Hwait.
  erewrite bind_run by exact Hsnap. cbv beta iota.
  erewrite bind_run by apply engine_run. cbv beta.
  erewrite bind_run by (apply run_Some, HM).
  assert (negb (bool_decide (signer c ∈ SnapshotV1.Signers snap))
          && negb (bool_decide (signer c ∈ masternodes)) = false) as ->.
  { destruct Hauth as [Hs|Hm];
      [rewrite (bool_decide_eq_true_2 _ Hs) | rewrite (bool_decide_eq_true_2 _ Hm)];
      simpl; [reflexivity | apply andb_false_r]. }
  now destruct ((1 <? len masternodes)
                && mustWait (map_to_list (SnapshotV1.Recents snap)) (signer c)
                     (Uint64 num) (Epoch (config c1))).
Qed.

End Sealing.
(** * Further properties of the engine *)

(** ** Masternode lists *)

Section MasternodeLists.

Context `{External}.

(** X1: [position] returns the first index at which the address occurs in
    the list, and -1 exactly when the address does not occur. *)
Theorem position_first_occurrence (l : list common.Address) (x : common.Address) :
  (position l x = -1 <-> x ∉ l) /\
  (x ∈ l ->
   exists n : nat, position l x = Z.of_nat n /\ l !! n = Some x
     /\ forall k : nat, (k < n)%nat -> l !! k <> Some x).
Proof.
  split; [apply position_absent | apply position_present].
Qed.

Lemma copyAddress_prefix (a rest : list byte) :
  length a = 20%nat -> common.copyAddress (a ++ rest) = a.
Proof.
  intros Ha. unfold common.copyAddress.
  rewrite <- app_assoc. rewrite take_app_length'; done.
Qed.

(** Cutting the concatenation of 20-byte addresses every 20 bytes gives the
    addresses back. *)
Lemma parse_addresses (ms : list common.Address) (rest : list byte) :
  addresses20 ms ->
  map (fun i : nat =>
         common.copyAddress (drop (i * 20) (concat ms ++ rest)))
      (seq 0 (length ms)) = ms.
Proof.
  intros Hms. induction Hms as [|a ms Ha _ IH]; [reflexivity|].
  simpl length. rewrite <- cons_seq. simpl map. f_equal.
  - simpl. rewrite <- app_assoc. now apply copyAddress_prefix.
  - rewrite <- fmap_S_seq. rewrite <- IH at 2.
    change (map ?f (S <$> ?l)) with (map f (map S l)). rewrite map_map.
    apply map_ext. intros i. simpl concat. rewrite <- app_assoc.
    replace (S i * 20)%nat with (length a + i * 20)%nat by lia.
    now rewrite drop_app_add.
Qed.

Lemma len_nonneg {A} (l : list A) : 0 <= len l.
Proof. unfold len. lia. Qed.

Lemma len_app {A} (l1 l2 : list A) : len (l1 ++ l2) = len l1 + len l2.
Proof. unfold len. rewrite length_app. lia. Qed.

Lemma len_concat_addresses (ms : list common.Address) :
  addresses20 ms -> len (concat ms) = 20 * len ms.
Proof.
  unfold len. induction 1 as [|a ms Ha _ IH]; [reflexivity|].
  simpl. rewrite length_app. lia.
Qed.

(** An extra-data made of 32 bytes of vanity, the addresses [ms] and a seal
    parses to [ms]; up to 19 stray bytes before the seal are ignored. *)
Lemma checkpoint_extra_parses (h : Header)
  (vanity rest : list byte) (ms : list common.Address) :
  Extra h = vanity ++ concat ms ++ rest ->
  len vanity = 32 -> 65 <= len rest < 85 ->
  addresses20 ms ->
  GetMasternodesFromCheckpointHeader h = Some ms.
Proof.
  intros HE Hv Hr Hms. unfold GetMasternodesFromCheckpointHeader.
  rewrite HE, !len_app, (len_concat_addresses ms Hms), Hv.
  unfold utils.ExtraVanity, utils.ExtraSeal, common.AddressLength.
  replace (32 + (20 * len ms + len rest) - 32 - 65)
    with (len ms * 20 + (len rest - 65)) by lia.
  assert (Hq : (len ms * 20 + (len rest - 65)) ÷ 20 = len ms).
  { pose proof (len_nonneg ms).
    rewrite Z.quot_div_nonneg by lia.
    rewrite Z.div_add_l by lia. rewrite Z.div_small by lia. lia. }
  rewrite Hq.
  destruct (len ms <? 0) eqn:Hneg; [pose proof (len_nonneg ms); lia|].
  f_equal. unfold len at 1. rewrite Nat2Z.id.
  rewrite <- (parse_addresses ms rest Hms) at 2.
  apply map_ext_in. intros i _. f_equal. unfold slice_from.
  replace (Z.to_nat (32 + Z.of_nat i * 20)) with (length vanity + i * 20)%nat
    by (unfold len in Hv; lia).
  now rewrite drop_app_add.
Qed.

(** X2: the addresses written between the 32 bytes of vanity and the seal of
    a checkpoint header are read back as they were written: by
    [GetMasternodesFromCheckpointHeader], by [GetMasternodes] on the
    checkpoint header itself, and by [GetMasternodes] on every header of the
    epoch, which looks the checkpoint up in the chain. Up to 19 stray bytes
    before the seal are ignored. *)
Theorem GetMasternodes_roundtrip (c : XDPoS_v1) (chain : ChainReader)
  (checkpoint : Header) (vanity rest : list byte) (ms : list common.Address) :
  Extra checkpoint = vanity ++ concat ms ++ rest ->
  len vanity = 32 -> 65 <= len rest < 85 ->
  addresses20 ms ->
  Epoch (config c) <> 0 ->
  GetMasternodesFromCheckpointHeader checkpoint = Some ms /\
  (forall num,
     Number checkpoint = Some num ->
     Uint64 num mod Epoch (config c) = 0 ->
     GetMasternodes c chain checkpoint = Some ms) /\
  (forall header num,
     Number header = Some num ->
     Uint64 num mod Epoch (config c) <> 0 ->
     GetHeaderByNumber chain (Uint64 num - Uint64 num mod Epoch (config c))
     = Some checkpoint ->
     GetMasternodes c chain header = Some ms).
Proof.
  intros HE Hv Hr Hms He.
  pose proof (checkpoint_extra_parses checkpoint vanity rest ms HE Hv Hr Hms)
    as Hparse.
  apply Z.eqb_neq in He.
  split; [exact Hparse|]. split.
  - intros num Hnum Hcp. unfold GetMasternodes. rewrite Hnum. simpl.
    apply Z.eqb_eq in Hcp. now rewrite He, Hcp.
  - intros header num Hnum Hcp Hget. unfold GetMasternodes. rewrite Hnum. simpl.
    apply Z.eqb_neq in Hcp. now rewrite He, Hcp, Hget.
Qed.

(** X3: [GetMasternodesFromCheckpointHeader] panics exactly on an extra-data
    of 77 bytes or fewer, where the length it hands to [make] is negative;
    on any longer extra-data it returns (len - 97) / 20 addresses, rounded
    towards zero, each of 20 bytes: none for 78 to 116 bytes. *)
Theorem GetMasternodesFromCheckpointHeader_shape (h : Header) :
  (GetMasternodesFromCheckpointHeader h = None <-> len (Extra h) <= 77) /\
  (forall ms,
     GetMasternodesFromCheckpointHeader h = Some ms ->
     len ms = (len (Extra h) - 97) ÷ 20 /\ addresses20 ms).
Proof.
  unfold GetMasternodesFromCheckpointHeader, utils.ExtraVanity, utils.ExtraSeal,
    common.AddressLength.
  replace (len (Extra h) - 32 - 65) with (len (Extra h) - 97) by lia.
  assert (Hsign : (len (Extra h) - 97) ÷ 20 < 0 <-> len (Extra h) <= 77).
  { pose proof (Z.quot_rem' (len (Extra h) - 97) 20) as Hqr.
    pose proof (Z.rem_bound_abs (len (Extra h) - 97) 20 ltac:(lia)) as Habs.
    destruct (Z.le_gt_cases 0 (len (Extra h) - 97)) as [Hpos|Hneg].
    - pose proof (Z.rem_nonneg (len (Extra h) - 97) 20 ltac:(lia) Hpos). lia.
    - pose proof (Z.rem_nonpos (len (Extra h) - 97) 20 ltac:(lia) ltac:(lia)).
      lia. }
  split.
  - destruct ((len (Extra h) - 97) ÷ 20 <? 0) eqn:E.
    + apply Z.ltb_lt in E. split; [intros _; now apply Hsign | done].
    + apply Z.ltb_ge in E. split; [done|]. intros Hle. apply Hsign in Hle. lia.
  - intros ms. destruct ((len (Extra h) - 97) ÷ 20 <? 0) eqn:E; [done|].
    apply Z.ltb_ge in E. intros [= <-]. split.
    + unfold len at 1. rewrite length_map, length_seq. lia.
    + apply Forall_map, Forall_forall. intros i _. unfold common.copyAddress.
      rewrite length_take, length_app, length_replicate. lia.
Qed.

(** X4: [GetMasternodes] answers alike for all the headers of one epoch that
    are no checkpoint: it reads the checkpoint header the chain holds at the
    start of the epoch, whatever the header's own extra-data, and returns
    the empty list when the chain does not hold that checkpoint. *)
Theorem GetMasternodes_within_epoch (c : XDPoS_v1) (chain : ChainReader)
  (h1 h2 : Header) (n1 n2 : Z) :
  Number h1 = Some n1 -> Number h2 = Some n2 ->
  Epoch (config c) <> 0 ->
  Uint64 n1 mod Epoch (config c) <> 0 ->
  Uint64 n2 mod Epoch (config c) <> 0 ->
  Uint64 n1 / Epoch (config c) = Uint64 n2 / Epoch (config c) ->
  GetMasternodes c chain h1 = GetMasternodes c chain h2 /\
  GetMasternodes c chain h1
  = match GetHeaderByNumber chain
            (Epoch (config c) * (Uint64 n1 / Epoch (config c))) with
    | Some checkpoint => GetMasternodesFromCheckpointHeader checkpoint
    | None => Some []
    end.
Proof.
  intros Hn1 Hn2 He Hm1 Hm2 Hq.
  assert (Hread : forall h n, Number h = Some n ->
            Uint64 n mod Epoch (config c) <> 0 ->
            GetMasternodes c chain h
            = match GetHeaderByNumber chain
                      (Epoch (config c) * (Uint64 n / Epoch (config c))) with
              | Some checkpoint => GetMasternodesFromCheckpointHeader checkpoint
              | None => Some []
              end).
  { intros h n Hn Hm. unfold GetMasternodes. rewrite Hn. simpl.
    apply Z.eqb_neq in He, Hm. rewrite He, Hm.
    replace (Uint64 n - Uint64 n mod Epoch (config c))
      with (Epoch (config c) * (Uint64 n / Epoch (config c))); [done|].
    apply Z.eqb_neq in He.
    pose proof (Z.div_mod (Uint64 n) (Epoch (config c)) He). lia. }
  split; [|now apply Hread].
  rewrite (Hread h1 n1 Hn1 Hm1), (Hread h2 n2 Hn2 Hm2). now rewrite Hq.
Qed.

End MasternodeLists.

(** ** Edges of the rotation *)

Section RotationEdges.

Context `{External}.

(** Whenever [YourTurn] returns an error, it reports no turn, a list length
    of 0 and equal indexes. *)
Lemma YourTurn_fails (c c' : XDPoS_v1) (chain : ChainReader) (parent : Header)
  (signer : common.Address) (n pre cur : Z) (turn : bool) (err : Error) :
  YourTurn chain parent signer c = Some (n, pre, cur, turn, Some err, c') ->
  turn = false /\ n = 0 /\ cur = pre.
Proof.
  unfold YourTurn, mbind, Go_bind, mret, Go_ret, run, engine.
  intros Hrun.
  repeat (case_match; simplify_eq/=; eauto).
Qed.

(** X5: whenever [YourTurn] fails (the snapshot is not found, the checkpoint
    lists no masternode, or the parent's seal does not recover),
    [calcDifficulty] returns the difficulty 0: each error return of
    [YourTurn] carries a length of 0 and equal indexes, and [calcDifficulty]
    adds them up. *)
Theorem calcDifficulty_zero_on_error (c : XDPoS_v1) (chain : ChainReader)
  (parent : Header) (signer : common.Address) (n pre cur : Z) (turn : bool)
  (err : Error) :
  result (YourTurn chain parent signer c) = Some (n, pre, cur, turn, Some err) ->
  result (calcDifficulty chain parent signer c) = Some 0.
Proof.
  unfold result. intros Hrun.
  destruct (YourTurn chain parent signer c) as [[r c']|] eqn:HY; [|done].
  simpl in Hrun. injection Hrun as ->.
  destruct (YourTurn_fails _ _ _ _ _ _ _ _ _ _ HY) as (_ & -> & ->).
  unfold calcDifficulty. rewrite (bind_run _ _ _ _ _ HY). simpl.
  f_equal. lia.
Qed.

(** X6: [YourTurn] never gives the turn to an address outside the
    masternode list of the parent's epoch: a signer it reports on turn is in
    the list [GetMasternodes] returns for the parent. *)
Theorem YourTurn_outsider_never_on_turn (c : XDPoS_v1) (chain : ChainReader)
  (parent : Header) (signer : common.Address) :
  onTurn c chain parent signer = true ->
  exists M, GetMasternodes c chain parent = Some M /\ signer ∈ M.
Proof.
  unfold onTurn. intros Hturn.
  destruct (YourTurn chain parent signer c)
    as [[[[[[n pre] cur] turn] [err|]] c']|] eqn:HY; [| |done].
  - destruct (YourTurn_fails _ _ _ _ _ _ _ _ _ _ HY) as (-> & _). discriminate.
  - subst turn.
    destruct (YourTurn_succeeds _ _ _ _ _ _ _ _ _ HY) as (M & Hres & ->).
    exists M. split; [apply Hres|].
    pose proof (ParentResolves_range c chain parent M pre (ex_intro _ c' Hres))
      as [Hpre Hlen].
    rewrite (YourTurn_resolved_state _ _ _ _ _ _ signer Hres) in HY.
    injection HY as _ Heq. apply Z.eqb_eq in Heq.
    destruct (decide (signer ∈ M)) as [Hin|Hout]; [exact Hin|].
    apply position_absent in Hout.
    pose proof (Z.rem_nonneg (pre + 1) (len M) ltac:(lia) ltac:(lia)). lia.
Qed.


End RotationEdges.

(** ** The caches of recovered signers *)

Section SignerCaches.

Context `{External}.

(** The three ways [ecrecover] returns: from the cache, with an error, or
    with a signer that it stores. *)
Lemma ecrecover_outcome (c c' : XDPoS_v1) (header : Header)
  (r : Error + common.Address) :
  ecrecover header c = Some (r, c') ->
  (exists a, signatures c !! HeaderHash header = Some a /\ r = inr a /\ c' = c) \/
  (exists err, signatures c !! HeaderHash header = None /\ r = inl err /\ c' = c) \/
  (exists a, signatures c !! HeaderHash header = None /\ r = inr a /\
     c' = set_signatures c (<[HeaderHash header := a]> (signatures c))).
Proof.
  unfold ecrecover, mbind, Go_bind, mret, Go_ret, run, engine, update.
  intros Hrun.
  repeat (case_match; simplify_eq/=); eauto 10.
Qed.

Lemma RecoverValidator_outcome (c c' : XDPoS_v1) (header : Header)
  (r : Error + common.Address) :
  RecoverValidator header c = Some (r, c') ->
  (exists a, validatorSignatures c !! HeaderHash header = Some a /\ r = inr a
     /\ c' = c) \/
  (exists err, validatorSignatures c !! HeaderHash header = None /\ r = inl err
     /\ c' = c) \/
  (exists a, validatorSignatures c !! HeaderHash header = None /\ r = inr a /\
     c' = set_validatorSignatures c
            (<[HeaderHash header := a]> (validatorSignatures c))).
Proof.
  unfold RecoverValidator, mbind, Go_bind, mret, Go_ret, run, engine, update.
  intros Hrun.
  repeat (case_match; simplify_eq/=); eauto 10.
Qed.

(** X8: [ecrecover] memoises: when it returns a signer for a header, the
    signer is in the cache under the header's hash; and wherever the cache
    holds a signer under a header's hash, [ecrecover] returns that signer
    and leaves the engine as it is, without looking at the seal: the header
    may carry any extra-data. *)
Theorem ecrecover_memoised (c c' : XDPoS_v1) (header : Header)
  (a : common.Address) :
  ecrecover header c = Some (inr a, c') ->
  signatures c' !! HeaderHash header = Some a /\
  forall header' c2,
    HeaderHash header' = HeaderHash header ->
    signatures c2 !! HeaderHash header = Some a ->
    ecrecover header' c2 = Some (inr a, c2).
Proof.
  intros Hrun. split.
  - destruct (ecrecover_outcome _ _ _ _ Hrun)
      as [(a' & Hhit & [= <-] & ->) | [(err & _ & [=] & _)
          | (a' & _ & [= <-] & ->)]].
    + exact Hhit.
    + simpl. apply lookup_insert_eq.
  - intros header' c2 Hsame Hhit. unfold ecrecover.
    rewrite (bind_run _ _ _ _ _ (engine_run c2)). cbv beta zeta.
    now rewrite Hsame, Hhit.
Qed.

(** X9: the cache of block creators and the cache of validators are kept
    apart: [ecrecover] changes nothing of the engine but [signatures],
    [RecoverValidator] nothing but [validatorSignatures], and a call of
    either that returns an error leaves the engine unchanged. *)
Theorem recovery_caches_apart (c c' : XDPoS_v1) (header : Header)
  (r : Error + common.Address) :
  (ecrecover header c = Some (r, c') ->
   c' = set_signatures c (signatures c') /\
   (forall err, r = inl err -> c' = c)) /\
  (RecoverValidator header c = Some (r, c') ->
   c' = set_validatorSignatures c (validatorSignatures c') /\
   (forall err, r = inl err -> c' = c)).
Proof.
  split; intros Hrun.
  - destruct (ecrecover_outcome _ _ _ _ Hrun)
      as [(a & _ & -> & ->) | [(err & _ & -> & ->) | (a & Hmiss & -> & ->)]];
      (split; [now destruct c | done]).
  - destruct (RecoverValidator_outcome _ _ _ _ Hrun)
      as [(a & _ & -> & ->) | [(err & _ & -> & ->) | (a & Hmiss & -> & ->)]];
      (split; [now destruct c | done]).
Qed.

(** X10: in the first epoch no validator is assigned: for every header
    below the epoch length [GetValidator] returns the zero address and no
    error, whoever the creator is and whatever the chain holds. *)
Theorem GetValidator_first_epoch (c : XDPoS_v1) (creator : common.Address)
  (chain : ChainReader) (header : Header) (num : Z) :
  Number header = Some num ->
  Uint64 num < Epoch (config c) ->
  GetValidator c creator chain header = Some (inr common.zeroAddress).
Proof.
  intros Hnum Hlt. pose proof (Uint64_range num) as [Hge _].
  unfold GetValidator. rewrite Hnum. simpl.
  destruct (Epoch (config c) =? 0) eqn:He; [lia|].
  rewrite (Z.mod_small (Uint64 num)) by lia.
  destruct (Uint64 num =? 0) eqn:Hz; simpl.
  - now rewrite Hz.
  - now rewrite Z.sub_diag.
Qed.

End SignerCaches.

(** ** The two recency loops *)

Section RecencyLoops.

(** Whatever the recency loop of [verifySeal] rejects, the loop of [Seal]
    waits for. *)
Lemma signedRecently_mustWait (recents : list (Z * common.Address))
  (a : common.Address) (number epoch : Z) :
  signedRecently recents a number epoch = true ->
  mustWait recents a number epoch = true.
Proof.
  induction recents as [|[seen recent] rest IH]; [done|]. simpl.
  destruct (bool_decide (recent = a)); simpl; [|exact IH].
  destruct (u64 (number - 2) <? seen); simpl.
  - rewrite orb_true_r. simpl. destruct (negb (number mod epoch =? 0)); auto.
  - intros Hrest. rewrite (IH Hrest). now destruct (_ && _).
Qed.

(** X11: at height 1 the two recency loops part. In [verifySeal] the bound
    number - 2 wraps around to 2^64 - 1, which no key of [Recents] exceeds,
    so the loop rejects nothing; in [Seal] the guard number < 2 makes the
    signer wait whenever it is among the recent signers at all (height 1 is
    no epoch boundary unless the epoch is 1). *)
Theorem recency_at_height_one (recents : list (Z * common.Address))
  (a : common.Address) (epoch : Z) :
  Forall (fun p => p.1 < 2 ^ 64) recents ->
  signedRecently recents a 1 epoch = false /\
  (mustWait recents a 1 epoch = true
   <-> (exists seen, (seen, a) ∈ recents) /\ 1 mod epoch <> 0).
Proof.
  intros Hkeys. induction Hkeys as [|[seen recent] rest Hseen _ [IH1 IH2]].
  - split; [done|]. simpl. split; [done|]. intros [[seen Hin] _].
    now apply elem_of_nil in Hin.
  - simpl in Hseen. split.
    + simpl. assert (u64 (1 - 2) = 2 ^ 64 - 1) as -> by reflexivity.
      assert ((2 ^ 64 - 1 <? seen) = false) as -> by (apply Z.ltb_ge; lia).
      now rewrite andb_false_r.
    + simpl. change (1 <? 2) with true. simpl orb. rewrite andb_true_r.
      destruct (bool_decide_reflect (recent = a)) as [->|Hne]; simpl.
      * destruct (1 mod epoch =? 0) eqn:Hm; simpl.
        -- rewrite IH2. apply Z.eqb_eq in Hm. split; [tauto|]. tauto.
        -- apply Z.eqb_neq in Hm. split; [|done]. intros _. split; [|done].
           exists seen. apply elem_of_cons. now left.
      * rewrite IH2. split; intros [[s Hin] Hm]; (split; [|done]); exists s.
        -- apply elem_of_cons. now right.
        -- apply elem_of_cons in Hin as [[= _ ->]|Hin]; [done|exact Hin].
Qed.

End RecencyLoops.

(** ** What the verification accepts *)

Section Acceptance.

Context `{External}.

(** A header that passes the checks on the header alone is handed on to
    [verifyCascadingFields]. *)
Lemma verifyHeader_standalone (c : XDPoS_v1) (now : Z) (chain : ChainReader)
  (header : Header) (parents : list Header) (fullVerify : bool) (num : Z) :
  Standalone c now chain header num (if IsTestnet then false else fullVerify) ->
  verifyHeader now chain header parents fullVerify c
  = verifyCascadingFields chain header parents
      (if IsTestnet then false else fullVerify) c.
Proof.
  set (full := if IsTestnet then false else fullVerify).
  intros (Hnum & He & Hfull & Hnonce & Hcp & Hncp & Hmix & Huncle & Hfork).
  unfold verifyHeader. fold full. rewrite Hnum.
  rewrite (bind_run _ _ _ _ _ (engine_run c)). cbv beta zeta.
  unfold utils.ExtraVanity, utils.ExtraSeal, common.AddressLength.
  replace (len (Extra header) - 32 - 65) with (len (Extra header) - 97) by lia.
  change (32 + 65) with 97.
  assert (full && (Epoch (config c) <? Uint64 num)
          && (len (Validator header) =? 0) = false) as ->.
  { destruct full; [|done]. destruct (Hfull eq_refl) as [_ Hv]. simpl.
    destruct (Epoch (config c) <? Uint64 num) eqn:E; [|done]. simpl.
    apply Z.ltb_lt in E. now apply Z.eqb_neq, Hv. }
  assert (full && (now <? Time header) = false) as ->.
  { destruct full; [|done]. destruct (Hfull eq_refl) as [Ht _]. simpl.
    now apply Z.ltb_ge. }
  apply Z.eqb_neq in He. rewrite He.
  destruct (Uint64 num mod Epoch (config c) =? 0) eqn:E.
  - apply Z.eqb_eq in E. destruct (Hcp E) as (Hcoin & Hdrop & Hlen & Hrem).
    rewrite (bool_decide_eq_true_2 _ Hcoin), (bool_decide_eq_true_2 _ Hdrop).
    simpl. rewrite andb_false_r.
    assert ((len (Extra header) <? 32) = false) as -> by (apply Z.ltb_ge; lia).
    assert ((len (Extra header) <? 97) = false) as -> by (apply Z.ltb_ge; lia).
    rewrite Hrem. simpl.
    rewrite (bool_decide_eq_true_2 _ Hmix), (bool_decide_eq_true_2 _ Huncle).
    simpl. now rewrite Hfork.
  - apply Z.eqb_neq in E. rewrite (Hncp E). simpl.
    assert (negb (bool_decide (Nonce header = utils.NonceAuthVote))
            && negb (bool_decide (Nonce header = utils.NonceDropVote))
            = false) as ->.
    { destruct Hnonce as [Hn|Hn]; rewrite (bool_decide_eq_true_2 _ Hn);
        simpl; [done | apply andb_false_r]. }
    rewrite (bool_decide_eq_true_2 _ Hmix), (bool_decide_eq_true_2 _ Huncle).
    simpl. now rewrite Hfork.
Qed.

(** X12: [verifyHeader] accepts a header exactly when the header passes
    every check on the header alone (with full verification on: it is not
    from the future and carries a validator signature past the first epoch;
    its nonce is one of the two votes; a checkpoint has the zero beneficiary,
    the drop-vote nonce and a whole number of addresses between vanity and
    seal; any other header has vanity and seal only; zero mix digest, empty
    uncle hash, matching fork hashes) and [verifyCascadingFields] accepts
    it. On the testnet full verification is switched off. *)
Theorem verifyHeader_accepts_iff (c : XDPoS_v1) (now : Z) (chain : ChainReader)
  (header : Header) (parents : list Header) (fullVerify : bool) :
  let full := if IsTestnet then false else fullVerify in
  result (verifyHeader now chain header parents fullVerify c) = Some None
  <-> exists num,
        Standalone c now chain header num full /\
        result (verifyCascadingFields chain header parents full c) = Some None.
Proof.
  intros full. split.
  - unfold verifyHeader. fold full.
    destruct (Number header) as [num|] eqn:Hnum; [|discriminate].
    rewrite (bind_run _ _ _ _ _ (engine_run c)). cbv beta zeta.
    unfold utils.ExtraVanity, utils.ExtraSeal, common.AddressLength.
    replace (len (Extra header) - 32 - 65) with (len (Extra header) - 97) by lia.
    change (32 + 65) with 97.
    intros Hrun. exists num. unfold Standalone.
    destruct (full && (Epoch (config c) <? Uint64 num)
              && (len (Validator header) =? 0)) eqn:E1; [discriminate|].
    destruct (full && (now <? Time header)) eqn:E2; [discriminate|].
    destruct (Epoch (config c) =? 0) eqn:E3; [discriminate|].
    destruct ((Uint64 num mod Epoch (config c) =? 0)
              && negb (bool_decide (Coinbase header = common.zeroAddress)))
      eqn:E4; [discriminate|].
    destruct (negb (bool_decide (Nonce header = utils.NonceAuthVote))
              && negb (bool_decide (Nonce header = utils.NonceDropVote)))
      eqn:E5; [discriminate|].
    destruct ((Uint64 num mod Epoch (config c) =? 0)
              && negb (bool_decide (Nonce header = utils.NonceDropVote)))
      eqn:E6; [discriminate|].
    destruct (len (Extra header) <? 32) eqn:E7; [discriminate|].
    destruct (len (Extra header) <? 97) eqn:E8; [discriminate|].
    destruct (negb (Uint64 num mod Epoch (config c) =? 0)
              && negb (len (Extra header) - 97 =? 0)) eqn:E9; [discriminate|].
    destruct ((Uint64 num mod Epoch (config c) =? 0)
              && negb (Z.rem (len (Extra header) - 97) 20 =? 0))
      eqn:E10; [discriminate|].
    destruct (negb (bool_decide (MixDigest header = common.zeroHash)))
      eqn:E11; [discriminate|].
    destruct (negb (bool_decide (UncleHash header = utils_UncleHash)))
      eqn:E12; [discriminate|].
    destruct (VerifyForkHashes (Config chain) header) eqn:E13; [discriminate|].
    apply negb_false_iff, bool_decide_eq_true in E11, E12.
    apply Z.eqb_neq in E3. apply Z.ltb_ge in E7, E8.
    split; [|exact Hrun]. split; [exact Hnum|]. split; [exact E3|]. split.
    { intros Hfull. rewrite Hfull in E1, E2. simpl in E1, E2.
      apply Z.ltb_ge in E2. split; [exact E2|]. intros Hlt.
      apply Z.ltb_lt in Hlt. rewrite Hlt in E1. simpl in E1.
      now apply Z.eqb_neq in E1. }
    split.
    { apply andb_false_iff in E5 as [E5|E5];
        apply negb_false_iff, bool_decide_eq_true in E5; auto. }
    split.
    { intros Hcp. apply Z.eqb_eq in Hcp. rewrite Hcp in E4, E6, E10.
      simpl in E4, E6, E10.
      apply negb_false_iff, bool_decide_eq_true in E4, E6.
      apply negb_false_iff, Z.eqb_eq in E10. auto. }
    split.
    { intros Hcp. apply Z.eqb_neq in Hcp. rewrite Hcp in E9. simpl in E9.
      apply negb_false_iff, Z.eqb_eq in E9. lia. }
    auto.
  - intros (num & Hst & Hrun).
    now rewrite (verifyHeader_standalone c now chain header parents fullVerify
                   num Hst).
Qed.



(** X14: [verifySeal] accepts a header exactly when the header is above
    the genesis block, the parent's snapshot is found, the seal recovers to
    a creator, the difficulty is the one calculated for the creator, the
    creator is a signer of the snapshot or a masternode of the epoch, the
    recency rule lets the creator through and, past the first epoch under
    full verification, the validator recovered from the header is the one
    assigned to the creator. *)
Theorem verifySeal_accepts_iff (c c' : XDPoS_v1) (chain : ChainReader)
  (header : Header) (parents : list Header) (fullVerify : bool) :
  verifySeal chain header parents fullVerify c = Some (None, c')
  <-> exists num snap creator masternodes c3,
        SealAuthorized c chain header parents num snap creator masternodes c3 /\
        NotRecent snap creator masternodes (Uint64 num) (Epoch (config c3)) /\
        if (Epoch (config c3) <? Uint64 num) && fullVerify
        then exists validator,
               RecoverValidator header c3 = Some (inr validator, c') /\
               GetValidator c' creator chain header = Some (inr validator)
        else c' = c3.
Proof.
  split.
  - unfold verifySeal, mbind, Go_bind, mret, Go_ret, run, engine.
    intros Hrun.
    repeat (case_match; simplify_eq/=);
      match goal with
      | Hn : Number header = Some ?z,
        Hz : (Uint64 ?z =? 0) = false,
        Hs : snapshot _ _ _ _ _ = Some (inr ?t, ?c1),
        He : ecrecover _ ?c1 = Some (inr ?a, ?c2),
        Hp : parentOf _ _ _ _ = Some ?h,
        Hd : calcDifficulty _ ?h ?a ?c2 = Some (?d, ?c3),
        Hi : (0 <? Uint64 ?z) && negb (_ =? Int64 ?d) = false,
        HM : GetMasternodes ?c3 _ _ = Some ?l,
        Ha : negb (bool_decide (?a ∈ _)) && negb (bool_decide (?a ∈ ?l)) = false,
        Hr : (1 <? len ?l) && _ = false,
        Hv : (Epoch (config ?c3) <? Uint64 ?z) && fullVerify = _ |- _ =>
          exists z, t, a, l, c3;
          apply Z.eqb_neq in Hz; pose proof (Uint64_range z) as [Hge _];
          split; [|split; [exact Hr | rewrite Hv]];
          [ split; [exact Hn|]; split; [exact Hz|];
            exists c1, c2, h, d; repeat (split; [assumption|]);
            split;
            [ apply andb_false_iff in Hi as [Hi|Hi];
              [apply Z.ltb_ge in Hi; lia
              | now apply negb_false_iff, Z.eqb_eq in Hi]
            | split; [exact HM|];
              apply andb_false_iff in Ha as [Ha|Ha];
              apply negb_false_iff, bool_decide_eq_true in Ha; auto ]
          | ]
      end.
    + match goal with
      | Hrv : RecoverValidator _ _ = Some (inr ?v, _),
        Heq : negb (bool_decide (?v = ?w)) = false |- _ =>
          apply negb_false_iff, bool_decide_eq_true in Heq; subst w;
          exists v; auto
      end.
    + reflexivity.
  - intros (num & snap & creator & masternodes & c3 & Hauth & Hrec & Hdv).
    rewrite (verifySeal_authorized _ _ _ _ fullVerify _ _ _ _ _ Hauth).
    unfold NotRecent in Hrec. rewrite Hrec.
    destruct ((Epoch (config c3) <? Uint64 num) && fullVerify).
    + destruct Hdv as (validator & Hrv & Hgv). unfold doubleValidation.
      rewrite (bind_run _ _ _ _ _ Hrv). cbv beta iota.
      rewrite (bind_run _ _ _ _ _ (engine_run c')). cbv beta.
      rewrite (bind_run _ _ c' c' (inr validator)) by (now apply run_Some).
      cbv beta iota. now rewrite bool_decide_eq_true_2.
    + now subst c'.
Qed.

End Acceptance.

(** ** What sealing returns *)

Section Sealed.

Context `{External}.

(** A call of [Seal] that returns a block has gone through every step. *)
Lemma Seal_returns_block (c c' : XDPoS_v1) (chain : ChainReader)
  (block b' : Block) (stop : bool) (err : option Error) :
  Seal chain block stop c = Some (Returned (Some b') err, c') ->
  err = None /\ stop = false /\
  exists num snap masternodes f hash sig m2,
    Number (header block) = Some num /\ Uint64 num <> 0 /\
    snapshot chain (u64 (Uint64 num - 1)) (ParentHash (header block)) [] c
    = Some (inr snap, c') /\
    GetMasternodes c' chain (header block) = Some masternodes /\
    (signer c ∈ SnapshotV1.Signers snap \/ signer c ∈ masternodes) /\
    ((1 <? len masternodes)
     && mustWait (map_to_list (SnapshotV1.Recents snap)) (signer c)
          (Uint64 num) (Epoch (config c')) = false) /\
    signFn c = Some f /\ sigHash (header block) = Some hash /\
    f (signer c) hash = inr sig /\
    GetValidator c' (signer c) chain (sealedWith (header block) sig)
    = Some (inr m2) /\
    b' = WithSeal block
           (if bool_decide (m2 = signer c)
            then setValidator (sealedWith (header block) sig) sig
            else sealedWith (header block) sig).
Proof.
  unfold Seal, sealedWith, mbind, Go_bind, mret, Go_ret, run, engine.
  intros Hrun.
  repeat (case_match; simplify_eq/=);
    (split; [reflexivity|]); (split; [reflexivity|]);
    match goal with
    | Hz : (Uint64 ?z =? 0) = false,
      Hs : snapshot _ _ _ _ _ = Some (inr ?t, _),
      HM : GetMasternodes _ _ _ = Some ?l,
      Hf : signFn _ = Some ?f,
      Hh : sigHash _ = Some ?h,
      Hsig : ?f _ ?h = inr ?sig,
      Hg : GetValidator _ _ _ _ = Some (inr ?m2),
      Ha : negb _ && negb _ = false,
      Hw : (1 <? _) && _ = false,
      Hb : bool_decide (?m2 = _) = _ |- _ =>
        exists z, t, l, f, h, sig, m2;
        apply Z.eqb_neq in Hz;
        apply andb_false_iff in Ha;
        rewrite !negb_false_iff, !bool_decide_eq_true in Ha;
        rewrite Hb; unfold utils.ExtraSeal in *; auto 15
    end.
Qed.

Lemma sigHash_Some_length (h : Header) (hash : common.Hash) :
  sigHash h = Some hash -> 65 <= len (Extra h).
Proof.
  unfold sigHash. destruct (len (Extra h) <? 65) eqn:E; [discriminate|].
  intros _. now apply Z.ltb_ge in E.
Qed.

Lemma length_copyBytes (dst src : list byte) :
  length (copyBytes dst src) = length dst.
Proof. unfold copyBytes. rewrite length_app, length_take, length_drop. lia. Qed.

Lemma copyBytes_full (dst src : list byte) :
  length src = length dst -> copyBytes dst src = src.
Proof.
  intros Hlen. unfold copyBytes.
  rewrite <- Hlen, firstn_all, drop_ge, app_nil_r by lia. reflexivity.
Qed.

(** The extra-data of a header: its body and its last 65 bytes. *)
Lemma Extra_body_seal (h : Header) :
  65 <= len (Extra h) ->
  Extra h = slice (Extra h) 0 (len (Extra h) - 65)
            ++ slice_from (Extra h) (len (Extra h) - 65) /\
  length (slice (Extra h) 0 (len (Extra h) - 65))
  = Z.to_nat (len (Extra h) - 65) /\
  length (slice_from (Extra h) (len (Extra h) - 65)) = 65%nat.
Proof.
  intros Hlen. unfold slice, slice_from. rewrite Z.sub_0_r.
  change (Z.to_nat 0) with 0%nat. rewrite drop_0.
  split; [now rewrite take_drop|].
  rewrite length_take, length_drop. unfold len in *. lia.
Qed.

(** Copying a signature over the seal leaves the signing hash, the length
    of the extra-data and its body as they are; a signature of 65 bytes
    becomes the seal. *)
Lemma sealedWith_facts (h : Header) (sig : list byte) (hash : common.Hash) :
  sigHash h = Some hash ->
  sigHash (sealedWith h sig) = Some hash /\
  len (Extra (sealedWith h sig)) = len (Extra h) /\
  slice (Extra (sealedWith h sig)) 0 (len (Extra h) - 65)
  = slice (Extra h) 0 (len (Extra h) - 65) /\
  (len sig = 65 ->
   slice_from (Extra (sealedWith h sig)) (len (Extra h) - 65) = sig).
Proof.
  intros Hhash.
  pose proof (sigHash_Some_length _ _ Hhash) as Hlen.
  destruct (Extra_body_seal _ Hlen) as (Hsplit & Hbody & Hseal65).
  unfold sealedWith.
  set (body := slice (Extra h) 0 (len (Extra h) - 65)) in *.
  set (seal := slice_from (Extra h) (len (Extra h) - 65)) in *.
  assert (Hcopy : length (copyBytes seal sig) = 65%nat)
    by (now rewrite length_copyBytes).
  assert (Hnew : len (body ++ copyBytes seal sig) = len (Extra h)).
  { unfold len. rewrite length_app, Hbody, Hcopy. unfold len in *. lia. }
  split.
  { rewrite <- Hhash. now apply (sigHash_setExtra_seal _ body seal). }
  split; [exact Hnew|]. simpl. split.
  - unfold slice at 1. rewrite Z.sub_0_r.
    change (Z.to_nat 0) with 0%nat. rewrite drop_0.
    rewrite <- Hbody. now rewrite take_app_length.
  - intros Hsig65. unfold slice_from at 1.
    replace (Z.to_nat (len (Extra h) - 65)) with (length body)
      by (now rewrite Hbody).
    rewrite drop_app_length. apply copyBytes_full.
    rewrite Hseal65. unfold len in Hsig65. lia.
Qed.

(** X15: [Seal] signs only for a signer that verification would admit: a
    call that returns a block was not cancelled, found the parent's
    snapshot and left the engine as the snapshot lookup left it, and its
    signer is a signer of that snapshot or a masternode of the epoch and
    clears the recency rule of [verifySeal]: the wait rule of [Seal] covers
    it. *)
Theorem Seal_signs_only_admitted (c c' : XDPoS_v1) (chain : ChainReader)
  (block b' : Block) (stop : bool) (err : option Error) :
  Seal chain block stop c = Some (Returned (Some b') err, c') ->
  stop = false /\
  exists num snap masternodes,
    Number (header block) = Some num /\ Uint64 num <> 0 /\
    snapshot chain (u64 (Uint64 num - 1)) (ParentHash (header block)) [] c
    = Some (inr snap, c') /\
    GetMasternodes c' chain (header block) = Some masternodes /\
    (signer c ∈ SnapshotV1.Signers snap \/ signer c ∈ masternodes) /\
    NotRecent snap (signer c) masternodes (Uint64 num) (Epoch (config c')).
Proof.
  intros Hseal.
  destruct (Seal_returns_block _ _ _ _ _ _ _ Hseal)
    as (_ & -> & num & snap & masternodes & f & hash & sig & m2 & Hnum & Hnz
        & Hsnap & HM & Hauth & Hwait & _).
  split; [reflexivity|]. exists num, snap, masternodes.
  repeat (split; [assumption|]). unfold NotRecent.
  destruct (1 <? len masternodes); [|reflexivity]. simpl in *.
  destruct (signedRecently _ _ _ _) eqn:Hrec; [|reflexivity].
  apply signedRecently_mustWait in Hrec. congruence.
Qed.

(** X16: the block [Seal] returns comes with no error and is the block it
    was given but for the seal and, possibly, the validator field: the
    transactions, the penalties and every header field outside the last 65
    bytes of the extra-data are unchanged, so the signing hash is the one
    that was signed; a signature of 65 bytes is the new seal; and the
    validator field is the signature or is left as it was. *)
Theorem Seal_signed_header (c c' : XDPoS_v1) (chain : ChainReader)
  (block b' : Block) (stop : bool) (err : option Error) :
  Seal chain block stop c = Some (Returned (Some b') err, c') ->
  err = None /\
  transactions b' = transactions block /\ penalties b' = penalties block /\
  sameExceptSeal (header block)
    (setValidator (header b') (Validator (header block))) /\
  sigHash (header b') = sigHash (header block) /\
  exists f hash sig,
    signFn c = Some f /\ sigHash (header block) = Some hash /\
    f (signer c) hash = inr sig /\
    (len sig = 65 ->
     slice_from (Extra (header b')) (len (Extra (header b')) - 65) = sig) /\
    (Validator (header b') = sig \/
     Validator (header b') = Validator (header block)).
Proof.
  intros Hseal.
  destruct (Seal_returns_block _ _ _ _ _ _ _ Hseal)
    as (-> & _ & num & snap & masternodes & f & hash & sig & m2 & _ & _
        & _ & _ & _ & _ & Hf & Hhash & Hsig & _ & ->).
  destruct (sealedWith_facts _ sig _ Hhash) as (Hsh & Hlen & Hbody & Hplaced).
  split; [reflexivity|].
  assert (Hsame : sameExceptSeal (header block) (sealedWith (header block) sig)).
  { unfold sameExceptSeal. rewrite Hlen, Hbody. unfold sealedWith. simpl.
    repeat split. }
  destruct (bool_decide (m2 = signer c)); simpl.
  - split; [reflexivity|]. split; [reflexivity|]. split; [exact Hsame|].
    split; [now rewrite Hhash|].
    exists f, hash, sig. repeat (split; [assumption|]). split; [|now left].
    change (slice (Extra (header block)) 0 _ ++ copyBytes _ sig)
      with (Extra (sealedWith (header block) sig)).
    now rewrite Hlen.
  - split; [reflexivity|]. split; [reflexivity|]. split; [exact Hsame|].
    split; [now rewrite Hhash|].
    exists f, hash, sig. repeat (split; [assumption|]). split; [|now right].
    change (slice (Extra (header block)) 0 _ ++ copyBytes _ sig)
      with (Extra (sealedWith (header block) sig)).
    now rewrite Hlen.
Qed.

(** X17: sealing and recovery are inverse to each other: when the signing
    function of the engine returns signatures of 65 bytes from which
    [crypto.Ecrecover] recovers the key of the engine's signer, [ecrecover]
    on the header of a block that [Seal] returned gives the engine's
    signer, wherever that header is not in the cache yet. *)
Theorem Seal_then_ecrecover (c c' c2 : XDPoS_v1) (chain : ChainReader)
  (block b' : Block) (stop : bool) (err : option Error) :
  Seal chain block stop c = Some (Returned (Some b') err, c') ->
  (forall f hash sig,
     signFn c = Some f -> sigHash (header block) = Some hash ->
     f (signer c) hash = inr sig ->
     len sig = 65 /\
     exists pubkey,
       crypto_Ecrecover hash sig = inr pubkey /\
       pubkeyAddress pubkey = signer c) ->
  signatures c2 !! HeaderHash (header b') = None ->
  result (ecrecover (header b') c2) = Some (inr (signer c)).
Proof.
  intros Hseal Hcrypto Hmiss.
  destruct (Seal_returns_block _ _ _ _ _ _ _ Hseal)
    as (_ & _ & num & snap & masternodes & f & hash & sig & m2 & _ & _
        & _ & _ & _ & _ & Hf & Hhash & Hsig & _ & Hb).
  destruct (Hcrypto f hash sig Hf Hhash Hsig) as (Hsig65 & pubkey & Hrec & Haddr).
  destruct (sealedWith_facts _ sig _ Hhash) as (Hsh & Hlen & _ & Hplaced).
  assert (Hmissed : ecrecoverMiss (header b') = Some (inr (signer c))).
  { assert (Hhead : Extra (header b') = Extra (sealedWith (header block) sig) /\
                    sigHash (header b') = Some hash).
    { subst b'. destruct (bool_decide (m2 = signer c)); simpl; auto. }
    destruct Hhead as [HE Hsh'].
    unfold ecrecoverMiss. rewrite HE, Hlen, Hsh'. unfold utils.ExtraSeal.
    pose proof (sigHash_Some_length _ _ Hhash) as H65.
    destruct (len (Extra (header block)) <? 65) eqn:E;
      [apply Z.ltb_lt in E; lia|].
    simpl.
    change (slice (Extra (header block)) 0 _ ++ copyBytes _ sig)
      with (Extra (sealedWith (header block) sig)).
    rewrite (Hplaced Hsig65), Hrec. now rewrite Haddr. }
  unfold result.
  now rewrite (ecrecover_miss c2 (header b') (signer c) Hmiss Hmissed).
Qed.

End Sealed.

(** ** The cache of verified headers *)

Section HeaderCache.

Context `{External}.

(** X18: [verifyHeaderWithCache] remembers what it accepted: after a call
    that returns no error the header's hash is in the cache; and wherever
    the cache holds the hash of a header, the call returns no error at once
    and leaves the engine and the cache unchanged, whatever the clock, the
    chain, the batch of parents and the request for full verification. A
    header accepted without full verification is thereby accepted under
    full verification while its hash is cached. *)
Theorem verifyHeaderWithCache_remembers (c c' : XDPoS_v1) (now : Z)
  (chain : ChainReader) (header : Header) (parents : list Header)
  (fullVerify : bool) (verified nested verified' : gset common.Hash) :
  verifyHeaderWithCache now chain header parents fullVerify verified nested c
  = Some ((None, verified'), c') ->
  HeaderHash header ∈ verified' /\
  forall now2 chain2 header2 parents2 fullVerify2 verified2 nested2 c2,
    HeaderHash header2 = HeaderHash header ->
    HeaderHash header ∈ verified2 ->
    verifyHeaderWithCache now2 chain2 header2 parents2 fullVerify2
      verified2 nested2 c2
    = Some ((None, verified2), c2).
Proof.
  unfold verifyHeaderWithCache. intros Hrun. split.
  - destruct (bool_decide_reflect (HeaderHash header ∈ verified)) as [Hhit|Hmiss].
    + injection Hrun as <- <-. exact Hhit.
    + unfold mbind, Go_bind, mret, Go_ret in Hrun.
      repeat (case_match; simplify_eq/=). set_solver.
  - intros now2 chain2 header2 parents2 fullVerify2 verified2 nested2 c2
      Hsame Hin.
    rewrite Hsame. now rewrite (bool_decide_eq_true_2 _ Hin).
Qed.

End HeaderCache.

(** ** Replacing the signer set *)

Section SignerSet.

Context `{External}.

(** A call of [UpdateMasternodes] that returns no error has found the
    snapshot and stored it with the new signers. *)
Lemma UpdateMasternodes_returns (c c' : XDPoS_v1) (chain : ChainReader)
  (header : Header) (ms : list Masternode.t) :
  UpdateMasternodes chain header ms c = Some (None, c') ->
  exists num snap c1,
    Number header = Some num /\
    snapshot chain (Uint64 num) (HeaderHash header) [] c = Some (inr snap, c1) /\
    c' = set_recents c1
           (<[SnapshotV1.Hash snap :=
                setSigners snap (list_to_set (Masternode.Address <$> ms))]>
              (recents c1)).
Proof.
  unfold UpdateMasternodes, mbind, Go_bind, mret, Go_ret, run, update.
  intros Hrun.
  repeat (case_match; simplify_eq/=). eauto 10.
Qed.

(** X19: [UpdateMasternodes] replaces the signer set wholesale: the
    snapshot cached afterwards under the hash of the snapshot it found has
    exactly the addresses of the given masternodes as signers, earlier
    signers that are not among them are gone, and its recent signers,
    number and hash are those of the snapshot found; outside the snapshot
    cache the engine is as the lookup of the snapshot left it. *)
Theorem UpdateMasternodes_replaces_signers (c c' : XDPoS_v1)
  (chain : ChainReader) (header : Header) (ms : list Masternode.t) :
  UpdateMasternodes chain header ms c = Some (None, c') ->
  exists num snap c1 snap',
    Number header = Some num /\
    snapshot chain (Uint64 num) (HeaderHash header) [] c = Some (inr snap, c1) /\
    recents c' !! SnapshotV1.Hash snap = Some snap' /\
    (forall a, a ∈ SnapshotV1.Signers snap' <-> a ∈ Masternode.Address <$> ms) /\
    SnapshotV1.Recents snap' = SnapshotV1.Recents snap /\
    SnapshotV1.Number snap' = SnapshotV1.Number snap /\
    SnapshotV1.Hash snap' = SnapshotV1.Hash snap /\
    c' = set_recents c1 (recents c').
Proof.
  intros Hrun.
  destruct (UpdateMasternodes_returns _ _ _ _ _ Hrun)
    as (num & snap & c1 & Hnum & Hsnap & ->).
  exists num, snap, c1,
    (setSigners snap (list_to_set (Masternode.Address <$> ms))).
  split; [exact Hnum|]. split; [exact Hsnap|].
  split; [apply lookup_insert_eq|].
  split; [intros a; simpl; apply elem_of_list_to_set|].
  repeat (split; [reflexivity|]). reflexivity.
Qed.

(** X20: [UpdateMasternodes] takes effect for [IsAuthorisedAddress]: where
    the snapshot of a header carries the header's hash and [snapshot]
    serves a snapshot it finds in the cache, after [UpdateMasternodes] on a
    header the query [IsAuthorisedAddress] on that header answers true
    exactly for the addresses of the given masternodes. *)
Theorem UpdateMasternodes_then_IsAuthorisedAddress (c c' : XDPoS_v1)
  (chain : ChainReader) (header : Header) (ms : list Masternode.t) (num : Z) :
  Number header = Some num ->
  UpdateMasternodes chain header ms c = Some (None, c') ->
  (forall snap c1,
     snapshot chain (Uint64 num) (HeaderHash header) [] c = Some (inr snap, c1) ->
     SnapshotV1.Hash snap = HeaderHash header) ->
  (forall snap,
     recents c' !! HeaderHash header = Some snap ->
     snapshot chain (Uint64 num) (HeaderHash header) [] c' = Some (inr snap, c')) ->
  forall a,
    IsAuthorisedAddress header chain a c'
    = Some (bool_decide (a ∈ Masternode.Address <$> ms), c').
Proof.
  intros Hnum Hrun Hhash Hcached a.
  destruct (UpdateMasternodes_returns _ _ _ _ _ Hrun)
    as (num' & snap & c1 & Hnum' & Hsnap & Hc').
  rewrite Hnum in Hnum'. injection Hnum' as <-.
  pose proof (Hhash _ _ Hsnap) as Hkey.
  assert (Hlook : recents c' !! HeaderHash header
                  = Some (setSigners snap
                            (list_to_set (Masternode.Address <$> ms)))).
  { rewrite Hc'. simpl. rewrite Hkey. apply lookup_insert_eq. }
  unfold IsAuthorisedAddress, GetSnapshot.
  rewrite (bind_run _ _ c' c'
             (inr (setSigners snap (list_to_set (Masternode.Address <$> ms))))).
  - cbv beta iota. unfold mret, Go_ret. do 2 f_equal.
    apply bool_decide_ext. simpl. apply elem_of_list_to_set.
  - rewrite (bind_run _ _ c' c' num) by (now apply run_Some).
    now apply Hcached.
Qed.

End SignerSet.

(** ** What [Prepare] prepares *)

Section Prepared.

Context `{External}.

Variable validVote : SnapshotV1.t -> common.Address -> bool -> bool.
Variable Intn : Z -> Z.

(** The vote [castVote] leaves in the header: none when no proposal is
    valid, else a valid proposal as beneficiary with its nonce. *)
Lemma castVote_outcome (p : Proposer) (snap : SnapshotV1.t) (h h' : Header) :
  castVote validVote Intn p snap h = Some h' ->
  (h' = h /\
   forall a b, proposals p !! a = Some b -> validVote snap a b = false) \/
  (exists coinbase authorize,
     proposals p !! coinbase = Some authorize /\
     validVote snap coinbase authorize = true /\
     h' = setNonce (setCoinbase h coinbase)
            (copyBytes (Nonce h)
               (if authorize then utils.NonceAuthVote else utils.NonceDropVote))).
Proof.
  unfold castVote.
  set (addresses := map_to_list (proposals p) ≫= _).
  assert (Hmem : forall a, a ∈ addresses <->
            exists b, proposals p !! a = Some b /\ validVote snap a b = true).
  { intros a. unfold addresses. rewrite list_elem_of_bind. split.
    - intros ([a' b] & Hin & Hp). apply elem_of_map_to_list in Hp.
      destruct (validVote snap a' b) eqn:Hv; [|now apply elem_of_nil in Hin].
      apply list_elem_of_singleton in Hin as ->. eauto.
    - intros (b & Hp & Hv). exists (a, b). rewrite Hv.
      split; [apply list_elem_of_singleton; reflexivity|].
      now apply elem_of_map_to_list. }
  destruct (0 <? len addresses) eqn:Hlen.
  - destruct (Intn (len addresses) <? 0); [discriminate|].
    destruct (addresses !! Z.to_nat (Intn (len addresses))) as [coinbase|] eqn:Hc;
      [|discriminate].
    simpl. intros Hret. right.
    apply list_elem_of_lookup_2 in Hc. apply Hmem in Hc as (b & Hp & Hv).
    exists coinbase, b. split; [exact Hp|]. split; [exact Hv|].
    rewrite Hp in Hret. simpl in Hret. destruct b; now injection Hret as <-.
  - intros [= <-]. left. split; [reflexivity|].
    intros a b Hp. destruct (validVote snap a b) eqn:Hv; [|reflexivity].
    assert (Hin : a ∈ addresses) by (apply Hmem; eauto).
    apply Z.ltb_ge in Hlen.
    destruct addresses; [now apply elem_of_nil in Hin|].
    unfold len in Hlen. simpl in Hlen. lia.
Qed.


#[local] Opaque removeRecentPenalties castVote penalize finishPrepare.

(** A pure step run inside the monad returns its value and keeps the
    state. *)
Lemma run_inv {A} (o : option A) (a : A) (c c' : XDPoS_v1) :
  run o c = Some (a, c') -> o = Some a /\ c' = c.
Proof. destruct o; simpl; intros [=]; subst; auto. Qed.

(** A call of [Prepare] that returns no error has gone through every
    step. *)
Lemma Prepare_returns (now now' : Z) (p : Proposer) (chain : ChainReader)
  (header h' : Header) (c c' : XDPoS_v1) :
  Prepare validVote Intn now now' p chain header c = Some ((h', None), c') ->
  exists num snap c1 voted parent difficulty,
    Number header = Some num /\
    snapshot chain (u64 (Uint64 num - 1)) (ParentHash header) [] c
    = Some (inr snap, c1) /\
    Epoch (config c1) <> 0 /\
    (if negb (Uint64 num mod Epoch (config c1) =? 0)
     then castVote validVote Intn p snap (unvoted header)
     else Some (unvoted header)) = Some voted /\
    GetHeader chain (ParentHash voted) (u64 (Uint64 num - 1)) = Some parent /\
    calcDifficulty chain parent (signer c1) c1 = Some (difficulty, c') /\
    if (Epoch (config c') <=? Uint64 num)
       && (Uint64 num mod Epoch (config c') =? 0)
    then exists h2 base ms,
           penalize c' chain (withVanity voted difficulty) (Uint64 num)
             (GetSigners snap) = Some (inr (h2, base)) /\
           removeRecentPenalties chain (Uint64 num) (Epoch (config c')) base 1
             (Z.to_nat common.LimitPenaltyEpoch) = Some ms /\
           match HookValidator p with
           | Some hook =>
             exists validators,
               hook (setExtra h2 (Extra h2 ++ concat ms)) ms = inr validators /\
               h' = finishPrepare c' now now' parent
                      (setValidators (setExtra h2 (Extra h2 ++ concat ms))
                         validators)
           | None =>
             h' = finishPrepare c' now now' parent
                    (setExtra h2 (Extra h2 ++ concat ms))
           end
    else h' = finishPrepare c' now now' parent (withVanity voted difficulty).
Proof.
  unfold Prepare, mbind, Go_bind, mret, Go_ret, engine, panic.
  fold (unvoted header). intros Hrun.
  repeat (match type of Hrun with
          | context [match ?x with _ => _ end] => destruct x eqn:?
          end; simplify_eq/=);
  repeat match goal with
         | E : run _ _ = Some _ |- _ => apply run_inv in E as [? ->]
         end.
  all: do 6 eexists.
  all: split; [eassumption|]; split; [eassumption|].
  all: split;
    [match goal with
     | E : (Epoch _ =? 0) = false |- _ => apply Z.eqb_neq in E; exact E
     end|].
  all: split; [eassumption|].
  all: split; [eassumption|]; split; [eassumption|].
  all: match goal with E : (_ <=? _) && _ = _ |- _ => rewrite E end.
  all: try reflexivity.
  all: do 3 eexists; split; [eassumption|]; split; [eassumption|]; eauto.
Qed.

#[local] Transparent removeRecentPenalties castVote penalize finishPrepare.

Lemma penalize_outcome (c : XDPoS_v1) (chain : ChainReader) (h h' : Header)
  (number : Z) (ms ms' : list common.Address) :
  penalize c chain h number ms = Some (inr (h', ms')) ->
  (h' = h /\ ms' = ms) \/
  (exists pen,
     h' = setPenalties h (ExtractAddressToBytes pen) /\
     ms' = RemoveItemFromArray ms pen).
Proof.
  unfold penalize. intros Hrun.
  destruct (HookPenalty c), (HookPenaltyTIPSigning c); simpl in Hrun;
    repeat (case_match; simplify_eq/=); simplify_eq/=; eauto.
Qed.

Lemma finishPrepare_fields (c : XDPoS_v1) (now now' : Z) (parent h : Header) :
  let h' := finishPrepare c now now' parent h in
  Extra h' = Extra h ++ replicate 65 x00 /\
  MixDigest h' = common.zeroHash /\
  Time h' = (if Int64 (Time parent + Period (config c)) <? now then now'
             else Time parent + Period (config c)) /\
  Coinbase h' = Coinbase h /\ Nonce h' = Nonce h /\ Number h' = Number h /\
  Difficulty h' = Difficulty h /\ UncleHash h' = UncleHash h /\
  ParentHash h' = ParentHash h /\ Validators h' = Validators h /\
  Penalties h' = Penalties h.
Proof.
  unfold finishPrepare. simpl.
  destruct (Int64 (Time parent + Period (config c)) <? now); simpl; auto 15.
Qed.

Lemma removeRecentPenalties_addresses20 (chain : ChainReader) (number epoch : Z)
  (steps : nat) (signers ms : list common.Address) (i : Z) :
  (forall l1 l2, addresses20 l1 -> addresses20 (RemoveItemFromArray l1 l2)) ->
  addresses20 signers ->
  removeRecentPenalties chain number epoch signers i steps = Some ms ->
  addresses20 ms.
Proof.
  intros Hrem. revert signers i.
  induction steps as [|steps IH]; intros signers i Hs; simpl.
  - now intros [= <-].
  - destruct (u64 (i * epoch) <? number); simpl.
    + unfold removePenaltiesFromBlock.
      destruct (u64 (number - u64 (i * epoch)) <=? 0); simpl; [now apply IH|].
      destruct (GetHeaderByNumber chain _) as [hd|]; simpl; [|discriminate].
      destruct (GetBlock chain _ _) as [blk|]; simpl; [|discriminate].
      destruct (penalties blk); simpl; apply IH; auto.
    + now apply IH.
Qed.

(** What [Prepare] leaves in the header, read off its parts. *)
Lemma Prepare_header (now now' : Z) (p : Proposer) (chain : ChainReader)
  (header h' : Header) (c c' : XDPoS_v1) :
  Prepare validVote Intn now now' p chain header c = Some ((h', None), c') ->
  exists num snap c1 voted parent ms,
    Number header = Some num /\
    snapshot chain (u64 (Uint64 num - 1)) (ParentHash header) [] c
    = Some (inr snap, c1) /\
    Epoch (config c1) <> 0 /\
    (if negb (Uint64 num mod Epoch (config c1) =? 0)
     then castVote validVote Intn p snap (unvoted header)
     else Some (unvoted header)) = Some voted /\
    GetHeader chain (ParentHash header) (u64 (Uint64 num - 1)) = Some parent /\
    calcDifficulty chain parent (signer c1) c1 = Some (Difficulty h', c') /\
    Extra h'
    = take 32 (Extra header ++ replicate (32 - length (Extra header)) x00)
      ++ concat ms ++ replicate 65 x00 /\
    (if (Epoch (config c') <=? Uint64 num)
        && (Uint64 num mod Epoch (config c') =? 0)
     then exists base,
            (base = GetSigners snap \/
             exists pen, base = RemoveItemFromArray (GetSigners snap) pen) /\
            removeRecentPenalties chain (Uint64 num) (Epoch (config c')) base 1
              (Z.to_nat common.LimitPenaltyEpoch) = Some ms
     else ms = []) /\
    MixDigest h' = common.zeroHash /\
    Time h' = (if Int64 (Time parent + Period (config c')) <? now then now'
               else Time parent + Period (config c')) /\
    Coinbase h' = Coinbase voted /\ Nonce h' = Nonce voted /\
    Number h' = Number header /\ UncleHash h' = UncleHash header.
Proof.
  intros Hrun.
  destruct (Prepare_returns _ _ _ _ _ _ _ _ Hrun)
    as (num & snap & c1 & voted & parent & difficulty & Hnum & Hsnap & He
        & Hvote & Hpar & Hdiff & Hrest).
  assert (Hkeep : Extra voted = Extra header /\ Number voted = Number header /\
                  UncleHash voted = UncleHash header /\
                  ParentHash voted = ParentHash header).
  { destruct (negb (Uint64 num mod Epoch (config c1) =? 0)).
    - destruct (castVote_outcome _ _ _ _ Hvote)
        as [[-> _] | (cb & au & _ & _ & ->)]; simpl; auto.
    - injection Hvote as <-. simpl. auto. }
  destruct Hkeep as (HkE & HkN & HkU & HkP). rewrite HkP in Hpar.
  destruct ((Epoch (config c') <=? Uint64 num)
            && (Uint64 num mod Epoch (config c') =? 0)) eqn:Hcp.
  - destruct Hrest as (h2 & base & ms & Hpen & Hrem & Hhook).
    assert (Hh2 : Extra h2
                  = take 32 (Extra header
                             ++ replicate (32 - length (Extra header)) x00) /\
                  Coinbase h2 = Coinbase voted /\ Nonce h2 = Nonce voted /\
                  Number h2 = Number header /\ UncleHash h2 = UncleHash header /\
                  Difficulty h2 = difficulty /\
                  (base = GetSigners snap \/
                   exists pen, base = RemoveItemFromArray (GetSigners snap) pen)).
    { destruct (penalize_outcome _ _ _ _ _ _ _ Hpen)
        as [[-> ->] | (pen & -> & ->)]; simpl; rewrite HkE; eauto 10. }
    destruct Hh2 as (H2E & H2C & H2N & H2n & H2U & H2D & Hbase).
    exists num, snap, c1, voted, parent, ms. rewrite Hcp.
    destruct (HookValidator p) as [hook|].
    + destruct Hhook as (validators & _ & ->).
      pose proof (finishPrepare_fields c' now now' parent
                    (setValidators (setExtra h2 (Extra h2 ++ concat ms))
                       validators)) as Hf. cbv zeta in Hf. simpl in Hf.
      destruct Hf as (-> & -> & -> & -> & -> & -> & -> & -> & _).
      rewrite H2E, H2C, H2N, H2n, H2U, H2D.
      rewrite <- !app_assoc. repeat (split; [done|]). split; [eauto|done].
    + subst h'.
      pose proof (finishPrepare_fields c' now now' parent
                    (setExtra h2 (Extra h2 ++ concat ms))) as Hf.
      cbv zeta in Hf. simpl in Hf.
      destruct Hf as (-> & -> & -> & -> & -> & -> & -> & -> & _).
      rewrite H2E, H2C, H2N, H2n, H2U, H2D.
      rewrite <- !app_assoc. repeat (split; [done|]). split; [eauto|done].
  - subst h'. exists num, snap, c1, voted, parent, []. rewrite Hcp.
    pose proof (finishPrepare_fields c' now now' parent
                  (withVanity voted difficulty)) as Hf.
    cbv zeta in Hf. simpl in Hf.
    destruct Hf as (-> & -> & -> & -> & -> & -> & -> & -> & _).
    rewrite HkE, HkN, HkU. simpl. repeat (split; [done|]). done.
Qed.


(** X21: the extra-data [Prepare] writes is the vanity (the first 32 bytes
    of the extra-data it was given, padded with zeros), then on a
    checkpoint at or past the first epoch the signers of the parent's
    snapshot left after the penalties of the hook and of the last epochs,
    then 65 zero bytes for the seal; and
    [GetMasternodesFromCheckpointHeader] reads that list of masternodes
    back from the prepared header. *)
Theorem Prepare_extra_roundtrip (now now' : Z) (p : Proposer)
  (chain : ChainReader) (header h' : Header) (c c' : XDPoS_v1) :
  Prepare validVote Intn now now' p chain header c = Some ((h', None), c') ->
  exists num snap c1 ms,
    Number header = Some num /\
    snapshot chain (u64 (Uint64 num - 1)) (ParentHash header) [] c
    = Some (inr snap, c1) /\
    Extra h'
    = take 32 (Extra header ++ replicate (32 - length (Extra header)) x00)
      ++ concat ms ++ replicate 65 x00 /\
    (if (Epoch (config c') <=? Uint64 num)
        && (Uint64 num mod Epoch (config c') =? 0)
     then exists base,
            (base = GetSigners snap \/
             exists pen, base = RemoveItemFromArray (GetSigners snap) pen) /\
            removeRecentPenalties chain (Uint64 num) (Epoch (config c')) base 1
              (Z.to_nat common.LimitPenaltyEpoch) = Some ms
     else ms = []) /\
    (addresses20 ms -> GetMasternodesFromCheckpointHeader h' = Some ms).
Proof.
  intros Hrun.
  destruct (Prepare_header _ _ _ _ _ _ _ _ Hrun)
    as (num & snap & c1 & voted & parent & ms & Hnum & Hsnap & _ & _ & _ & _
        & HE & Hms & _).
  exists num, snap, c1, ms. repeat (split; [assumption|]).
  intros H20.
  apply (checkpoint_extra_parses h'
           (take 32 (Extra header ++ replicate (32 - length (Extra header)) x00))
           (replicate 65 x00) ms HE); [|done|exact H20].
  unfold len. rewrite length_take, length_app, length_replicate. lia.
Qed.

(** X22: the vote [Prepare] casts: a prepared checkpoint carries the zero
    beneficiary and the drop-vote nonce; any other prepared header either
    carries them too, and then no pending proposal is valid for the
    parent's snapshot, or its beneficiary is a pending proposal that is
    valid for the snapshot and its nonce is the authorize vote or the drop
    vote as the proposal says. *)
Theorem Prepare_vote (now now' : Z) (p : Proposer) (chain : ChainReader)
  (header h' : Header) (c c' : XDPoS_v1) :
  Prepare validVote Intn now now' p chain header c = Some ((h', None), c') ->
  exists num snap c1,
    Number header = Some num /\
    snapshot chain (u64 (Uint64 num - 1)) (ParentHash header) [] c
    = Some (inr snap, c1) /\
    (Uint64 num mod Epoch (config c1) = 0 ->
     Coinbase h' = common.zeroAddress /\ Nonce h' = utils.NonceDropVote) /\
    (Uint64 num mod Epoch (config c1) <> 0 ->
     (Coinbase h' = common.zeroAddress /\ Nonce h' = utils.NonceDropVote /\
      forall a b, proposals p !! a = Some b -> validVote snap a b = false) \/
     (exists authorize,
        proposals p !! Coinbase h' = Some authorize /\
        validVote snap (Coinbase h') authorize = true /\
        Nonce h' = if authorize then utils.NonceAuthVote
                   else utils.NonceDropVote)).
Proof.
  intros Hrun.
  destruct (Prepare_header _ _ _ _ _ _ _ _ Hrun)
    as (num & snap & c1 & voted & parent & ms & Hnum & Hsnap & _ & Hvote & _ & _
        & _ & _ & _ & _ & -> & -> & _).
  exists num, snap, c1. split; [exact Hnum|]. split; [exact Hsnap|]. split.
  - intros Hcp. apply Z.eqb_eq in Hcp. rewrite Hcp in Hvote. simpl in Hvote.
    injection Hvote as <-. now split.
  - intros Hcp. apply Z.eqb_neq in Hcp. rewrite Hcp in Hvote. simpl in Hvote.
    destruct (castVote_outcome _ _ _ _ Hvote)
      as [[-> Hnone] | (cb & au & Hp & Hv & ->)].
    + left. repeat split; [exact Hnone].
    + right. exists au. simpl. split; [exact Hp|]. split; [exact Hv|].
      now destruct au.
Qed.

(** X23: [Prepare] sets the difficulty that [calcDifficulty] gives the
    engine's signer on the parent, and the timestamp parent.Time + Period,
    or the clock when that is behind the clock; with a clock that does not
    run backwards and a sum in the range of [int64], the timestamp is
    neither before parent.Time + Period nor before the first reading of the
    clock. *)
Theorem Prepare_difficulty_and_time (now now' : Z) (p : Proposer)
  (chain : ChainReader) (header h' : Header) (c c' : XDPoS_v1) :
  Prepare validVote Intn now now' p chain header c = Some ((h', None), c') ->
  exists num snap c1 parent,
    Number header = Some num /\
    snapshot chain (u64 (Uint64 num - 1)) (ParentHash header) [] c
    = Some (inr snap, c1) /\
    GetHeader chain (ParentHash header) (u64 (Uint64 num - 1)) = Some parent /\
    calcDifficulty chain parent (signer c1) c1 = Some (Difficulty h', c') /\
    Time h' = (if Int64 (Time parent + Period (config c')) <? now then now'
               else Time parent + Period (config c')) /\
    (now <= now' ->
     - 2 ^ 63 <= Time parent + Period (config c') < 2 ^ 63 ->
     Time parent + Period (config c') <= Time h' /\ now <= Time h').
Proof.
  intros Hrun.
  destruct (Prepare_header _ _ _ _ _ _ _ _ Hrun)
    as (num & snap & c1 & voted & parent & ms & Hnum & Hsnap & _ & _ & Hpar
        & Hdiff & _ & _ & _ & Htime & _).
  exists num, snap, c1, parent. repeat (split; [assumption|]).
  intros Hclock Hrange. rewrite Htime.
  assert (HI : Int64 (Time parent + Period (config c'))
               = Time parent + Period (config c')).
  { unfold Int64, i64.
    destruct (Z.ltb_spec (Time parent + Period (config c')) 0) as [Hneg|Hpos].
    - rewrite Z.abs_neq by lia.
      rewrite (Z.mod_small (- (Time parent + Period (config c')))) by lia.
      destruct (Z.eq_dec (Time parent + Period (config c')) (- 2 ^ 63)) as [->|Hne].
      + reflexivity.
      + rewrite (Z.mod_small (- (Time parent + Period (config c')) + 2 ^ 63))
          by lia.
        rewrite (Z.mod_small) by lia. lia.
    - rewrite Z.abs_eq by lia.
      rewrite (Z.mod_small (Time parent + Period (config c'))) by lia.
      rewrite Z.mod_small by lia. lia. }
  rewrite HI.
  destruct (Z.ltb_spec (Time parent + Period (config c')) now); lia.
Qed.


(** X24: what [Prepare] prepares, [verifyHeader] does not turn down on its
    own account: a prepared header whose uncle hash is the empty one and
    whose fork hashes match passes every check of [verifyHeader] on the
    header alone, under the same epoch length and without full
    verification, and is handed on to [verifyCascadingFields]. Addresses
    are taken to have 20 bytes. *)
Theorem Prepare_clears_standalone_checks (now now' : Z) (p : Proposer)
  (chain : ChainReader) (header h' : Header) (c c' : XDPoS_v1) (num : Z) :
  Prepare validVote Intn now now' p chain header c = Some ((h', None), c') ->
  Number header = Some num ->
  (forall snap c1,
     snapshot chain (u64 (Uint64 num - 1)) (ParentHash header) [] c
     = Some (inr snap, c1) ->
     addresses20 (GetSigners snap) /\ Epoch (config c1) = Epoch (config c')) ->
  (forall l1 l2, addresses20 l1 -> addresses20 (RemoveItemFromArray l1 l2)) ->
  UncleHash header = utils_UncleHash ->
  forall nowv chainv parents cv,
    Epoch (config cv) = Epoch (config c') ->
    VerifyForkHashes (Config chainv) h' = None ->
    Standalone cv nowv chainv h' num false /\
    verifyHeader nowv chainv h' parents false cv
    = verifyCascadingFields chainv h' parents false cv.
Proof.
  intros Hrun Hnum Hsnap20 Hrem20 Huncle nowv chainv parents cv Hepoch Hfork.
  destruct (Prepare_header _ _ _ _ _ _ _ _ Hrun)
    as (num' & snap & c1 & voted & parent & ms & Hnum' & Hsnap & He & Hvote & _
        & _ & HE & Hms & Hmix & _ & Hcoin & Hnonce & Hnumber & Hu).
  rewrite Hnum in Hnum'. injection Hnum' as <-.
  destruct (Hsnap20 snap c1 Hsnap) as [H20 He1].
  rewrite He1 in He, Hvote. rewrite <- Hepoch in He, Hvote, Hms.
  assert (Hms20 : addresses20 ms).
  { destruct ((Epoch (config cv) <=? Uint64 num)
              && (Uint64 num mod Epoch (config cv) =? 0)).
    - destruct Hms as (base & Hbase & Hloop).
      apply (removeRecentPenalties_addresses20 _ _ _ _ _ _ _ Hrem20) in Hloop;
        [exact Hloop|].
      destruct Hbase as [->|(pen & ->)]; auto.
    - subst ms. constructor. }
  assert (Hlen : len (Extra h') = 97 + 20 * len ms).
  { rewrite HE, !len_app, (len_concat_addresses ms Hms20). unfold len.
    rewrite length_take, length_app, !length_replicate.
    unfold common.Address. lia. }
  assert (Hst : Standalone cv nowv chainv h' num false).
  { split; [now rewrite Hnumber|]. split; [exact He|].
    split; [discriminate|]. split.
    { rewrite Hnonce.
      destruct (negb (Uint64 num mod Epoch (config cv) =? 0)).
      - destruct (castVote_outcome _ _ _ _ Hvote)
          as [[-> _] | (cb & au & _ & _ & ->)]; [now right|].
        simpl. destruct au; [now left | now right].
      - injection Hvote as <-. now right. }
    split.
    { intros Hcp. apply Z.eqb_eq in Hcp. rewrite Hcp in Hvote. simpl in Hvote.
      injection Hvote as <-. rewrite Hcoin, Hnonce, Hlen.
      pose proof (len_nonneg ms).
      repeat split; [lia|].
      replace (97 + 20 * len ms - 97) with (len ms * 20) by lia.
      apply Z.rem_mul. lia. }
    split.
    { intros Hcp. apply Z.eqb_neq in Hcp. rewrite Hcp, andb_false_r in Hms.
      subst ms. now rewrite Hlen. }
    split; [exact Hmix|]. split; [now rewrite Hu | exact Hfork]. }
  split; [exact Hst|].
  rewrite (verifyHeader_standalone cv nowv chainv h' parents false num);
    now destruct IsTestnet.
Qed.


(** The penalties ahead of the TIPSigning fork, where the hook is asked by
    block number. *)
Lemma penalize_by_number (c : XDPoS_v1) (chain : ChainReader) (h h' : Header)
  (number : Z) (ms ms' : list common.Address) :
  IsTIPSigning (Config chain) (Number h) = false ->
  penalize c chain h number ms = Some (inr (h', ms')) ->
  (HookPenalty c = None /\ HookPenaltyTIPSigning c = None /\
   h' = h /\ ms' = ms) \/
  (exists hook pen,
     HookPenalty c = Some hook /\ hook chain number = inr pen /\
     ((pen <> [] /\ h' = setPenalties h (ExtractAddressToBytes pen) /\
       ms' = RemoveItemFromArray ms pen) \/
      (pen = [] /\ h' = h /\ ms' = ms))).
Proof.
  unfold penalize. intros Htip Hrun. rewrite Htip in Hrun.
  destruct (HookPenalty c) as [hook|], (HookPenaltyTIPSigning c) as [hook'|];
    simpl in Hrun; try discriminate.
  - right. exists hook. destruct (hook chain number) as [err|pen]; [discriminate|].
    exists pen. split; [reflexivity|]. split; [reflexivity|].
    destruct pen as [|a pen]; simpl in Hrun; injection Hrun as <- <-;
      [now right | now left].
  - right. exists hook. destruct (hook chain number) as [err|pen]; [discriminate|].
    exists pen. split; [reflexivity|]. split; [reflexivity|].
    destruct pen as [|a pen]; simpl in Hrun; injection Hrun as <- <-;
      [now right | now left].
  - left. injection Hrun as <- <-. auto.
Qed.

#[local] Opaque removeRecentPenalties.

(** X25: the signer list [Prepare] writes into a checkpoint passes the
    check of [checkSignersOnCheckpoint] against the signers of the same
    snapshot: ahead of the TIPSigning fork, for a header given without
    penalties, [checkSignersOnCheckpoint] on the prepared header finds the
    penalties and the signer list as expected and returns what
    [HookVerifyMNs] returns (nil at the block whose signer check is
    skipped). The helpers of [common] and [utils] are taken to keep
    addresses at 20 bytes, to remove nothing when asked to remove nothing,
    to split a concatenation of addresses back into the addresses, and to
    find a list equal to itself. *)
Theorem Prepare_passes_signer_check (now now' : Z) (p : Proposer)
  (chain : ChainReader) (header h' : Header) (c c' : XDPoS_v1) (num : Z) :
  Prepare validVote Intn now now' p chain header c = Some ((h', None), c') ->
  Number header = Some num ->
  Epoch (config c') <= Uint64 num ->
  Uint64 num mod Epoch (config c') = 0 ->
  IsTIPSigning (Config chain) (Some num) = false ->
  Penalties header = ExtractAddressToBytes [] ->
  (forall snap c1,
     snapshot chain (u64 (Uint64 num - 1)) (ParentHash header) [] c
     = Some (inr snap, c1) ->
     addresses20 (GetSigners snap)) ->
  (forall l1 l2, addresses20 l1 -> addresses20 (RemoveItemFromArray l1 l2)) ->
  (forall l, RemoveItemFromArray l [] = l) ->
  (forall l, addresses20 l -> ExtractAddressFromBytes (concat l) = l) ->
  (forall l, CompareSignersLists l l = true) ->
  exists snap c1 ms,
    snapshot chain (u64 (Uint64 num - 1)) (ParentHash header) [] c
    = Some (inr snap, c1) /\
    GetMasternodesFromCheckpointHeader h' = Some ms /\
    checkSignersOnCheckpoint c' chain h' (GetSigners snap)
    = Some (if Uint64 num =? IgnoreSignerCheckBlock then None
            else match HookVerifyMNs c' with
                 | Some hook => hook h' ms
                 | None => None
                 end).
Proof.
  intros Hrun Hnum Hge Hcp Htip Hpen0 Hsnap20 Hrem20 Hrem0 Hextract Hcompare.
  destruct (Prepare_returns _ _ _ _ _ _ _ _ Hrun)
    as (num' & snap & c1 & voted & parent & difficulty & Hnum' & Hsnap & He
        & Hvote & Hpar & Hdiff & Hrest).
  rewrite Hnum in Hnum'. injection Hnum' as <-.
  assert (Hkeep : Extra voted = Extra header /\ Number voted = Number header /\
                  Penalties voted = Penalties header).
  { destruct (negb (Uint64 num mod Epoch (config c1) =? 0)).
    - destruct (castVote_outcome _ _ _ _ Hvote)
        as [[-> _] | (cb & au & _ & _ & ->)]; simpl; auto.
    - injection Hvote as <-. simpl. auto. }
  destruct Hkeep as (HkE & HkN & HkP).
  apply Z.leb_le in Hge. apply Z.eqb_eq in Hcp. rewrite Hge, Hcp in Hrest.
  cbn [andb] in Hrest. destruct Hrest as (h2 & base & ms & Hpen & Hloop & Hhook).
  assert (Htip1 : IsTIPSigning (Config chain)
                    (Number (withVanity voted difficulty)) = false)
    by (simpl; now rewrite HkN, Hnum).
  (* the header as it stands after the penalties *)
  assert (Hh2 : Extra h2
                = take 32 (Extra header
                           ++ replicate (32 - length (Extra header)) x00) /\
                Number h2 = Some num).
  { destruct (penalize_outcome _ _ _ _ _ _ _ Hpen)
      as [[-> ->] | (pen & -> & ->)]; simpl; rewrite HkE, HkN; auto. }
  destruct Hh2 as (H2E & H2n).
  set (vanity := take 32 (Extra header
                          ++ replicate (32 - length (Extra header)) x00)) in *.
  assert (Hvan : length vanity = 32%nat).
  { unfold vanity. rewrite length_take, length_app, length_replicate. lia. }
  (* the header returned, in the fields the signer check reads *)
  assert (Hh' : Extra h' = vanity ++ concat ms ++ replicate 65 x00 /\
                Number h' = Some num /\ Penalties h' = Penalties h2).
  { destruct (HookValidator p) as [hook|].
    - destruct Hhook as (validators & _ & ->).
      pose proof (finishPrepare_fields c' now now' parent
                    (setValidators (setExtra h2 (Extra h2 ++ concat ms))
                       validators)) as Hf. cbv zeta in Hf. simpl in Hf.
      destruct Hf as (-> & _ & _ & _ & _ & -> & _ & _ & _ & _ & ->).
      rewrite H2E, <- app_assoc. auto.
    - subst h'.
      pose proof (finishPrepare_fields c' now now' parent
                    (setExtra h2 (Extra h2 ++ concat ms))) as Hf.
      cbv zeta in Hf. simpl in Hf.
      destruct Hf as (-> & _ & _ & _ & _ & -> & _ & _ & _ & _ & ->).
      rewrite H2E, <- app_assoc. auto. }
  destruct Hh' as (HE & Hn' & HP').
  pose proof (Hsnap20 snap c1 Hsnap) as H20.
  assert (Hbase20 : addresses20 base).
  { destruct (penalize_outcome _ _ _ _ _ _ _ Hpen)
      as [[_ ->] | (pen & _ & ->)]; auto. }
  pose proof (removeRecentPenalties_addresses20 _ _ _ _ _ _ _ Hrem20 Hbase20 Hloop)
    as Hms20.
  exists snap, c1, ms. split; [exact Hsnap|]. split.
  { apply (checkpoint_extra_parses h' vanity (replicate 65 x00) ms HE);
      [unfold len; lia | done | exact Hms20]. }
  unfold checkSignersOnCheckpoint. rewrite Hn'. simpl.
  destruct (Uint64 num =? IgnoreSignerCheckBlock) eqn:Hign; [reflexivity|].
  assert (Hslice : slice (Extra h') utils.ExtraVanity
                     (len (Extra h') - utils.ExtraSeal) = concat ms).
  { rewrite HE. unfold slice, utils.ExtraVanity, utils.ExtraSeal, len.
    rewrite !length_app, length_replicate, Hvan.
    replace (Z.to_nat 32) with (length vanity) by lia.
    rewrite drop_app_length.
    replace (Z.to_nat
               (Z.of_nat (32 + (length (concat ms) + 65)) - 65 - 32))
      with (length (concat ms)) by lia.
    now rewrite take_app_length. }
  assert (Hsuffix : (len (Extra h') - utils.ExtraSeal <? utils.ExtraVanity)
                    = false).
  { apply Z.ltb_ge. rewrite HE. unfold utils.ExtraVanity, utils.ExtraSeal, len.
    rewrite !length_app, length_replicate, Hvan. lia. }
  destruct (penalize_by_number _ _ _ _ _ _ _ Htip1 Hpen)
    as [(Hh1 & Hh2 & -> & ->)
       | (hook & pen & Hh1 & Hcall & [(Hne & -> & ->) | (-> & -> & ->)])].
  - rewrite Hh1, Hh2. simpl. rewrite Hrem0, Hloop. simpl.
    rewrite Hsuffix, Hslice, (Hextract ms Hms20), Hcompare. simpl.
    now destruct (HookVerifyMNs c').
  - rewrite Hh1. simpl. rewrite Hcall, Htip. simpl in HP'. rewrite HP'. simpl.
    rewrite bool_decide_eq_true_2 by reflexivity. simpl.
    rewrite Hloop. simpl.
    rewrite Hsuffix, Hslice, (Hextract ms Hms20), Hcompare. simpl.
    now destruct (HookVerifyMNs c').
  - rewrite Hh1. simpl. rewrite Hcall, Htip. simpl in HP'.
    rewrite HP', HkP, Hpen0. simpl.
    rewrite bool_decide_eq_true_2 by reflexivity. simpl.
    rewrite Hrem0, Hloop. simpl.
    rewrite Hsuffix, Hslice, (Hextract ms Hms20), Hcompare. simpl.
    now destruct (HookVerifyMNs c').
Qed.

#[local] Transparent removeRecentPenalties.

End Prepared.

(** * The engine on the example chain *)

#[local] Existing Instance Example.external.

(** ** Helpers: the example collaborators *)

Lemma example_snapshot (c : XDPoS_v1) (chain : ChainReader) (n : Z)
  (hash : common.Hash) (parents : list Header) (snap : SnapshotV1.t) :
  recents c !! hash = Some snap ->
  snapshot chain n hash parents c = Some (inr snap, c).
Proof. intros Hs. simpl. now rewrite Hs. Qed.

Lemma example_GetSnapshot (c : XDPoS_v1) (chain : ChainReader) (h : Header)
  (num : Z) (snap : SnapshotV1.t) :
  Number h = Some num ->
  recents c !! Example.numberHash num = Some snap ->
  GetSnapshot chain h c = Some (inr snap, c).
Proof.
  intros Hnum Hs. unfold GetSnapshot.
  erewrite bind_run by (apply run_Some, Hnum).
  apply example_snapshot. simpl. now rewrite Hnum.
Qed.

(** A parent above the genesis block resolves once its checkpoint list, its
    snapshot and its seal are read off. *)
Lemma example_ParentResolvesTo (c : XDPoS_v1) (chain : ChainReader)
  (parent : Header) (M : list common.Address) (num : Z) (snap : SnapshotV1.t)
  (creator : common.Address) (pre : Z) :
  GetMasternodes c chain parent = Some M -> M <> [] ->
  Number parent = Some num -> Uint64 num <> 0 ->
  recents c !! Example.numberHash num = Some snap ->
  signatures c !! Example.numberHash num = None ->
  ecrecoverMiss parent = Some (inr creator) ->
  pre = position M creator ->
  ParentResolvesTo c chain parent M pre
    (set_signatures c (<[Example.numberHash num := creator]> (signatures c))).
Proof.
  intros HM Hne Hnum Hnz Hsnap Hmiss Hrec Hpre.
  assert (Hhash : HeaderHash parent = Example.numberHash num)
    by (simpl; now rewrite Hnum).
  split; [exact HM|]. split; [exact Hne|].
  exists num, snap, c. split; [exact Hnum|].
  split; [now apply (example_GetSnapshot _ _ _ num)|].
  right. split; [exact Hnz|]. exists creator. split; [|exact Hpre].
  rewrite <- Hhash. apply (whoIsCreator_miss _ _ _ num); try assumption.
  now rewrite Hhash.
Qed.

(** A header passes the first checks of [verifySeal] once the snapshot, the
    seals of the header and of its parent, and the difficulty are read off. *)
Lemma example_SealAuthorized (c : XDPoS_v1) (chain : ChainReader)
  (header parent : Header) (num pnum : Z) (snap psnap : SnapshotV1.t)
  (creator pcreator : common.Address) (M masternodes : list common.Address) :
  let c2 := set_signatures c (<[Example.numberHash num := creator]> (signatures c)) in
  let c3 := set_signatures c2
              (<[Example.numberHash pnum := pcreator]> (signatures c2)) in
  Number header = Some num -> Uint64 num <> 0 ->
  recents c !! ParentHash header = Some snap ->
  signatures c !! Example.numberHash num = None ->
  ecrecoverMiss header = Some (inr creator) ->
  parentOf chain header [] (Uint64 num) = Some parent ->
  GetMasternodes c2 chain parent = Some M -> M <> [] ->
  Number parent = Some pnum -> Uint64 pnum <> 0 ->
  recents c2 !! Example.numberHash pnum = Some psnap ->
  signatures c2 !! Example.numberHash pnum = None ->
  ecrecoverMiss parent = Some (inr pcreator) ->
  Int64 (Difficulty header)
  = Int64 (len M - utils.Hop (len M) (position M pcreator) (position M creator)) ->
  GetMasternodes c3 chain header = Some masternodes ->
  creator ∈ SnapshotV1.Signers snap \/ creator ∈ masternodes ->
  SealAuthorized c chain header [] num snap creator masternodes c3.
Proof.
  intros c2 c3 Hnum Hnz Hsnap Hmiss Hrec Hpar HM Hne Hpnum Hpnz Hpsnap Hpmiss
    Hprec Hdiff Hms Hauth.
  assert (Hhash : HeaderHash header = Example.numberHash num)
    by (simpl; now rewrite Hnum).
  split; [exact Hnum|]. split; [exact Hnz|].
  exists c, c2, parent,
    (len M - utils.Hop (len M) (position M pcreator) (position M creator)).
  split; [now apply example_snapshot|].
  split.
  { unfold c2. rewrite <- Hhash. apply ecrecover_miss; [now rewrite Hhash | done]. }
  split; [exact Hpar|].
  split.
  { apply calcDifficulty_resolved_state.
    now apply (example_ParentResolvesTo c2 chain parent M pnum psnap pcreator). }
  split; [exact Hdiff|]. split; [exact Hms | exact Hauth].
Qed.

Ltac by_computation := vm_compute; first [reflexivity | discriminate | exact I].

Ltac conj_computation :=
  intros;
  lazymatch goal with
  | |- _ /\ _ => split; [by_computation | conj_computation]
  | _ => by_computation
  end.

(** ** Leader rotation *)

Lemma example_resolves :
  ParentResolves Example.engine1 Example.chain Example.block1
    [Example.A; Example.B; Example.C] 0.
Proof.
  eexists.
  apply (example_ParentResolvesTo _ _ _ _ 1
           (Example.snapshotOf [Example.A; Example.B; Example.C] [(1, Example.A)])
           Example.A);
    by_computation.
Defined.

Lemma example_NoDup : NoDup [Example.A; Example.B; Example.C].
Proof. apply (bool_decide_unpack _). vm_compute. exact I. Defined.

(** With masternodes [A; B; C] and block 1 sealed by A, B is on turn and no
    other masternode is. *)
Lemma YourTurn_rotation_witness :
  ParentResolves Example.engine1 Example.chain Example.block1
    [Example.A; Example.B; Example.C] 0 /\
  (forall signer,
     onTurn Example.engine1 Example.chain Example.block1 signer = true
     <-> (0 + 1) mod len [Example.A; Example.B; Example.C]
         = position [Example.A; Example.B; Example.C] signer) /\
  exists m, m ∈ [Example.A; Example.B; Example.C] /\
    onTurn Example.engine1 Example.chain Example.block1 m = true /\
    forall m', m' ∈ [Example.A; Example.B; Example.C] ->
      onTurn Example.engine1 Example.chain Example.block1 m' = true -> m' = m.
Proof.
  split; [exact example_resolves|].
  destruct (YourTurn_rotation Example.engine1 Example.chain Example.block1
              [Example.A; Example.B; Example.C] 0 example_resolves)
    as [Hiff Hone].
  split; [exact Hiff | exact (Hone example_NoDup)].
Defined.

(** C1 as stated fails when the checkpoint list repeats an address: with
    masternodes [A; A] and block 1 sealed by A, [YourTurn] succeeds with
    pre_index 0 and cur_index 0, and no m in M is on turn. *)
Lemma YourTurn_repeated_address_no_turn :
  GetMasternodes Example.engine1 Example.chainAA Example.block1
  = Some [Example.A; Example.A] /\
  result (YourTurn Example.chainAA Example.block1 Example.A Example.engine1)
  = Some (2, 0, 0, false, None) /\
  ~ exists m, m ∈ [Example.A; Example.A] /\
      onTurn Example.engine1 Example.chainAA Example.block1 m = true.
Proof.
  split; [by_computation|]. split; [by_computation|].
  intros (m & Hm & Hturn).
  assert (m = Example.A) as ->.
  { apply elem_of_cons in Hm as [->|Hm]; [done|].
    apply elem_of_cons in Hm as [->|Hm]; [done|]. now apply elem_of_nil in Hm. }
  vm_compute in Hturn. discriminate.
Qed.

Lemma example_resolves2 :
  ParentResolves Example.engine1 Example.chain2 Example.block1
    [Example.A; Example.B] 0.
Proof.
  eexists.
  apply (example_ParentResolvesTo _ _ _ _ 1
           (Example.snapshotOf [Example.A; Example.B; Example.C] [(1, Example.A)])
           Example.A);
    by_computation.
Defined.

(** With masternodes [A; B] and block 1 sealed by A, B on turn has
    difficulty 2 and A off turn has difficulty 1. *)
Lemma calcDifficulty_ordering_witness :
  ParentResolves Example.engine1 Example.chain2 Example.block1
    [Example.A; Example.B] 0 /\
  result (calcDifficulty Example.chain2 Example.block1 Example.B Example.engine1)
  = Some (len [Example.A; Example.B]
          - utils.Hop (len [Example.A; Example.B]) 0
              (position [Example.A; Example.B] Example.B)) /\
  exists ds dt,
    result (calcDifficulty Example.chain2 Example.block1 Example.B Example.engine1)
    = Some ds /\
    result (calcDifficulty Example.chain2 Example.block1 Example.A Example.engine1)
    = Some dt /\
    dt < ds.
Proof.
  split; [exact example_resolves2|].
  destruct (calcDifficulty_ordering Example.engine1 Example.chain2
              Example.block1 [Example.A; Example.B] 0 example_resolves2)
    as [Hdiff Hord].
  split; [exact (Hdiff Example.B)|].
  apply Hord.
  - by_computation.
  - apply elem_of_cons. now left.
  - by_computation.
Defined.

(** C3 as stated fails for a signer outside M: with masternodes [A; B] and
    block 1 sealed by A, [YourTurn] succeeds for the outsider X, which is off
    turn, and X's difficulty equals that of B, which is on turn. *)
Lemma calcDifficulty_outsider_ties :
  result (YourTurn Example.chain2 Example.block1 Example.B Example.engine1)
  = Some (2, 0, 1, true, None) /\
  result (YourTurn Example.chain2 Example.block1 Example.X Example.engine1)
  = Some (2, 0, -1, false, None) /\
  result (calcDifficulty Example.chain2 Example.block1 Example.B Example.engine1)
  = Some 2 /\
  result (calcDifficulty Example.chain2 Example.block1 Example.X Example.engine1)
  = Some 2.
Proof. conj_computation. Qed.



(** ** The signing hash *)



(** ** Seal verification *)




(** Block 2 sealed by A, who sealed block 1, passes the first checks. *)
Lemma example_block2again_authorized :
  SealAuthorized Example.engine1 Example.chain Example.block2again [] 2
    (Example.snapshotOf [Example.A; Example.B; Example.C] [(1, Example.A)])
    Example.A [Example.A; Example.B; Example.C]
    (set_signatures
       (set_signatures Example.engine1
          (<[Example.numberHash 2 := Example.A]> (signatures Example.engine1)))
       (<[Example.numberHash 1 := Example.A]>
          (<[Example.numberHash 2 := Example.A]> (signatures Example.engine1)))).
Proof.
  apply (example_SealAuthorized Example.engine1 Example.chain
           Example.block2again Example.block1 2 1 _
           (Example.snapshotOf [Example.A; Example.B; Example.C] [(1, Example.A)])
           Example.A Example.A [Example.A; Example.B; Example.C]);
    try by_computation.
  left. apply (bool_decide_unpack _). by_computation.
Defined.

(** With three masternodes, A may not seal block 2 after block 1. *)
Lemma verifySeal_recency_witness :
  let snap :=
    Example.snapshotOf [Example.A; Example.B; Example.C] [(1, Example.A)] in
  let c3 :=
    set_signatures
      (set_signatures Example.engine1
         (<[Example.numberHash 2 := Example.A]> (signatures Example.engine1)))
      (<[Example.numberHash 1 := Example.A]>
         (<[Example.numberHash 2 := Example.A]> (signatures Example.engine1))) in
  SealAuthorized Example.engine1 Example.chain Example.block2again [] 2 snap
    Example.A [Example.A; Example.B; Example.C] c3 /\
  1 < len [Example.A; Example.B; Example.C] /\
  2 <= Uint64 2 /\
  SnapshotV1.Recents snap !! 1 = Some Example.A /\
  1 > Uint64 2 - 2 /\
  Uint64 2 mod Epoch (config c3) <> 0 /\
  result (verifySeal Example.chain Example.block2again [] true Example.engine1)
  = Some (Some ErrUnauthorized).
Proof.
  intros snap c3.
  assert (H1 : 1 < len [Example.A; Example.B; Example.C]) by by_computation.
  assert (H2 : 2 <= Uint64 2) by by_computation.
  assert (H3 : SnapshotV1.Recents snap !! 1 = Some Example.A) by by_computation.
  assert (H4 : 1 > Uint64 2 - 2) by by_computation.
  assert (H5 : Uint64 2 mod Epoch (config c3) <> 0) by by_computation.
  split; [exact example_block2again_authorized|].
  split; [exact H1|]. split; [exact H2|]. split; [exact H3|].
  split; [exact H4|]. split; [exact H5|].
  exact (proj1 (verifySeal_recency Example.engine1 Example.chain
                  Example.block2again [] true 2 snap Example.A _ c3 1
                  example_block2again_authorized H1 H2 H3 H4) H5).
Defined.

(** C5 as stated fails with a single masternode: A sealed block 1 and is in
    the snapshot's recents at key 1 > 2 - 2, block 2 is off the epoch
    boundary, its seal recovers to A, and [verifySeal] accepts it. *)
Lemma verifySeal_single_masternode_not_barred :
  GetMasternodes Example.engineA Example.chainA Example.blockA2
  = Some [Example.A] /\
  recents Example.engineA !! ParentHash Example.blockA2
  = Some (Example.snapshotOf [Example.A] [(1, Example.A)]) /\
  SnapshotV1.Recents (Example.snapshotOf [Example.A] [(1, Example.A)]) !! 1
  = Some Example.A /\
  1 > 2 - 2 /\
  2 mod Epoch (config Example.engineA) <> 0 /\
  result (ecrecover Example.blockA2 Example.engineA) = Some (inr Example.A) /\
  result (verifySeal Example.chainA Example.blockA2 [] true Example.engineA)
  = Some None.
Proof. conj_computation. Qed.

(** ** Header verification *)



(** Under full verification block 1, stamped 20, is refused at time 5. *)
Lemma verifyHeader_future_block_witness :
  IsTestnet = false /\
  Number Example.block1 = Some 1 /\
  ~ (Epoch (config Example.engine1) < Uint64 1
     /\ len (Validator Example.block1) = 0) /\
  Time Example.block1 > 5 /\
  result (verifyHeader 5 Example.chain Example.block1 [] true Example.engine1)
  = Some (Some ErrFutureBlock).
Proof.
  assert (H1 : Number Example.block1 = Some 1) by by_computation.
  assert (H2 : ~ (Epoch (config Example.engine1) < Uint64 1
                  /\ len (Validator Example.block1) = 0))
    by (intros [Hlt _]; revert Hlt; by_computation).
  assert (H3 : Time Example.block1 > 5) by by_computation.
  split; [reflexivity|]. split; [exact H1|]. split; [exact H2|].
  split; [exact H3|].
  exact (@verifyHeader_future_block Example.external Example.engine1 5
           Example.chain Example.block1 [] 1 eq_refl H1 H2 H3).
Defined.

(** C7 as stated fails without full verification: block 1, stamped 20, is
    accepted at time 5. *)
Lemma verifyHeader_future_block_accepted :
  Time Example.block1 > 5 /\
  result (verifyHeader 5 Example.chain Example.block1 [] false Example.engine1)
  = Some None.
Proof. conj_computation. Qed.

(** ** Checkpoint signers *)

(** The checkpoint header 900 lists [A; B; C] where the snapshot of block
    899 holds only A and B, and reaches the comparison. *)
Lemma example_block900_reaches :
  ReachesSignerCheck Example.engine1 Example.chain Example.block900 [] 900
    (Example.snapshotOf [Example.A; Example.B] []) Example.engine1.
Proof.
  split; [by_computation|]. split; [by_computation|].
  split; [by_computation|]. split; [by_computation|].
  split.
  - exists Example.block899, 899.
    split; [by_computation|]. split; [by_computation|].
    split; [by_computation|]. split; [by_computation|].
    intros Hgt. revert Hgt. by_computation.
  - apply example_snapshot. by_computation.
Defined.

(** The contract answers [A; B; C], asked at the hash of block 898, two
    blocks below the checkpoint: the header is handed to [verifySeal]. *)
Lemma verifyCascadingFields_contract_fallback_witness :
  ReachesSignerCheck Example.engine1 Example.chain Example.block900 [] 900
    (Example.snapshotOf [Example.A; Example.B] []) Example.engine1 /\
  checkSignersOnCheckpoint Example.engine1 Example.chain Example.block900
    (GetSigners (Example.snapshotOf [Example.A; Example.B] []))
  = Some (Some ErrInvalidCheckpointSigners) /\
  startGapBlock Example.chain (Uint64 900) Example.block900 1
    (Z.to_nat (Gap (XDPoS (Config Example.chain)))) = Some Example.block898 /\
  getSignersFromContract Example.engine1 Example.chain Example.block900
  = Some (inr [Example.A; Example.B; Example.C]) /\
  verifyCascadingFields Example.chain Example.block900 [] false Example.engine1
  = verifySeal Example.chain Example.block900 [] false Example.engine1.
Proof.
  assert (Hfirst :
    checkSignersOnCheckpoint Example.engine1 Example.chain Example.block900
      (GetSigners (Example.snapshotOf [Example.A; Example.B] []))
    = Some (Some ErrInvalidCheckpointSigners)) by by_computation.
  assert (Hwalk :
    startGapBlock Example.chain (Uint64 900) Example.block900 1
      (Z.to_nat (Gap (XDPoS (Config Example.chain)))) = Some Example.block898)
    by by_computation.
  assert (Hcontract :
    getSignersFromContract Example.engine1 Example.chain Example.block900
    = Some (inr [Example.A; Example.B; Example.C])) by by_computation.
  split; [exact example_block900_reaches|]. split; [exact Hfirst|].
  split; [exact Hwalk|]. split; [exact Hcontract|].
  destruct (verifyCascadingFields_contract_fallback Example.engine1
              Example.chain Example.block900 [] false 900 _ _ _
              example_block900_reaches Hfirst)
    as (_ & _ & _ & Hmatch).
  apply (Hmatch _ Hcontract). by_computation.
Defined.

(** C8 as stated fails at the height [IgnoreSignerCheckBlock]: the
    checkpoint header 14458500 lists [A; B; C], the snapshot of its parent
    holds A and B, the contract answers [A], neither list compares equal to
    the header's, and the header is accepted without asking the contract.
    Elsewhere a matching contract list does not make the header accepted by
    itself: the checkpoint header 900 with a wrong difficulty, whose list the
    contract matches, is rejected by [verifySeal]. *)
Lemma verifyCascadingFields_ignored_checkpoint_accepted :
  let snap := Example.snapshotOf [Example.A; Example.B] [] in
  (Uint64 14458500 mod Epoch (config Example.engineI) = 0 /\
   recents Example.engineI !! ParentHash Example.block14458500 = Some snap /\
   GetMasternodesFromCheckpointHeader Example.block14458500
   = Some [Example.A; Example.B; Example.C] /\
   CompareSignersLists [Example.A; Example.B; Example.C] (GetSigners snap)
   = false /\
   getSignersFromContract Example.engineI Example.chainI Example.block14458500
   = Some (inr [Example.A]) /\
   CompareSignersLists [Example.A; Example.B; Example.C] [Example.A] = false /\
   result (verifyCascadingFields Example.chainI Example.block14458500 [] false
             Example.engineI)
   = Some None) /\
  (checkSignersOnCheckpoint Example.engine1 Example.chainW Example.block900wrong
     (GetSigners snap)
   = Some (Some ErrInvalidCheckpointSigners) /\
   getSignersFromContract Example.engine1 Example.chainW Example.block900wrong
   = Some (inr [Example.A; Example.B; Example.C]) /\
   checkSignersOnCheckpoint Example.engine1 Example.chainW Example.block900wrong
     [Example.A; Example.B; Example.C]
   = Some None /\
   result (verifyCascadingFields Example.chainW Example.block900wrong [] false
             Example.engine1)
   = Some (Some ErrInvalidDifficulty)).
Proof. intros snap. split; conj_computation. Qed.

(** ** Sealing *)

(** A sealed block 1; asked to seal block 2 with the stop channel signalled,
    it returns (nil, nil). *)
Lemma example_MaySeal :
  MaySeal Example.engine1 Example.chain (Example.toSeal Example.block2).
Proof.
  exists 2, (Example.snapshotOf [Example.A; Example.B; Example.C] [(1, Example.A)]),
    Example.engine1, [Example.A; Example.B; Example.C].
  split; [by_computation|]. split; [by_computation|].
  split; [by_computation|]. split; [by_computation|].
  split; [apply example_snapshot; by_computation|].
  split; [by_computation|].
  left. apply (bool_decide_unpack _). by_computation.
Defined.

Lemma Seal_cancelled_witness :
  MaySeal Example.engine1 Example.chain (Example.toSeal Example.block2) /\
  mustWait
    (map_to_list
       (SnapshotV1.Recents
          (Example.snapshotOf [Example.A; Example.B; Example.C] [(1, Example.A)])))
    Example.A 2 900 = true /\
  result (Seal Example.chain (Example.toSeal Example.block2) true Example.engine1)
  = Some (Returned None None).
Proof.
  split; [exact example_MaySeal|]. split; [by_computation|].
  exact (proj2 (Seal_cancelled Example.engine1 Example.chain
                  (Example.toSeal Example.block2)) example_MaySeal).
Defined.

(** C9 as stated fails for a block that does not pass the checks ahead of
    the stop channel: with the channel signalled, [Seal] reports
    [ErrUnknownBlock] for the genesis block and [ErrUnauthorized] for a
    signer that is neither in the snapshot nor a masternode. *)
Lemma Seal_cancelled_reports_error :
  result (Seal Example.chain (Example.toSeal Example.genesis) true Example.engine1)
  = Some (Returned None (Some ErrUnknownBlock)) /\
  result (Seal Example.chain (Example.toSeal Example.block2) true
            (Example.engineOf Example.X None
               [(1, Example.snapshotOf [Example.A; Example.B; Example.C] [])]))
  = Some (Returned None (Some ErrUnauthorized)).
Proof. conj_computation. Qed.

(** * The further properties on the example chain *)

(** ** Masternode lists, rotation and caches *)

(** Equations between runs of the engine are settled by evaluating both
    sides. *)
Ltac by_evaluation :=
  lazymatch goal with
  | |- ?l = ?r => exact (@eq_refl _ r <: l = r)
  end.

Lemma example_addresses20 :
  addresses20 [Example.A; Example.B; Example.C].
Proof. repeat constructor. Defined.

Lemma GetMasternodes_roundtrip_witness :
  GetMasternodesFromCheckpointHeader Example.block900
  = Some [Example.A; Example.B; Example.C] /\
  GetMasternodes Example.engine1 Example.chain Example.block900
  = Some [Example.A; Example.B; Example.C] /\
  GetMasternodes Example.engine1 Example.chain Example.block901
  = Some [Example.A; Example.B; Example.C].
Proof.
  destruct (GetMasternodes_roundtrip Example.engine1 Example.chain
              Example.block900 Example.vanity (Example.sealOf Example.C)
              [Example.A; Example.B; Example.C])
    as (Hread & Hself & Hepoch).
  - reflexivity.
  - reflexivity.
  - split; by_computation.
  - exact example_addresses20.
  - by_computation.
  - split; [exact Hread|]. split.
    + apply (Hself 900); by_computation.
    + apply (Hepoch Example.block901 901); by_computation.
Defined.

Lemma GetMasternodes_within_epoch_witness :
  GetMasternodes Example.engine1 Example.chain Example.block1
  = GetMasternodes Example.engine1 Example.chain Example.block2 /\
  GetMasternodes Example.engine1 Example.chain Example.block1
  = GetMasternodesFromCheckpointHeader Example.genesis.
Proof.
  apply (GetMasternodes_within_epoch Example.engine1 Example.chain
           Example.block1 Example.block2 1 2); by_computation.
Defined.

Lemma calcDifficulty_zero_on_error_witness :
  result (calcDifficulty Example.chain Example.block2 Example.A Example.engine1)
  = Some 0.
Proof.
  apply (calcDifficulty_zero_on_error Example.engine1 Example.chain
           Example.block2 Example.A 0 (-1) (-1) false ErrUnknownAncestor).
  by_computation.
Defined.

Lemma YourTurn_outsider_never_on_turn_witness :
  exists M,
    GetMasternodes Example.engine1 Example.chain Example.block1 = Some M /\
    Example.B ∈ M.
Proof.
  apply (YourTurn_outsider_never_on_turn Example.engine1 Example.chain
           Example.block1 Example.B).
  by_computation.
Defined.



Lemma ecrecover_memoised_witness :
  signatures (Mining.engine1After 1 Example.A) !! HeaderHash Example.block1
  = Some Example.A /\
  forall header' c2,
    HeaderHash header' = HeaderHash Example.block1 ->
    signatures c2 !! HeaderHash Example.block1 = Some Example.A ->
    ecrecover header' c2 = Some (inr Example.A, c2).
Proof.
  apply (ecrecover_memoised Example.engine1).
  unfold Mining.engine1After.
  change (Example.numberHash 1) with (HeaderHash Example.block1).
  apply ecrecover_miss; by_computation.
Defined.

Lemma GetValidator_first_epoch_witness :
  GetValidator Example.engine1 Example.A Example.chain Example.block1
  = Some (inr common.zeroAddress).
Proof.
  apply (GetValidator_first_epoch _ _ _ _ 1); by_computation.
Defined.

Lemma recency_at_height_one_witness :
  signedRecently [(0, Example.A)] Example.A 1 900 = false /\
  (mustWait [(0, Example.A)] Example.A 1 900 = true
   <-> (exists seen, (seen, Example.A) ∈ [(0, Example.A)]) /\ 1 mod 900 <> 0).
Proof.
  apply (recency_at_height_one [(0, Example.A)] Example.A 900).
  repeat constructor.
Defined.

(** ** Acceptance, sealing and the caches *)


(** B, who did not seal block 1, seals block 2. *)
Lemma example_Seal :
  Seal Example.chain Mining.toSign false Mining.engineB
  = Some (Returned (Some Mining.signed) None, Mining.engineB).
Proof. by_evaluation. Qed.

Lemma Seal_signs_only_admitted_witness :
  exists num snap masternodes,
    Number (header Mining.toSign) = Some num /\ Uint64 num <> 0 /\
    snapshot Example.chain (u64 (Uint64 num - 1))
      (ParentHash (header Mining.toSign)) [] Mining.engineB
    = Some (inr snap, Mining.engineB) /\
    GetMasternodes Mining.engineB Example.chain (header Mining.toSign)
    = Some masternodes /\
    (Example.B ∈ SnapshotV1.Signers snap \/ Example.B ∈ masternodes) /\
    NotRecent snap Example.B masternodes (Uint64 num) 900.
Proof.
  exact (proj2 (Seal_signs_only_admitted _ _ _ _ _ _ _ example_Seal)).
Defined.

Lemma Seal_signed_header_witness :
  sameExceptSeal (header Mining.toSign)
    (setValidator (header Mining.signed) (Validator (header Mining.toSign))) /\
  sigHash (header Mining.signed) = sigHash (header Mining.toSign).
Proof.
  destruct (Seal_signed_header _ _ _ _ _ _ _ example_Seal)
    as (_ & _ & _ & Hsame & Hhash & _).
  split; [exact Hsame | exact Hhash].
Defined.

Lemma example_signFn (f : common.Address -> list byte -> Error + list byte)
  (hash sig : list byte) :
  signFn Mining.engineB = Some f ->
  sigHash (header Mining.toSign) = Some hash ->
  f (signer Mining.engineB) hash = inr sig ->
  len sig = 65 /\
  exists pubkey,
    crypto_Ecrecover hash sig = inr pubkey /\
    pubkeyAddress pubkey = signer Mining.engineB.
Proof.
  intros Hf _ Hsig. injection Hf as <-. injection Hsig as <-.
  split; [reflexivity|]. eexists. split; reflexivity.
Qed.

Lemma Seal_then_ecrecover_witness :
  result (ecrecover (header Mining.signed) Example.engine1)
  = Some (inr Example.B).
Proof.
  apply (Seal_then_ecrecover _ _ _ _ _ _ _ _ example_Seal example_signFn).
  by_computation.
Defined.

(** Block 1 is accepted without full verification. *)
Lemma example_verifyHeaderWithCache :
  verifyHeaderWithCache 0 Example.chain Example.block1 [] false ∅ ∅
    Example.engine1
  = Some ((None, {[Example.numberHash 1]} ∪ (∅ ∪ ∅)),
          Mining.engine1After 1 Example.A).
Proof. by_evaluation. Qed.

Lemma verifyHeaderWithCache_remembers_witness :
  let verified : gset common.Hash := {[Example.numberHash 1]} ∪ (∅ ∪ ∅) in
  HeaderHash Example.block1 ∈ verified /\
  verifyHeaderWithCache 0 Example.chain Example.block1 [] true verified ∅
    Example.engine1
  = Some ((None, verified), Example.engine1).
Proof.
  destruct (verifyHeaderWithCache_remembers _ _ _ _ _ _ _ _ _ _
              example_verifyHeaderWithCache) as (Hin & Hagain).
  split; [exact Hin|]. apply Hagain; [reflexivity | exact Hin].
Defined.

(** The snapshot of block 1 gets the masternodes A and X. *)
Lemma example_UpdateMasternodes :
  UpdateMasternodes Example.chain Example.block1 Mining.newMasternodes
    Mining.engineU
  = Some (None,
          set_recents Mining.engineU
            (<[Example.numberHash 1 :=
                 setSigners Mining.snapshot1
                   (list_to_set [Example.A; Example.X])]>
               (recents Mining.engineU))).
Proof.
  unfold UpdateMasternodes.
  erewrite bind_run by (apply run_Some; reflexivity).
  erewrite bind_run
    by (apply (example_snapshot _ _ _ _ _ Mining.snapshot1); reflexivity).
  reflexivity.
Qed.

Lemma UpdateMasternodes_replaces_signers_witness :
  exists num snap c1 snap',
    Number Example.block1 = Some num /\
    snapshot Example.chain (Uint64 num) (HeaderHash Example.block1) []
      Mining.engineU = Some (inr snap, c1) /\
    recents
      (set_recents Mining.engineU
         (<[Example.numberHash 1 :=
              setSigners Mining.snapshot1 (list_to_set [Example.A; Example.X])]>
            (recents Mining.engineU)))
    !! SnapshotV1.Hash snap = Some snap' /\
    (forall a, a ∈ SnapshotV1.Signers snap'
               <-> a ∈ Masternode.Address <$> Mining.newMasternodes) /\
    SnapshotV1.Recents snap' = SnapshotV1.Recents snap.
Proof.
  destruct (UpdateMasternodes_replaces_signers _ _ _ _ _
              example_UpdateMasternodes)
    as (num & snap & c1 & snap' & Hnum & Hsnap & Hnew & Hsigners & Hrecents & _).
  now exists num, snap, c1, snap'.
Defined.

Lemma UpdateMasternodes_then_IsAuthorisedAddress_witness :
  let c' := set_recents Mining.engineU
              (<[Example.numberHash 1 :=
                   setSigners Mining.snapshot1
                     (list_to_set [Example.A; Example.X])]>
                 (recents Mining.engineU)) in
  IsAuthorisedAddress Example.block1 Example.chain Example.X c'
  = Some (bool_decide (Example.X ∈ Masternode.Address <$> Mining.newMasternodes),
          c') /\
  IsAuthorisedAddress Example.block1 Example.chain Example.B c'
  = Some (bool_decide (Example.B ∈ Masternode.Address <$> Mining.newMasternodes),
          c').
Proof.
  intros c'.
  assert (Hrun : UpdateMasternodes Example.chain Example.block1
                   Mining.newMasternodes Mining.engineU = Some (None, c'))
    by exact example_UpdateMasternodes.
  assert (Hhash : forall snap c1,
             snapshot Example.chain (Uint64 1) (HeaderHash Example.block1) []
               Mining.engineU = Some (inr snap, c1) ->
             SnapshotV1.Hash snap = HeaderHash Example.block1).
  { intros snap c1.
    rewrite (example_snapshot _ _ _ _ _ Mining.snapshot1) by reflexivity.
    intros Heq. now injection Heq as <- _. }
  assert (Hcached : forall snap,
             recents c' !! HeaderHash Example.block1 = Some snap ->
             snapshot Example.chain (Uint64 1) (HeaderHash Example.block1) [] c'
             = Some (inr snap, c'))
    by (intros snap Hsnap; now apply example_snapshot).
  split;
    exact (UpdateMasternodes_then_IsAuthorisedAddress Mining.engineU c'
             Example.chain Example.block1 Mining.newMasternodes 1 eq_refl
             Hrun Hhash Hcached _).
Defined.

(** ** Preparing a block *)

(** The checkpoint 900 and block 2, with its vote, as [Prepare] leaves
    them. *)
Lemma example_Prepare900 :
  Prepare Mining.validVote Mining.Intn 0 0 Mining.proposer Example.chain
    (Mining.template 900) Example.engine1
  = Some ((Mining.prepared900, None), Mining.engine1After 899 Example.B).
Proof. by_evaluation. Qed.

Lemma example_Prepare2 :
  Prepare Mining.validVote Mining.Intn 1000 1000 Mining.proposer Example.chain
    (Mining.template 2) Example.engine1
  = Some ((Mining.prepared2, None), Mining.engine1After 1 Example.A).
Proof. by_evaluation. Qed.

(** The helpers of the example keep to the laws that the theorems on
    [Prepare] ask of [common] and [utils]. *)
Lemma example_RemoveItemFromArray_addresses20 (l1 l2 : list common.Address) :
  addresses20 l1 -> addresses20 (RemoveItemFromArray l1 l2).
Proof.
  unfold addresses20. simpl. intros Hl.
  induction Hl as [|a l Ha Hl IH]; [constructor|].
  destruct (decide (a ∉ l2)).
  - rewrite filter_cons_True by assumption. now constructor.
  - now rewrite filter_cons_False by assumption.
Qed.

Lemma example_RemoveItemFromArray_nil (l : list common.Address) :
  RemoveItemFromArray l [] = l.
Proof.
  simpl. induction l as [|a l IH]; [reflexivity|].
  rewrite filter_cons_True by apply not_elem_of_nil. now rewrite IH.
Qed.

Lemma example_chunks (l : list common.Address) (fuel : nat) :
  addresses20 l -> (length l <= fuel)%nat ->
  Example.chunks 20 (concat l) fuel = l.
Proof.
  intros Hl. revert fuel.
  induction Hl as [|a l Ha Hl IH]; intros fuel Hfuel.
  - now destruct fuel.
  - destruct fuel as [|fuel]; [simpl in Hfuel; lia|].
    simpl. destruct (a ++ concat l) as [|b rest] eqn:Happ.
    + apply (f_equal length) in Happ. rewrite length_app in Happ.
      simpl in Happ. lia.
    + rewrite <- Happ.
      rewrite take_app_length' by (symmetry; exact Ha).
      rewrite drop_app_length' by (symmetry; exact Ha).
      rewrite IH by (simpl in Hfuel; lia). reflexivity.
Qed.

Lemma example_ExtractAddressFromBytes (l : list common.Address) :
  addresses20 l -> ExtractAddressFromBytes (concat l) = l.
Proof.
  intros Hl. simpl. apply example_chunks; [exact Hl|].
  induction Hl as [|a l Ha Hl IH]; [simpl; lia|].
  simpl. rewrite length_app. lia.
Qed.

Lemma example_CompareSignersLists (l : list common.Address) :
  CompareSignersLists l l = true.
Proof. simpl. now apply bool_decide_eq_true_2. Qed.

Lemma example_snapshot899 (snap : SnapshotV1.t) (c1 : XDPoS_v1) :
  snapshot Example.chain (u64 (Uint64 900 - 1))
    (ParentHash (Mining.template 900)) [] Example.engine1
  = Some (inr snap, c1) ->
  addresses20 (GetSigners snap) /\ c1 = Example.engine1.
Proof.
  rewrite (example_snapshot _ _ _ _ _
             (Example.snapshotOf [Example.A; Example.B] [])) by reflexivity.
  intros Heq. injection Heq as <- <-.
  split; [|reflexivity]. vm_compute. repeat constructor.
Qed.

Lemma Prepare_extra_roundtrip_witness :
  exists ms,
    Extra Mining.prepared900
    = take 32 (Extra (Mining.template 900)
               ++ replicate (32 - length (Extra (Mining.template 900))) x00)
      ++ concat ms ++ replicate 65 x00 /\
    (addresses20 ms ->
     GetMasternodesFromCheckpointHeader Mining.prepared900 = Some ms).
Proof.
  destruct (Prepare_extra_roundtrip _ _ _ _ _ _ _ _ _ _ example_Prepare900)
    as (num & snap & c1 & ms & _ & _ & Hextra & _ & Hread).
  now exists ms.
Defined.

Lemma Prepare_vote_witness :
  exists num snap c1,
    Number (Mining.template 2) = Some num /\
    snapshot Example.chain (u64 (Uint64 num - 1))
      (ParentHash (Mining.template 2)) [] Example.engine1
    = Some (inr snap, c1) /\
    (Uint64 num mod Epoch (config c1) = 0 ->
     Coinbase Mining.prepared2 = common.zeroAddress /\
     Nonce Mining.prepared2 = utils.NonceDropVote) /\
    (Uint64 num mod Epoch (config c1) <> 0 ->
     (Coinbase Mining.prepared2 = common.zeroAddress /\
      Nonce Mining.prepared2 = utils.NonceDropVote /\
      forall a b, proposals Mining.proposer !! a = Some b ->
                  Mining.validVote snap a b = false) \/
     (exists authorize,
        proposals Mining.proposer !! Coinbase Mining.prepared2 = Some authorize /\
        Mining.validVote snap (Coinbase Mining.prepared2) authorize = true /\
        Nonce Mining.prepared2 = if authorize then utils.NonceAuthVote
                                 else utils.NonceDropVote)).
Proof.
  exact (Prepare_vote _ _ _ _ _ _ _ _ _ _ example_Prepare2).
Defined.

Lemma Prepare_difficulty_and_time_witness :
  exists num snap c1 parent,
    Number (Mining.template 2) = Some num /\
    snapshot Example.chain (u64 (Uint64 num - 1))
      (ParentHash (Mining.template 2)) [] Example.engine1
    = Some (inr snap, c1) /\
    GetHeader Example.chain (ParentHash (Mining.template 2))
      (u64 (Uint64 num - 1)) = Some parent /\
    calcDifficulty Example.chain parent (signer c1) c1
    = Some (Difficulty Mining.prepared2, Mining.engine1After 1 Example.A) /\
    Time Mining.prepared2
    = (if Int64 (Time parent + 2) <? 1000 then 1000 else Time parent + 2).
Proof.
  destruct (Prepare_difficulty_and_time _ _ _ _ _ _ _ _ _ _ example_Prepare2)
    as (num & snap & c1 & parent & Hnum & Hsnap & Hparent & Hdiff & Htime & _).
  now exists num, snap, c1, parent.
Defined.

Lemma Prepare_clears_standalone_checks_witness :
  Standalone Example.engine1 0 Example.chain Mining.prepared900 900 false /\
  verifyHeader 0 Example.chain Mining.prepared900 [] false Example.engine1
  = verifyCascadingFields Example.chain Mining.prepared900 [] false
      Example.engine1.
Proof.
  apply (Prepare_clears_standalone_checks _ _ _ _ _ _ _ _ _ _ 900
           example_Prepare900).
  - reflexivity.
  - intros snap c1 Hsnap.
    destruct (example_snapshot899 snap c1 Hsnap) as [Hsigners ->].
    split; [exact Hsigners | reflexivity].
  - exact example_RemoveItemFromArray_addresses20.
  - reflexivity.
  - reflexivity.
  - reflexivity.
Defined.

Lemma Prepare_passes_signer_check_witness :
  exists snap c1 ms,
    snapshot Example.chain (u64 (Uint64 900 - 1))
      (ParentHash (Mining.template 900)) [] Example.engine1
    = Some (inr snap, c1) /\
    GetMasternodesFromCheckpointHeader Mining.prepared900 = Some ms /\
    checkSignersOnCheckpoint (Mining.engine1After 899 Example.B) Example.chain
      Mining.prepared900 (GetSigners snap)
    = Some None.
Proof.
  apply (Prepare_passes_signer_check _ _ _ _ _ _ _ _ _ _ 900
           example_Prepare900).
  - reflexivity.
  - by_computation.
  - by_computation.
  - reflexivity.
  - reflexivity.
  - intros snap c1 Hsnap. apply (example_snapshot899 snap c1 Hsnap).
  - exact example_RemoveItemFromArray_addresses20.
  - exact example_RemoveItemFromArray_nil.
  - exact example_ExtractAddressFromBytes.
  - exact example_CompareSignersLists.
Defined.
